(** * Antrea agent: packet-in pipeline, policy query handler, flow records

    A shallow embedding of three pieces of the Antrea node agent:

    - [PacketIn]: package [networkpolicy] of the agent controller, the
      packet-in handler ([HandlePacketIn], [logPacket], [getMatch],
      [getInfoInReg], [getNetworkPolicyInfo], [getPacketInfo],
      [rejectRequest], [getTCPHeaderData], [getBasePacketOutBuilder]);
    - [Handler]: [pkg/agent/apiserver/handlers/networkpolicy/handler.go]
      ([HandleFunc], [NewFilterFromURLQuery]);
    - [FlowExporter]: the connection store and the flow records exercised
      by [TestConnectionStoreAndFlowRecords].

    Go values are modelled as they are declared: [uintN] as [Z] with the
    wrap-around written out, [[]byte] as [list byte], Go maps as [gmap],
    interfaces as classes or records of operations, a nil pointer as
    [None].  Calls that leave the package (logger, OpenFlow client,
    response writer) are recorded in a trace. *)

From Stdlib Require Import ZArith Ascii String List Lia Strings.Byte.
From stdpp Require Import base gmap strings list pretty.

Open Scope Z_scope.

(** ** Go runtime: outcomes, fixed-width integers, slices, [fmt.Sprintf] *)

Module Go.

(** A Go call returns normally, returns a non-nil [error], or panics. *)
Inductive result (A : Type) : Type :=
| Ok (a : A)
| Err (e : string)
| Panic (p : string).
Arguments Ok {A} a.
Arguments Err {A} e.
Arguments Panic {A} p.

Definition uint16 (z : Z) : Z := z mod 2 ^ 16.
Definition uint32 (z : Z) : Z := z mod 2 ^ 32.

(** [make([]byte, n)] *)
Definition make_bytes (n : Z) : list byte := replicate (Z.to_nat n) x00.

Definition byte_of_Z (z : Z) : byte :=
  default x00 (Byte.of_N (Z.to_N (z mod 256))).

(** [binary.BigEndian.PutUint32(b, v)]: panics when [len(b) < 4], else
    overwrites the first four bytes. *)
Definition PutUint32 (b : list byte) (v : Z) : result (list byte) :=
  if (Z.of_nat (length b) <? 4) then Panic "index out of range"
  else Ok ([byte_of_Z (Z.shiftr v 24); byte_of_Z (Z.shiftr v 16);
            byte_of_Z (Z.shiftr v 8); byte_of_Z v] ++ drop 4 b).

(** [copy(dst, src)]: copies [min(len(dst), len(src))] elements. *)
Definition copy (dst src : list byte) : list byte :=
  take (length dst) src ++ drop (length src) dst.

(** [s[:n]] on a slice whose capacity equals its length. *)
Definition slice_to (s : list byte) (n : Z) : result (list byte) :=
  if (Z.of_nat (length s) <? n) then Panic "slice bounds out of range"
  else Ok (take (Z.to_nat n) s).

(** Arguments of [fmt.Sprintf]; only the verbs the sources use are
    interpreted: [%s] and [%v] on a string, [%d] and [%v] on an integer. *)
Inductive Arg : Type :=
| AStr (s : string)
| AInt (z : Z).

Definition render (verb : ascii) (a : Arg) : string :=
  match a with
  | AStr s =>
      if bool_decide (verb = "s"%char) || bool_decide (verb = "v"%char) then s
      else "%!" +:+ String verb ("(string=" +:+ s +:+ ")")
  | AInt z =>
      if bool_decide (verb = "d"%char) || bool_decide (verb = "v"%char) then pretty z
      else "%!" +:+ String verb ("(int=" +:+ pretty z +:+ ")")
  end.

Fixpoint Sprintf (fmt : string) (args : list Arg) : string :=
  match fmt with
  | EmptyString => EmptyString
  | String c rest =>
      if bool_decide (c = "%"%char) then
        match rest with
        | EmptyString => "%!(NOVERB)"
        | String v rest' =>
            match args with
            | a :: args' => render v a +:+ Sprintf rest' args'
            | [] => "%!" +:+ String v ("(MISSING)" +:+ Sprintf rest' [])
            end
        end
      else String c (Sprintf rest args)
  end.

End Go.
Export Go.

(** ** Package [networkpolicy] of the agent controller: packet-in handling *)

Module PacketIn.

(** Constants of the package. *)
Definition EthHdrLen : Z := 14.
Definition IPv4HdrLen : Z := 20.
Definition IPv6HdrLen : Z := 40.
Definition TCPHdrLen : Z := 20.
Definition ICMPUnusedHdrLen : Z := 4.

(** Protocol numbers the package reads from [libOpenflow/protocol] and
    from [pkg/apis/ops/v1alpha1]. *)
Definition IPv4_MSG : Z := 0x0800.
Definition IPv6_MSG : Z := 0x86dd.
Definition Type_TCP : Z := 6.
Definition EtherTypeIPv4 : Z := 0x0800.

(** *** Packets as [ofctrl] and [libOpenflow] deliver them *)

Definition IP : Type := list byte.
Definition HardwareAddr : Type := list byte.

(** The [util.Message] an IP packet carries: a [*util.Buffer] or something
    else. *)
Inductive Payload : Type :=
| Buffer (bytes : list byte)
| OtherPayload.

Record IPv4 : Type := {
  NWSrc : IP;
  NWDst : IP;
  Length : Z;        (* uint16 *)
  Protocol : Z;      (* uint8 *)
  IPv4Data : Payload }.

Record IPv6 : Type := {
  NWSrc6 : IP;
  NWDst6 : IP;
  NextHeader : Z;    (* uint8 *)
  IPv6Data : Payload }.

(** The [util.Message] of an Ethernet frame, by dynamic type. *)
Inductive Message : Type :=
| MsgIPv4 (p : IPv4)
| MsgIPv6 (p : IPv6)
| MsgOther.

Record Ethernet : Type := {
  HWDst : HardwareAddr;
  HWSrc : HardwareAddr;
  Ethertype : Z;     (* uint16 *)
  EthData : Message }.

Record TCP : Type := {
  PortSrc : Z;       (* uint16 *)
  PortDst : Z;       (* uint16 *)
  SeqNum : Z;        (* uint32 *)
  AckNum : Z }.      (* uint32 *)

(** The dynamic type behind [MatchField.GetValue()]. *)
Inductive MatchValue : Type :=
| NXRegister (Data : Z)      (* *ofctrl.NXRegister, Data uint32 *)
| OtherValue.

Record MatchField : Type := { Value : MatchValue }.

(** [ofctrl.Matchers]: match fields by name; [GetMatchByName] is the
    lookup, a missing name gives a nil pointer. *)
Abbreviation Matchers := (gmap string MatchField).

Record PacketIn : Type := {
  TableId : Z;       (* uint8 *)
  Matches : Matchers;
  Data : Ethernet }.

(** [binding.Range], a pair of bit positions. *)
Definition Range : Type := (Z * Z)%type.

(** *** Declarations the package imports *)

(** Package [pkg/agent/openflow]: registers, ranges, marks and tables. *)
Class Openflow : Type := {
  CustomReasonMarkReg : Z;
  DispositionMarkReg : Z;
  CNPNotAllowConjIDReg : Z;
  EgressReg : Z;
  IngressReg : Z;
  CustomReasonMarkRange : Range;
  APDispositionMarkRange : Range;
  CustomReasonLogging : Z;
  CustomReasonReject : Z;
  DispositionAllow : Z;
  DispositionToString : gmap Z string;
  GetAntreaPolicyEgressTables : list Z;
  GetAntreaPolicyIngressTables : list Z;
  EgressRuleTable : Z;
  IngressRuleTable : Z;
  GetFlowTableName : Z -> string }.

(** Package [pkg/apis/ops/v1alpha1]. *)
Class Ops : Type := {
  ProtocolsToString : gmap Z string }.

(** Operations of [ofctrl], [libOpenflow] and [net] the package calls. *)
Class Libs : Type := {
  GetUint32ValueWithRange : Z -> Range -> Z;
  TCP_UnmarshalBinary : list byte -> result TCP;
  MarshalBinary : Message -> list byte;
  IP_String : IP -> string;
  MAC_String : HardwareAddr -> string }.

(** *** The controller and what it talks to *)

Record InterfaceConfig : Type := { OFPort : Z }.   (* int32 *)

(** [interfacestore.InterfaceStore], the one method used here. *)
Record InterfaceStore : Type := {
  GetInterfaceByIP : string -> option InterfaceConfig }.

(** [openflow.Client], the methods used here; [B] is
    [binding.PacketOutBuilder]. *)
Record Client (B : Type) : Type := {
  GetPolicyInfoFromConjunction : Z -> string * string;
  GenBasePacketOutBuilder :
    string -> string -> string -> string -> Z -> Z -> result B;
  SendTCPReject : B -> Z -> Z -> Z -> Z -> bool -> option string;
  SendICMPReject : B -> list byte -> bool -> option string }.
Arguments GetPolicyInfoFromConjunction {B} _ _.
Arguments GenBasePacketOutBuilder {B} _ _ _ _ _ _ _.
Arguments SendTCPReject {B} _ _ _ _ _ _ _.
Arguments SendICMPReject {B} _ _ _ _.

Record Controller (B : Type) : Type := {
  ofClient : Client B;
  ifaceStore : InterfaceStore }.
Arguments ofClient {B} _.
Arguments ifaceStore {B} _.

(** The two operations [HandlePacketIn] chooses between. *)
Inductive Handler : Type := LogPacketH | RejectRequestH.

(** What an execution does outside the package, in order.  [Invoke] marks
    the entry into a handler. *)
Inductive Event (B : Type) : Type :=
| Invoke (h : Handler)
| Printf (line : string)
| CallGenBasePacketOutBuilder
    (srcMAC dstMAC srcIP dstIP : string) (inPort outPort : Z)
| CallSendTCPReject (b : B) (srcPort dstPort seqNum ackNum : Z) (isIPv6 : bool)
| CallSendICMPReject (b : B) (data : list byte) (isIPv6 : bool).
Arguments Invoke {B} h.
Arguments Printf {B} line.
Arguments CallGenBasePacketOutBuilder {B} _ _ _ _ _ _.
Arguments CallSendTCPReject {B} _ _ _ _ _ _.
Arguments CallSendICMPReject {B} _ _ _.

(** The events that build or send a packet-out. *)
Definition isPacketOut {B} (e : Event B) : bool :=
  match e with
  | CallGenBasePacketOutBuilder _ _ _ _ _ _ => true
  | CallSendTCPReject _ _ _ _ _ _ => true
  | CallSendICMPReject _ _ _ => true
  | _ => false
  end.

(** [carries m bytes]: the IP packet [m] carries the buffer [bytes]. *)
Definition carries (m : Message) (bytes : list byte) : Prop :=
  match m with
  | MsgIPv4 p => IPv4Data p = Buffer bytes
  | MsgIPv6 p => IPv6Data p = Buffer bytes
  | MsgOther => False
  end.

(** A computation: the trace it leaves and how it ends. *)
Definition M (B A : Type) : Type := (list (Event B) * result A)%type.

Definition ret {B A} (a : A) : M B A := ([], Ok a).

Definition bind {B A A'} (m : M B A) (k : A -> M B A') : M B A' :=
  match m with
  | (t, Ok a) => let '(t', r) := k a in (t ++ t', r)
  | (t, Err e) => (t, Err e)
  | (t, Panic p) => (t, Panic p)
  end.

Notation "x <- m ;; k" := (bind m (fun x => k))
  (at level 100, m at next level, right associativity).

Definition emit {B} (e : Event B) : M B unit := ([e], Ok tt).
Definition liftR {B A} (r : result A) : M B A := ([], r).
Definition fail {B A} (e : string) : M B A := ([], Err e).

(** [if err != nil { return fmt.Errorf(format, err) }] around a call. *)
Definition wrapErr {B A} (format : string) (m : M B A) : M B A :=
  match m with
  | (t, Err e) => (t, Err (Sprintf format [AStr e]))
  | other => other
  end.

(** A call that returns only an [error]. *)
Definition call {B} (e : Event B) (err : option string) : M B unit :=
  ([e], match err with None => Ok tt | Some msg => Err msg end).

(** [logInfo] is set by retrieving info from packetin and register. *)
Record logInfo : Type := {
  tableName : string;
  npRef : string;
  disposition : string;
  ofPriority : string;
  srcIP : string;
  destIP : string;
  pktLength : Z;     (* uint16 *)
  protocolStr : string }.

(** [new(logInfo)] *)
Definition new_logInfo : logInfo :=
  {| tableName := ""; npRef := ""; disposition := ""; ofPriority := "";
     srcIP := ""; destIP := ""; pktLength := 0; protocolStr := "" |}.

Section Operations.
Context `{Openflow} `{Ops} `{Libs} {B : Type}.

(** [getMatchRegField] returns match to the regNum register. *)
Definition getMatchRegField (matchers : Matchers) (regNum : Z)
  : option MatchField :=
  matchers !! Sprintf "NXM_NX_REG%d" [AInt regNum].

(** [getMatch] receives ofctrl matchers and table id, match field, and
    picks the ingress, egress or not-allow register. *)
Definition getMatch (matchers : Matchers) (tableID : Z) (disposition : Z)
  : option MatchField :=
  if negb (disposition =? DispositionAllow) then
    getMatchRegField matchers (uint32 CNPNotAllowConjIDReg)
  else if existsb (Z.eqb tableID)
            (GetAntreaPolicyEgressTables ++ [EgressRuleTable]) then
    getMatchRegField matchers (uint32 EgressReg)
  else if existsb (Z.eqb tableID)
            (GetAntreaPolicyIngressTables ++ [IngressRuleTable]) then
    getMatchRegField matchers (uint32 IngressReg)
  else None.

(** [getInfoInReg] unloads and returns data stored in the match field.
    [regMatch.GetValue()] dereferences the pointer. *)
Definition getInfoInReg (regMatch : option MatchField) (rng : option Range)
  : result Z :=
  match regMatch with
  | None => Panic "invalid memory address or nil pointer dereference"
  | Some m =>
      match Value m with
      | NXRegister data =>
          match rng with
          | Some r => Ok (GetUint32ValueWithRange data r)
          | None => Ok data
          end
      | OtherValue => Err "register value cannot be retrieved"
      end
  end.

(** [getNetworkPolicyInfo] fills in tableName, npName, ofPriority,
    disposition of logInfo ob. *)
Definition getNetworkPolicyInfo (pktIn : PacketIn) (c : Controller B)
    (ob : logInfo) : M B logInfo :=
  let matchers := Matches pktIn in
  let tableID := TableId pktIn in
  let ob1 :=
    {| tableName := GetFlowTableName tableID; npRef := npRef ob;
       disposition := disposition ob; ofPriority := ofPriority ob;
       srcIP := srcIP ob; destIP := destIP ob; pktLength := pktLength ob;
       protocolStr := protocolStr ob |} in
  let match1 := getMatchRegField matchers (uint32 DispositionMarkReg) in
  info <- wrapErr "received error while unloading disposition from reg: %v"
            (liftR (getInfoInReg match1 (Some APDispositionMarkRange))) ;;
  let ob2 :=
    {| tableName := tableName ob1; npRef := npRef ob1;
       disposition := default "" (DispositionToString !! info);
       ofPriority := ofPriority ob1;
       srcIP := srcIP ob1; destIP := destIP ob1; pktLength := pktLength ob1;
       protocolStr := protocolStr ob1 |} in
  let match2 := getMatch matchers tableID info in
  info2 <- wrapErr "received error while unloading conjunction id from reg: %v"
             (liftR (getInfoInReg match2 None)) ;;
  let '(np, prio) := GetPolicyInfoFromConjunction (ofClient c) info2 in
  ret {| tableName := tableName ob2; npRef := np;
         disposition := disposition ob2; ofPriority := prio;
         srcIP := srcIP ob2; destIP := destIP ob2; pktLength := pktLength ob2;
         protocolStr := protocolStr ob2 |}.

(** [getPacketInfo] fills in srcIP, destIP, pktLength, protocol of logInfo
    ob. *)
Definition getPacketInfo (pktIn : PacketIn) (ob : logInfo) : M B logInfo :=
  if Ethertype (Data pktIn) =? EtherTypeIPv4 then
    match EthData (Data pktIn) with
    | MsgIPv4 ipPacket =>
        ret {| tableName := tableName ob; npRef := npRef ob;
               disposition := disposition ob; ofPriority := ofPriority ob;
               srcIP := IP_String (NWSrc ipPacket);
               destIP := IP_String (NWDst ipPacket);
               pktLength := Length ipPacket;
               protocolStr :=
                 default "" (ProtocolsToString !! Protocol ipPacket) |}
    | _ => fail "invalid IPv4 packet"
    end
  else ret ob.

(** [logPacket] retrieves information from openflow reg, controller cache,
    packet-in packet to log. *)
Definition logPacket (c : Controller B) (pktIn : PacketIn) : M B unit :=
  _ <- emit (Invoke LogPacketH) ;;
  let ob := new_logInfo in
  ob1 <- wrapErr "received error while retrieving NetworkPolicy info: %v"
           (getNetworkPolicyInfo pktIn c ob) ;;
  ob2 <- wrapErr "received error while handling packetin for NetworkPolicy: %v"
           (getPacketInfo pktIn ob1) ;;
  emit (Printf (Sprintf "%s %s %s %s SRC: %s DEST: %s %d %s"
                  [AStr (tableName ob2); AStr (npRef ob2);
                   AStr (disposition ob2); AStr (ofPriority ob2);
                   AStr (srcIP ob2); AStr (destIP ob2);
                   AInt (pktLength ob2); AStr (protocolStr ob2)])).

(** [getTCPHeaderData] gets TCP header data used in the reject packet.
    A [*util.Buffer] marshals to its bytes with a nil error; any other
    payload fails the type assertion. *)
Definition getTCPHeaderData (ipPkt : Message) : result (Z * Z * Z * Z) :=
  let tcpBytes :=
    match ipPkt with
    | MsgIPv4 p =>
        match IPv4Data p with
        | Buffer bytes => Ok bytes
        | OtherPayload => Panic "interface conversion: not *util.Buffer"
        end
    | MsgIPv6 p =>
        match IPv6Data p with
        | Buffer bytes => Ok bytes
        | OtherPayload => Panic "interface conversion: not *util.Buffer"
        end
    | MsgOther => Ok []
    end in
  match tcpBytes with
  | Ok bytes =>
      match TCP_UnmarshalBinary bytes with
      | Ok tcpIn => Ok (PortDst tcpIn, PortSrc tcpIn, 0, uint32 (SeqNum tcpIn + 1))
      | Err e => Err e
      | Panic p => Panic p
      end
  | Err e => Err e
  | Panic p => Panic p
  end.

(** [getBasePacketOutBuilder] gets a base IP packetOutBuilder with src&dst
    MAC, IP and OFPort set. *)
Definition getBasePacketOutBuilder (c : Controller B)
    (srcMAC dstMAC srcIP dstIP : string) : M B B :=
  let sIface := GetInterfaceByIP (ifaceStore c) srcIP in
  let dIface := GetInterfaceByIP (ifaceStore c) dstIP in
  match sIface, dIface with
  | Some sIface, Some dIface =>
      _ <- emit (CallGenBasePacketOutBuilder srcMAC dstMAC srcIP dstIP
                   (uint32 (OFPort sIface)) (uint32 (OFPort dIface))) ;;
      liftR (GenBasePacketOutBuilder (ofClient c) srcMAC dstMAC srcIP dstIP
               (uint32 (OFPort sIface)) (uint32 (OFPort dIface)))
  | _, _ => fail "couldn't find Pod config by IP"
  end.

(** The [switch pktIn.Data.Ethertype] of [rejectRequest]: source and
    destination IP of the response, protocol and IP header length.  The
    type assertions are unchecked; when no case matches the four variables
    keep their zero values. *)
Definition rejectIPData (pktIn : PacketIn) : result (string * string * Z * Z) :=
  if Ethertype (Data pktIn) =? IPv4_MSG then
    match EthData (Data pktIn) with
    | MsgIPv4 ipv4In =>
        Ok (IP_String (NWDst ipv4In), IP_String (NWSrc ipv4In),
            Protocol ipv4In, IPv4HdrLen)
    | _ => Panic "interface conversion: not *protocol.IPv4"
    end
  else if Ethertype (Data pktIn) =? IPv6_MSG then
    match EthData (Data pktIn) with
    | MsgIPv6 ipv6In =>
        Ok (IP_String (NWDst6 ipv6In), IP_String (NWSrc6 ipv6In),
            NextHeader ipv6In, IPv6HdrLen)
    | _ => Panic "interface conversion: not *protocol.IPv6"
    end
  else Ok ("", "", 0, 0).

(** The ICMP payload the [default] case of [rejectRequest] builds from the
    marshalled IP packet. *)
Definition buildICMPData (ipHdr : list byte) (ipHdrLen : Z)
  : result (list byte) :=
  let ICMPData := make_bytes (uint16 (ICMPUnusedHdrLen + ipHdrLen + 8)) in
  match slice_to ICMPData ICMPUnusedHdrLen with
  | Ok unused =>
      match PutUint32 unused 0 with
      | Ok unused' =>
          let ICMPData1 := unused' ++ drop (Z.to_nat ICMPUnusedHdrLen) ICMPData in
          match slice_to ipHdr (uint16 (ipHdrLen + 8)) with
          | Ok quoted =>
              Ok (take (Z.to_nat ICMPUnusedHdrLen) ICMPData1 ++
                  copy (drop (Z.to_nat ICMPUnusedHdrLen) ICMPData1) quoted)
          | Err e => Err e
          | Panic p => Panic p
          end
      | Err e => Err e
      | Panic p => Panic p
      end
  | Err e => Err e
  | Panic p => Panic p
  end.

(** [rejectRequest] sends reject response to the requesting client, based
    on the packet-in message. *)
Definition rejectRequest (c : Controller B) (pktIn : PacketIn) : M B unit :=
  _ <- emit (Invoke RejectRequestH) ;;
  let srcMAC := HWDst (Data pktIn) in
  let dstMAC := HWSrc (Data pktIn) in
  ipd <- liftR (rejectIPData pktIn) ;;
  let '(srcIP, dstIP, prot, ipHdrLen) := ipd in
  pktOutBuilder <- getBasePacketOutBuilder c (MAC_String srcMAC)
                     (MAC_String dstMAC) srcIP dstIP ;;
  if prot =? Type_TCP then
    tcp <- liftR (getTCPHeaderData (EthData (Data pktIn))) ;;
    let '(TCPSrcPort, TCPDstPort, TCPSeqNum, TCPAckNum) := tcp in
    call (CallSendTCPReject pktOutBuilder TCPSrcPort TCPDstPort TCPSeqNum
            TCPAckNum false)
         (SendTCPReject (ofClient c) pktOutBuilder TCPSrcPort TCPDstPort
            TCPSeqNum TCPAckNum false)
  else
    let ipHdr := MarshalBinary (EthData (Data pktIn)) in
    ICMPData <- liftR (buildICMPData ipHdr ipHdrLen) ;;
    call (CallSendICMPReject pktOutBuilder ICMPData false)
         (SendICMPReject (ofClient c) pktOutBuilder ICMPData false).

(** [HandlePacketIn] is the packetin handler registered to openflow by
    Antrea network policy agent controller.  It performs the appropriate
    operations based on which bits are set in the custom reasons field of
    the packet received from OVS.  A nil [pktIn] is [None]. *)
Definition HandlePacketIn (c : Controller B) (pktIn : option PacketIn)
  : M B unit :=
  match pktIn with
  | None => fail "empty packetin for Antrea Policy"
  | Some pktIn =>
      let matchers := Matches pktIn in
      let match1 := getMatchRegField matchers (uint32 CustomReasonMarkReg) in
      customReasons <-
        wrapErr "received error while unloading customReason from reg: %v"
          (liftR (getInfoInReg match1 (Some CustomReasonMarkRange))) ;;
      _ <- (if Z.land customReasons CustomReasonLogging =? CustomReasonLogging
            then logPacket c pktIn else ret tt) ;;
      _ <- (if Z.land customReasons CustomReasonReject =? CustomReasonReject
            then rejectRequest c pktIn else ret tt) ;;
      ret tt
  end.

End Operations.

End PacketIn.

(** ** [pkg/agent/apiserver/handlers/networkpolicy/handler.go] *)

Module Handler.

(** [cpv1beta1.NetworkPolicyType] is a string type; the zero value is the
    empty string. *)
Definition NetworkPolicyType : Type := string.
Definition K8sNetworkPolicy : NetworkPolicyType := "K8sNetworkPolicy".
Definition AntreaClusterNetworkPolicy : NetworkPolicyType :=
  "AntreaClusterNetworkPolicy".
Definition AntreaNetworkPolicy : NetworkPolicyType := "AntreaNetworkPolicy".

Record NetworkPolicyQueryFilter : Type := {
  Name : string;
  Namespace : string;
  Pod : string;
  SourceType : NetworkPolicyType }.

(** [url.Values] and its [Get]: the first value of the key, or the empty
    string. *)
Abbreviation Values := (gmap string (list string)).

Definition Get (query : Values) (key : string) : string :=
  match query !! key with
  | Some (v :: _) => v
  | _ => ""
  end.

(** From user shorthand input to [cpv1beta1.NetworkPolicyType]. *)
Definition mapToNetworkPolicyType : gmap string NetworkPolicyType :=
  list_to_map
    [ ("np", K8sNetworkPolicy);
      ("NP", K8sNetworkPolicy);
      ("k8snp", K8sNetworkPolicy);
      ("K8snp", K8sNetworkPolicy);
      ("K8sNP", K8sNetworkPolicy);
      ("cnp", AntreaClusterNetworkPolicy);
      ("CNP", AntreaClusterNetworkPolicy);
      ("anp", AntreaNetworkPolicy);
      ("ANP", AntreaNetworkPolicy) ].

(** Create a Network Policy Filter from URL Query. *)
Definition NewFilterFromURLQuery (query : Values) : NetworkPolicyQueryFilter :=
  {| Name := Get query "name";
     Namespace := Get query "namespace";
     Pod := Get query "pod";
     SourceType :=
       default "" (mapToNetworkPolicyType !! Get query "reference") |}.

Definition StatusBadRequest : Z := 400.
Definition StatusInternalServerError : Z := 500.

Section Handle.
(** [NP] is [cpv1beta1.NetworkPolicy], [IC] is
    [*interfacestore.InterfaceConfig]. *)
Context {NP IC : Type}.

(** [cpv1beta1.NetworkPolicyList], the field the handler sets. *)
Record NetworkPolicyList : Type := { Items : list NP }.

(** [querier.AgentQuerier] with the queriers it hands out:
    [GetNetworkPolicyInfoQuerier()] for the first two methods,
    [GetInterfaceStore()] for the third. *)
Record AgentQuerier : Type := {
  GetNetworkPolicies : NetworkPolicyQueryFilter -> list NP;
  GetAppliedNetworkPolicies :
    string -> string -> NetworkPolicyQueryFilter -> list NP;
  GetContainerInterfacesByPod : string -> string -> list IC }.

(** What the handler does to the querier and to the response writer. *)
Inductive Event : Type :=
| QueryNetworkPolicies (f : NetworkPolicyQueryFilter)
| QueryAppliedNetworkPolicies (pod ns : string) (f : NetworkPolicyQueryFilter)
| QueryContainerInterfacesByPod (pod ns : string)
| JSONEncode (obj : NetworkPolicyList)
| HttpError (msg : string) (code : Z).

(** [encodeErr obj] is the error of [json.NewEncoder(w).Encode(obj)], if
    any.  [HandleFunc aq] is the handler; it is run on the query of the
    request URL.  [nps] stays [None] on the early return. *)
Definition HandleFunc (encodeErr : NetworkPolicyList -> option string)
    (aq : AgentQuerier) (query : Values) : list Event :=
  let npFilter := NewFilterFromURLQuery query in
  let '(t, nps) :=
    if negb (String.eqb (Pod npFilter) "") then
      if String.eqb (Namespace npFilter) "" then
        ([HttpError "With a pod name, namespace must be provided"
            StatusBadRequest], None)
      else
        let interfaces :=
          GetContainerInterfacesByPod aq (Pod npFilter) (Namespace npFilter) in
        if (0 <? Z.of_nat (length interfaces)) then
          ([QueryContainerInterfacesByPod (Pod npFilter) (Namespace npFilter);
            QueryAppliedNetworkPolicies (Pod npFilter) (Namespace npFilter)
              npFilter],
           Some (GetAppliedNetworkPolicies aq (Pod npFilter)
                   (Namespace npFilter) npFilter))
        else
          ([QueryContainerInterfacesByPod (Pod npFilter) (Namespace npFilter)],
           Some [])
    else
      ([QueryNetworkPolicies npFilter], Some (GetNetworkPolicies aq npFilter))
  in
  match nps with
  | None => t
  | Some nps =>
      let obj := {| Items := nps |} in
      t ++ JSONEncode obj ::
        match encodeErr obj with
        | Some err =>
            [HttpError ("Failed to encode response: " +:+ err)
               StatusInternalServerError]
        | None => []
        end
  end.

End Handle.
Arguments NetworkPolicyList : clear implicits.
Arguments AgentQuerier : clear implicits.
Arguments Event : clear implicits.

End Handler.

(** ** Connection store and flow records

    [TestConnectionStoreAndFlowRecords] drives [connections.ConnectionStore]
    and [flowrecords.FlowRecords], whose sources are not at hand; the
    operations are modelled from the specification, and the types carry
    the fields the test sets and reads. *)

Module FlowExporter.

Definition IP : Type := list Z.

Record Tuple : Type := {
  SourceAddress : IP;
  DestinationAddress : IP;
  Protocol : Z;          (* uint8 *)
  SourcePort : Z;        (* uint16 *)
  DestinationPort : Z }. (* uint16 *)

Record Connection : Type := {
  StartTime : Z;
  StopTime : Z;
  OriginalPackets : Z;
  OriginalBytes : Z;
  ReversePackets : Z;
  ReverseBytes : Z;
  TupleOrig : Tuple;
  TupleReply : Tuple;
  SourcePodNamespace : string;
  SourcePodName : string;
  DestinationPodNamespace : string;
  DestinationPodName : string }.

(** The test's [makeTuple]: a tuple and its reverse. *)
Definition makeTuple (srcIP dstIP : IP) (protoID srcPort dstPort : Z)
  : Tuple * Tuple :=
  ({| SourceAddress := srcIP; DestinationAddress := dstIP;
      Protocol := protoID; SourcePort := srcPort;
      DestinationPort := dstPort |},
   {| SourceAddress := dstIP; DestinationAddress := srcIP;
      Protocol := protoID; SourcePort := dstPort;
      DestinationPort := srcPort |}).

(** Modelled from the spec: [flowexporter.ConnectionKey] is declared
    outside the files at hand.  The key is the 5-tuple (source and
    destination address, protocol, source and destination port). *)
Definition ConnectionKey : Type := (IP * IP * Z * Z * Z)%type.

(** Modelled from the spec: [flowexporter.NewConnectionKey] derives the key
    from the original-direction tuple of the connection. *)
Definition NewConnectionKey (conn : Connection) : ConnectionKey :=
  (SourceAddress (TupleOrig conn), DestinationAddress (TupleOrig conn),
   Protocol (TupleOrig conn), SourcePort (TupleOrig conn),
   DestinationPort (TupleOrig conn)).

(** Modelled from the spec: [flowexporter.FlowRecord] wraps a Connection
    plus export bookkeeping (newly observed since the last export). *)
Record FlowRecord : Type := {
  Conn : Connection;
  IsNew : bool }.

(** The pod identity of an [interfacestore.InterfaceConfig], as the test's
    [prepareInterfaceConfigs] sets it. *)
Record InterfaceConfig : Type := {
  PodName : string;
  PodNamespace : string }.

(** Modelled from the spec: the keyed table of the Connection Tracking
    Store and the keyed table of the Flow Record Builder.  The flow records
    are created on a store ([NewFlowRecords(connStore)]) and read it on
    every pass, so both tables live in one state. *)
Record State : Type := {
  connections : gmap ConnectionKey Connection;
  recordsMap : gmap ConnectionKey FlowRecord }.

(** Modelled from the spec: [NewConnectionStore] followed by
    [NewFlowRecords], both tables empty. *)
Definition NewState : State := {| connections := ∅; recordsMap := ∅ |}.

(** Modelled from the spec: [Poll] resolves the local workload identity of
    a dumped connection for whichever of its source and destination
    address matches a local interface. *)
Definition resolveIdentity (GetInterfaceByIP : IP -> option InterfaceConfig)
    (conn : Connection) : Connection :=
  let s := GetInterfaceByIP (SourceAddress (TupleOrig conn)) in
  let d := GetInterfaceByIP (DestinationAddress (TupleOrig conn)) in
  {| StartTime := StartTime conn; StopTime := StopTime conn;
     OriginalPackets := OriginalPackets conn;
     OriginalBytes := OriginalBytes conn;
     ReversePackets := ReversePackets conn;
     ReverseBytes := ReverseBytes conn;
     TupleOrig := TupleOrig conn; TupleReply := TupleReply conn;
     SourcePodNamespace :=
       match s with Some i => PodNamespace i | None => SourcePodNamespace conn end;
     SourcePodName :=
       match s with Some i => PodName i | None => SourcePodName conn end;
     DestinationPodNamespace :=
       match d with Some i => PodNamespace i | None => DestinationPodNamespace conn end;
     DestinationPodName :=
       match d with Some i => PodName i | None => DestinationPodName conn end |}.

(** Modelled from the spec: merging a polled connection into the store
    creates the entry if absent, else updates counters and timestamps in
    place. *)
Definition mergeConn (old : option Connection) (conn : Connection)
  : Connection :=
  match old with
  | None => conn
  | Some o =>
      {| StartTime := StartTime o; StopTime := StopTime conn;
         OriginalPackets := OriginalPackets conn;
         OriginalBytes := OriginalBytes conn;
         ReversePackets := ReversePackets conn;
         ReverseBytes := ReverseBytes conn;
         TupleOrig := TupleOrig o; TupleReply := TupleReply o;
         SourcePodNamespace := SourcePodNamespace o;
         SourcePodName := SourcePodName o;
         DestinationPodNamespace := DestinationPodNamespace o;
         DestinationPodName := DestinationPodName o |}
  end.

(** Modelled from the spec: [ConnectionStore.Poll] dumps the conntrack
    entries and merges them into the store entry by entry; it returns the
    number of connections of this poll, or the error of the dump, leaving
    the store unchanged. *)
Definition Poll (DumpFlows : result (list Connection))
    (GetInterfaceByIP : IP -> option InterfaceConfig) (st : State)
  : State * result Z :=
  match DumpFlows with
  | Ok conns =>
      let store :=
        foldl (fun m conn =>
                 let conn' := resolveIdentity GetInterfaceByIP conn in
                 let key := NewConnectionKey conn' in
                 <[key := mergeConn (m !! key) conn']> m)
              (connections st) conns in
      ({| connections := store; recordsMap := recordsMap st |},
       Ok (Z.of_nat (length conns)))
  | Err e => (st, Err e)
  | Panic p => (st, Panic p)
  end.

(** Modelled from the spec: [ConnectionStore.GetConnByKey] is a point
    lookup. *)
Definition GetConnByKey (st : State) (key : ConnectionKey)
  : option Connection :=
  connections st !! key.

(** Modelled from the spec: [ConnectionStore.FlushConnectionStore] clears
    all entries of the store, and nothing else. *)
Definition FlushConnectionStore (st : State) : State :=
  {| connections := ∅; recordsMap := recordsMap st |}.

(** Modelled from the spec: one step of [BuildFlowRecords] produces the
    record of a key present in the store, or refreshes the one it has. *)
Definition addOrUpdateFlowRecord (conn : option Connection)
    (record : option FlowRecord) : option FlowRecord :=
  match conn, record with
  | Some c, None => Some {| Conn := c; IsNew := true |}
  | Some c, Some r => Some {| Conn := c; IsNew := IsNew r |}
  | None, r => r
  end.

(** Modelled from the spec: [FlowRecords.BuildFlowRecords] takes a pass
    over the connection store, producing or refreshing one FlowRecord per
    key present; it never mutates the store, and it deletes no record (the
    test finds the records again after the pass that follows the flush). *)
Definition BuildFlowRecords (st : State) : State * result unit :=
  ({| connections := connections st;
      recordsMap := merge addOrUpdateFlowRecord (connections st) (recordsMap st) |},
   Ok tt).

(** Modelled from the spec: [FlowRecords.GetFlowRecordByConnKey] is a point
    lookup. *)
Definition GetFlowRecordByConnKey (st : State) (key : ConnectionKey)
  : option FlowRecord :=
  recordsMap st !! key.

End FlowExporter.

(** ** Generated client of AntreaClusterNetworkPolicyMetrics

    [antreaClusterNetworkPolicyMetricses] builds requests on a
    [rest.Interface]; the calls on the request builder are recorded in
    order. *)

Module MetricsClient.

(** Go's [int64]: two's complement wrap-around. *)
Definition int64 (z : Z) : Z := (z + 2 ^ 63) mod 2 ^ 64 - 2 ^ 63.

(** [time.Second], a [time.Duration] in nanoseconds. *)
Definition Second : Z := 1000000000.

Section Requests.
(** [G] is [v1.GetOptions]; [O] stands for the fields of [v1.ListOptions]
    the client passes on untouched. *)
Context {G O : Type}.

(** [v1.ListOptions]: the two fields the client reads or writes, and the
    rest. *)
Record ListOptions : Type := {
  WatchOpt : bool;               (* Watch bool *)
  TimeoutSeconds : option Z;     (* *int64 *)
  others : O }.

(** The calls of a request chain. *)
Inductive Step : Type :=
| ReqGet                                   (* c.client.Get() *)
| ReqResource (resource : string)
| ReqName (name : string)
| ReqGetParams (options : G)               (* VersionedParams(&options, ...) *)
| ReqListParams (opts : ListOptions)       (* VersionedParams(&opts, ...) *)
| ReqTimeout (timeout : Z)
| ReqDo
| ReqInto
| ReqWatch.

(** [Get] takes name of the antreaClusterNetworkPolicyMetrics, and returns
    the corresponding object. *)
Definition Get (name : string) (options : G) : list Step :=
  [ReqGet; ReqResource "antreaclusternetworkpolicymetrics"; ReqName name;
   ReqGetParams options; ReqDo; ReqInto].

(** The timeout [List] and [Watch] compute: zero, unless
    [opts.TimeoutSeconds] is set, then that many seconds as a
    [time.Duration]. *)
Definition requestTimeout (opts : ListOptions) : Z :=
  match TimeoutSeconds opts with
  | Some seconds => int64 (int64 seconds * Second)
  | None => 0
  end.

(** [List] takes label and field selectors, and returns the list of
    AntreaClusterNetworkPolicyMetricses that match those selectors. *)
Definition List (opts : ListOptions) : list Step :=
  let timeout := requestTimeout opts in
  [ReqGet; ReqResource "antreaclusternetworkpolicymetrics";
   ReqListParams opts; ReqTimeout timeout; ReqDo; ReqInto].

(** [Watch] returns a watch.Interface that watches the requested
    antreaClusterNetworkPolicyMetricses. *)
Definition Watch (opts : ListOptions) : list Step :=
  let timeout := requestTimeout opts in
  let opts' := {| WatchOpt := true; TimeoutSeconds := TimeoutSeconds opts;
                  others := others opts |} in
  [ReqGet; ReqResource "antreaclusternetworkpolicymetrics";
   ReqListParams opts'; ReqTimeout timeout; ReqWatch].

End Requests.
Arguments ListOptions : clear implicits.
Arguments Step : clear implicits.

End MetricsClient.

(** ** Generated deep copies of [IPAddress], [IPNet] and [IPBlock]

    A deep copy is about sharing, so slices live in a heap: a slice is nil
    or a view (backing array, offset, length) into an array of the heap,
    [make] allocates a fresh array, and [DeepCopyInto] returns the heap it
    leaves and the value it has written to [out]. *)

Module DeepCopy.

Definition loc : Type := positive.

(** A non-nil slice. *)
Record SliceHdr : Type := {
  arr : loc;
  off : nat;
  len : nat }.

(** A slice; [None] is nil. *)
Definition Slice : Type := option SliceHdr.

(** [len(s)] *)
Definition sliceLen (s : Slice) : nat :=
  match s with
  | Some h => len h
  | None => 0
  end.

Section Types.
(** [N] and [K] stand for the fields of [IPNet] and [IPBlock] that
    [*out = *in] copies and nothing else touches. *)
Context {N K : Type}.

Record IPNet : Type := {
  IP : Slice;              (* IPAddress, a []byte *)
  netOthers : N }.

Record IPBlock : Type := {
  CIDR : IPNet;
  Except : Slice;          (* []IPNet *)
  blockOthers : K }.

(** The arrays behind the [[]byte] slices and behind the [[]IPNet]
    slices. *)
Record Heap : Type := {
  byteArrays : gmap loc (list byte);
  netArrays : gmap loc (list IPNet) }.

(** The elements a non-nil slice shows. *)
Definition readBytes (h : Heap) (s : SliceHdr) : list byte :=
  take (len s) (drop (off s) (default [] (byteArrays h !! arr s))).

Definition readNets (h : Heap) (s : SliceHdr) : list IPNet :=
  take (len s) (drop (off s) (default [] (netArrays h !! arr s))).

(** [make([]byte, n)] *)
Definition makeBytes (h : Heap) (n : nat) : Heap * SliceHdr :=
  let l := fresh (dom (byteArrays h)) in
  ({| byteArrays := <[l := replicate n x00]> (byteArrays h);
      netArrays := netArrays h |},
   {| arr := l; off := 0; len := n |}).

(** [make([]IPNet, n)]; [zero] is the zero value of an [IPNet]. *)
Definition makeNets (zero : IPNet) (h : Heap) (n : nat) : Heap * SliceHdr :=
  let l := fresh (dom (netArrays h)) in
  ({| byteArrays := byteArrays h;
      netArrays := <[l := replicate n zero]> (netArrays h) |},
   {| arr := l; off := 0; len := n |}).

(** [copy(dst, src)] on bytes: the first [min(len(dst), len(src))] elements
    of [src] overwrite those of [dst]. *)
Definition copyBytes (h : Heap) (dst : SliceHdr) (src : Slice) : Heap :=
  let data :=
    match src with
    | Some s => take (len dst) (readBytes h s)
    | None => []
    end in
  {| byteArrays :=
       alter (fun a => take (off dst) a ++ data ++
                       drop (off dst + length data)%nat a)
             (arr dst) (byteArrays h);
     netArrays := netArrays h |}.

(** [s[i] = v] on a [[]IPNet]. *)
Definition storeNet (h : Heap) (s : SliceHdr) (i : nat) (v : IPNet) : Heap :=
  {| byteArrays := byteArrays h;
     netArrays := alter (fun a => <[(off s + i)%nat := v]> a) (arr s) (netArrays h) |}.

(** [IPAddress.DeepCopyInto]: [out] becomes a fresh [IPAddress] of the
    length of [in], then the elements of [in] are copied into it. *)
Definition IPAddress_DeepCopyInto (h : Heap) (in_ : Slice) : Heap * Slice :=
  let '(h1, out) := makeBytes h (sliceLen in_) in
  (copyBytes h1 out in_, Some out).

(** [IPAddress.DeepCopy]: nil for nil. *)
Definition IPAddress_DeepCopy (h : Heap) (in_ : Slice) : Heap * Slice :=
  match in_ with
  | None => (h, None)
  | Some _ => IPAddress_DeepCopyInto h in_
  end.

(** [IPNet.DeepCopyInto]: [*out = *in], then a fresh [IP] unless it is
    nil. *)
Definition IPNet_DeepCopyInto (h : Heap) (in_ : IPNet) : Heap * IPNet :=
  match IP in_ with
  | Some i =>
      let '(h1, out) := makeBytes h (len i) in
      (copyBytes h1 out (Some i),
       {| IP := Some out; netOthers := netOthers in_ |})
  | None => (h, in_)
  end.

(** One turn of the loop of [IPBlock.DeepCopyInto]: element [i] of [in]
    is deep-copied into element [i] of [out]. *)
Definition copyExcept (in_ out : SliceHdr) (h : Heap) (i : nat) : Heap :=
  match readNets h in_ !! i with
  | Some elem =>
      let '(h1, copied) := IPNet_DeepCopyInto h elem in
      storeNet h1 out i copied
  | None => h
  end.

(** [IPBlock.DeepCopyInto]: [*out = *in], the deep copy of [CIDR], then a
    fresh [Except] filled element by element unless it is nil. *)
Definition IPBlock_DeepCopyInto (zero : IPNet) (h : Heap) (in_ : IPBlock)
  : Heap * IPBlock :=
  let '(h1, cidr) := IPNet_DeepCopyInto h (CIDR in_) in
  match Except in_ with
  | Some e =>
      let '(h2, out) := makeNets zero h1 (len e) in
      let h3 := foldl (copyExcept e out) h2 (seq 0 (len e)) in
      (h3, {| CIDR := cidr; Except := Some out;
              blockOthers := blockOthers in_ |})
  | None =>
      (h1, {| CIDR := cidr; Except := None; blockOthers := blockOthers in_ |})
  end.

(** What a value means, whatever the arrays it lives in: the bytes of an
    address (or nil), an [IPNet], the list behind [Except] (or nil), an
    [IPBlock]. *)
Definition valBytes (h : Heap) (s : Slice) : option (list byte) :=
  readBytes h <$> s.

Definition valNet (h : Heap) (n : IPNet) : option (list byte) * N :=
  (valBytes h (IP n), netOthers n).

Definition valNets (h : Heap) (s : Slice)
  : option (list (option (list byte) * N)) :=
  (fun hd => valNet h <$> readNets h hd) <$> s.

Definition valBlock (h : Heap) (b : IPBlock)
  : (option (list byte) * N) * option (list (option (list byte) * N)) * K :=
  (valNet h (CIDR b), valNets h (Except b), blockOthers b).

(** A slice of a well-formed heap lies within its array. *)
Definition validBytes (h : Heap) (s : Slice) : Prop :=
  match s with
  | Some hd =>
      exists a, byteArrays h !! arr hd = Some a /\
                (off hd + len hd <= length a)%nat
  | None => True
  end.

Definition validNet (h : Heap) (n : IPNet) : Prop := validBytes h (IP n).

Definition validNets (h : Heap) (s : Slice) : Prop :=
  match s with
  | Some hd =>
      (exists a, netArrays h !! arr hd = Some a /\
                 (off hd + len hd <= length a)%nat) /\
      forall n, n ∈ readNets h hd -> validNet h n
  | None => True
  end.

Definition validBlock (h : Heap) (b : IPBlock) : Prop :=
  validNet h (CIDR b) /\ validNets h (Except b).

End Types.
Arguments IPNet : clear implicits.
Arguments IPBlock : clear implicits.
Arguments Heap : clear implicits.

End DeepCopy.

(** ** The audit logger: [initLogger] and the lines it writes

    [initLogger] makes [AntreaPolicyLogger] with [log.New(file, "",
    log.Ldate|log.Lmicroseconds)]; what such a logger writes for one
    [Printf] is the header of Go's [log] package, the formatted record and
    a newline. *)

Module AuditLog.
Import PacketIn.

(** Constants of the package. *)
Definition logDir : string := "/var/log/antrea/networkpolicy/".
Definition logfileName : string := "np.log".

(** Flags of Go's [log] package. *)
Definition Ldate : Z := 1.
Definition Ltime : Z := 2.
Definition Lmicroseconds : Z := 4.
Definition Lmsgprefix : Z := 64.

(** The local date and clock reading of a [time.Time]. *)
Record Time : Type := {
  year : Z;
  month : Z;
  day : Z;
  hour : Z;
  minute : Z;
  second : Z;
  nanosecond : Z }.

(** A [log.Logger]: prefix and flags. *)
Record Logger : Type := {
  logPrefix : string;
  logFlag : Z }.

Definition newline : string := String "010"%char EmptyString.

Fixpoint zeros (n : nat) : string :=
  match n with
  | O => EmptyString
  | S n' => String "0"%char (zeros n')
  end.

(** [itoa] of Go's [log]: a non-negative integer in decimal, zero-padded
    to [wid] digits. *)
Definition itoa (i : Z) (wid : nat) : string :=
  zeros (wid - String.length (pretty i)) +:+ pretty i.

(** [formatHeader] of Go's [log], without the file and line part (flags
    [Llongfile] and [Lshortfile]) and without [LUTC]. *)
Definition formatHeader (l : Logger) (t : Time) : string :=
  (if Z.land (logFlag l) Lmsgprefix =? 0 then logPrefix l else "") +:+
  (if Z.land (logFlag l) Ldate =? 0 then ""
   else itoa (year t) 4 +:+ "/" +:+ itoa (month t) 2 +:+ "/" +:+
        itoa (day t) 2 +:+ " ") +:+
  (if Z.land (logFlag l) (Z.lor Ltime Lmicroseconds) =? 0 then ""
   else itoa (hour t) 2 +:+ ":" +:+ itoa (minute t) 2 +:+ ":" +:+
        itoa (second t) 2 +:+
        (if Z.land (logFlag l) Lmicroseconds =? 0 then ""
         else "." +:+ itoa (nanosecond t / 1000) 6) +:+ " ") +:+
  (if Z.land (logFlag l) Lmsgprefix =? 0 then "" else logPrefix l).

Fixpoint endsWithNewline (s : string) : bool :=
  match s with
  | EmptyString => false
  | String c EmptyString => bool_decide (c = "010"%char)
  | String _ rest => endsWithNewline rest
  end.

(** [Logger.Output]: the header, the message, and a newline unless the
    message ends with one. *)
Definition Output (l : Logger) (t : Time) (msg : string) : string :=
  formatHeader l t +:+ msg +:+
  (if endsWithNewline msg then "" else newline).

(** The [lumberjack.Logger] the output is set to. *)
Record Lumberjack : Type := {
  Filename : string;
  MaxSize : Z;
  MaxBackups : Z;
  MaxAge : Z;
  Compress : bool }.

(** What [initLogger] does to the file system and to the logger. *)
Inductive InitEvent : Type :=
| Stat (name : string)
| Mkdir (name : string) (perm : Z)
| OpenFile (name : string) (perm : Z)
| SetOutput (w : Lumberjack).

(** [initLogger] is called while newing Antrea network policy agent
    controller.  [dirNotExist] is what [os.IsNotExist] says of the error
    of [os.Stat(logDir)], [openErr] the error of [os.OpenFile], if any.
    The result is the logger [AntreaPolicyLogger] is set to. *)
Definition initLogger (dirNotExist : bool) (openErr : option string)
  : list InitEvent * result Logger :=
  let t :=
    Stat logDir ::
    (if dirNotExist then [Mkdir logDir 493] else []) ++      (* 0755 *)
    [OpenFile (logDir +:+ logfileName) 438] in               (* 0666 *)
  match openErr with
  | Some err => (t, Err err)
  | None =>
      (t ++ [SetOutput {| Filename := logDir +:+ logfileName;
                          MaxSize := 500; MaxBackups := 3; MaxAge := 28;
                          Compress := true |}],
       Ok {| logPrefix := ""; logFlag := Z.lor Ldate Lmicroseconds |})
  end.

(** What the logger writes for the [Printf] calls of a run made at time
    [now]. *)
Definition written {B} (l : Logger) (now : Time) (e : Event B)
  : option string :=
  match e with
  | Printf msg => Some (Output l now msg)
  | _ => None
  end.

Definition auditLog {B} (l : Logger) (now : Time) (t : list (Event B))
  : list string :=
  omap (written l now) t.

(** The whitespace-separated fields of a line, as [strings.Fields] gives
    them for ASCII text. *)
Definition isSpace (c : ascii) : bool :=
  bool_decide (c = " "%char) ||
  (Nat.leb 9 (nat_of_ascii c) && Nat.leb (nat_of_ascii c) 13).

Fixpoint splitFields (s : string) (word : string) : list string :=
  match s with
  | EmptyString => if bool_decide (word = "") then [] else [word]
  | String c rest =>
      if isSpace c then
        (if bool_decide (word = "") then splitFields rest ""
         else word :: splitFields rest "")
      else splitFields rest (word +:+ String c EmptyString)
  end.

Definition Fields (s : string) : list string := splitFields s "".

End AuditLog.

(** ** Sample configuration

    A configuration of the imported declarations, a controller and a few
    packets, on which the functions above are run. *)

Module Sample.
Import PacketIn.

(** Bits [fst rng .. snd rng] of a register, as [ofctrl] extracts them. *)
Definition getUint32ValueWithRange (data : Z) (rng : Range) : Z :=
  Z.land (Z.shiftr data (fst rng)) (Z.ones (snd rng - fst rng + 1)).

Definition bigEndian (bs : list byte) : Z :=
  foldl (fun acc b => acc * 256 + Z.of_N (Byte.to_N b)) 0 bs.

(** The fixed part of a TCP header, big-endian. *)
Definition tcpUnmarshalBinary (data : list byte) : result TCP :=
  if (Z.of_nat (length data) <? TCPHdrLen) then
    Err "the []byte is too short to unmarshal a full TCP message"
  else
    Ok {| PortSrc := bigEndian (take 2 data);
          PortDst := bigEndian (take 2 (drop 2 data));
          SeqNum := bigEndian (take 4 (drop 4 data));
          AckNum := bigEndian (take 4 (drop 8 data)) |}.

Definition payloadBytes (p : Payload) : list byte :=
  match p with
  | Buffer bytes => bytes
  | OtherPayload => []
  end.

(** An IPv4 header without options, or the fixed IPv6 header, followed by
    the payload. *)
Definition marshalBinary (m : Message) : list byte :=
  match m with
  | MsgIPv4 p =>
      [byte_of_Z 0x45; x00; byte_of_Z (Z.shiftr (Length p) 8);
       byte_of_Z (Length p); x00; x00; x00; x00;
       byte_of_Z 64; byte_of_Z (Protocol p); x00; x00]
        ++ NWSrc p ++ NWDst p ++ payloadBytes (IPv4Data p)
  | MsgIPv6 p =>
      [byte_of_Z 0x60; x00; x00; x00;
       byte_of_Z (Z.shiftr (Z.of_nat (length (payloadBytes (IPv6Data p)))) 8);
       byte_of_Z (Z.of_nat (length (payloadBytes (IPv6Data p))));
       byte_of_Z (NextHeader p); byte_of_Z 64]
        ++ NWSrc6 p ++ NWDst6 p ++ payloadBytes (IPv6Data p)
  | MsgOther => []
  end.

Fixpoint joinWith (sep : string) (parts : list string) : string :=
  match parts with
  | [] => ""
  | [p] => p
  | p :: rest => p +:+ sep +:+ joinWith sep rest
  end.

Definition ipString (ip : IP) : string :=
  joinWith "." (map (fun b => pretty (Byte.to_N b)) ip).

Definition hexDigit (n : N) : ascii :=
  default "0"%char (String.get (N.to_nat n) "0123456789abcdef").

Definition macString (mac : HardwareAddr) : string :=
  joinWith ":"
    (map (fun b => String (hexDigit (Byte.to_N b / 16))
                     (String (hexDigit (Byte.to_N b mod 16)) "")) mac).

Definition openflow : Openflow :=
  {| CustomReasonMarkReg := 0;
     DispositionMarkReg := 0;
     CNPNotAllowConjIDReg := 3;
     EgressReg := 5;
     IngressReg := 6;
     CustomReasonMarkRange := (24, 25);
     APDispositionMarkRange := (21, 22);
     CustomReasonLogging := 1;
     CustomReasonReject := 2;
     DispositionAllow := 0;
     DispositionToString := {[ 0 := "Allow"; 1 := "Drop" ]};
     GetAntreaPolicyEgressTables := [45; 60];
     GetAntreaPolicyIngressTables := [85; 100];
     EgressRuleTable := 50;
     IngressRuleTable := 90;
     GetFlowTableName := fun t =>
       if t =? 90 then "IngressRule"
       else if t =? 50 then "EgressRule"
       else if t =? 85 then "AntreaPolicyIngressRule"
       else if t =? 45 then "AntreaPolicyEgressRule"
       else "" |}.

Definition ops : Ops :=
  {| ProtocolsToString :=
       {[ 1 := "ICMP"; 6 := "TCP"; 17 := "UDP"; 132 := "SCTP" ]} |}.

Definition libs : Libs :=
  {| GetUint32ValueWithRange := getUint32ValueWithRange;
     TCP_UnmarshalBinary := tcpUnmarshalBinary;
     MarshalBinary := marshalBinary;
     IP_String := ipString;
     MAC_String := macString |}.

(** Two local pods, on OpenFlow ports 3 and 4. *)
Definition store : InterfaceStore :=
  {| GetInterfaceByIP := fun ip =>
       if String.eqb ip "10.0.0.1" then Some {| OFPort := 3 |}
       else if String.eqb ip "10.0.0.2" then Some {| OFPort := 4 |}
       else None |}.

(** A client whose packet-out builder is the pair of ports, and whose
    sends succeed. *)
Definition client : Client (Z * Z) :=
  {| GetPolicyInfoFromConjunction := fun id =>
       if id =? 7 then ("AntreaNetworkPolicy:default/web", "14500")
       else ("", "");
     GenBasePacketOutBuilder := fun _ _ _ _ inPort outPort =>
       Ok (inPort, outPort);
     SendTCPReject := fun _ _ _ _ _ _ => None;
     SendICMPReject := fun _ _ _ => None |}.

Definition controller : Controller (Z * Z) :=
  {| ofClient := client; ifaceStore := store |}.

Definition pod1 : IP := [byte_of_Z 10; x00; x00; byte_of_Z 1].
Definition pod2 : IP := [byte_of_Z 10; x00; x00; byte_of_Z 2].
Definition remote : IP := [byte_of_Z 192; byte_of_Z 168; x00; byte_of_Z 9].
Definition mac1 : HardwareAddr := [x00; x00; x00; x00; x00; byte_of_Z 1].
Definition mac2 : HardwareAddr := [x00; x00; x00; x00; x00; byte_of_Z 2].

(** A TCP header: ports 4000 -> 80, the given sequence number, SYN. *)
Definition tcpHeader (seq : Z) : list byte :=
  [byte_of_Z 0x0f; byte_of_Z 0xa0; x00; byte_of_Z 80;
   byte_of_Z (Z.shiftr seq 24); byte_of_Z (Z.shiftr seq 16);
   byte_of_Z (Z.shiftr seq 8); byte_of_Z seq;
   x00; x00; x00; x00;
   byte_of_Z 0x50; byte_of_Z 0x02; byte_of_Z 0xff; byte_of_Z 0xff;
   x00; x00; x00; x00].

(** A UDP header: ports 4000 -> 53, length 12, and four bytes of data. *)
Definition udpDatagram : list byte :=
  [byte_of_Z 0x0f; byte_of_Z 0xa0; x00; byte_of_Z 53;
   x00; byte_of_Z 12; x00; x00;
   byte_of_Z 1; byte_of_Z 2; byte_of_Z 3; byte_of_Z 4].

Definition ipv4Packet (src dst : IP) (proto : Z) (payload : list byte) : IPv4 :=
  {| NWSrc := src; NWDst := dst;
     Length := 20 + Z.of_nat (length payload);
     Protocol := proto; IPv4Data := Buffer payload |}.

(** Register 0 carries the custom reasons in bits 24..25 and the
    disposition in bits 21..22; [conj] is what the conjunction register of
    the packet holds. *)
Definition matches (reasons disp : Z) (conjReg : Z) (conj : MatchValue)
  : Matchers :=
  {[ "NXM_NX_REG0" :=
       {| Value := NXRegister (Z.lor (Z.shiftl reasons 24) (Z.shiftl disp 21)) |};
     Sprintf "NXM_NX_REG%d" [AInt conjReg] := {| Value := conj |} ]}.

Definition packetIn (table : Z) (m : Matchers) (ethertype : Z) (msg : Message)
  : PacketIn :=
  {| TableId := table; Matches := m;
     Data := {| HWDst := mac2; HWSrc := mac1; Ethertype := ethertype;
                EthData := msg |} |}.

(** pod1 opens a TCP connection to pod2; an allow rule of the ingress rule
    table asks for logging and reject. *)
Definition tcpPacketIn (seq : Z) (conj : MatchValue) : PacketIn :=
  packetIn 90 (matches 3 0 6 conj) IPv4_MSG
    (MsgIPv4 (ipv4Packet pod1 pod2 Type_TCP (tcpHeader seq))).

(** The same for a UDP datagram. *)
Definition udpPacketIn : PacketIn :=
  packetIn 90 (matches 3 0 6 (NXRegister 7)) IPv4_MSG
    (MsgIPv4 (ipv4Packet pod1 pod2 17 udpDatagram)).

(** A TCP segment from an address that is no local pod. *)
Definition remotePacketIn : PacketIn :=
  packetIn 90 (matches 2 0 6 (NXRegister 7)) IPv4_MSG
    (MsgIPv4 (ipv4Packet remote pod2 Type_TCP (tcpHeader 1000))).

(** An agent querier with two policies, one of them applied to the pod
    default/web-0, the only pod with a container interface. *)
Definition querier : Handler.AgentQuerier string Z :=
  {| Handler.GetNetworkPolicies := fun _ => ["allow-dns"; "deny-all"];
     Handler.GetAppliedNetworkPolicies := fun _ _ _ => ["deny-all"];
     Handler.GetContainerInterfacesByPod := fun pod ns =>
       if String.eqb pod "web-0" && String.eqb ns "default" then [1] else [] |}.

Definition encodeOk (obj : Handler.NetworkPolicyList string) : option string :=
  None.

(** The connections of the test's [createConnsForTest]; times are seconds
    relative to the reference time. *)
Definition testConn1 : FlowExporter.Connection :=
  let '(tuple1, revTuple1) :=
    FlowExporter.makeTuple [1; 2; 3; 4] [4; 3; 2; 1] 6 65280 255 in
  {| FlowExporter.StartTime := -50;
     FlowExporter.StopTime := 0;
     FlowExporter.OriginalPackets := 0xffff;
     FlowExporter.OriginalBytes := 0xbaaaaa0000000000;
     FlowExporter.ReversePackets := 0xff;
     FlowExporter.ReverseBytes := 0xbaaa;
     FlowExporter.TupleOrig := tuple1;
     FlowExporter.TupleReply := revTuple1;
     FlowExporter.SourcePodNamespace := "";
     FlowExporter.SourcePodName := "";
     FlowExporter.DestinationPodNamespace := "";
     FlowExporter.DestinationPodName := "" |}.

Definition testConn2 : FlowExporter.Connection :=
  let '(tuple2, revTuple2) :=
    FlowExporter.makeTuple [5; 6; 7; 8] [8; 7; 6; 5] 6 60001 200 in
  {| FlowExporter.StartTime := -20;
     FlowExporter.StopTime := 0;
     FlowExporter.OriginalPackets := 0xbb;
     FlowExporter.OriginalBytes := 0xcbbb;
     FlowExporter.ReversePackets := 0xbbbb;
     FlowExporter.ReverseBytes := 0xcbbbb0000000000;
     FlowExporter.TupleOrig := tuple2;
     FlowExporter.TupleReply := revTuple2;
     FlowExporter.SourcePodNamespace := "";
     FlowExporter.SourcePodName := "";
     FlowExporter.DestinationPodNamespace := "";
     FlowExporter.DestinationPodName := "" |}.

Definition testConns : list FlowExporter.Connection := [testConn1; testConn2].

Definition testConnKeys : list FlowExporter.ConnectionKey :=
  map FlowExporter.NewConnectionKey testConns.

(** The expectations the test sets on the interface store mock. *)
Definition ifStoreMock (ip : FlowExporter.IP)
  : option FlowExporter.InterfaceConfig :=
  if bool_decide (ip = [1; 2; 3; 4]) then
    Some {| FlowExporter.PodName := "pod1"; FlowExporter.PodNamespace := "ns1" |}
  else if bool_decide (ip = [8; 7; 6; 5]) then
    Some {| FlowExporter.PodName := "pod2"; FlowExporter.PodNamespace := "ns2" |}
  else None.

(** The connections the test expects in the store: the polled ones with
    the pod identity of their local side. *)
Definition expConns : list FlowExporter.Connection :=
  map (FlowExporter.resolveIdentity ifStoreMock) testConns.

(** The state after [connStore.Poll()], and the one after the
    [BuildFlowRecords] that follows. *)
Definition polled : FlowExporter.State :=
  (FlowExporter.Poll (Ok testConns) ifStoreMock FlowExporter.NewState).1.

Definition built : FlowExporter.State :=
  (FlowExporter.BuildFlowRecords polled).1.

(** More packet-ins: without a custom reason; with the logging bit only;
    with a custom-reason register that holds no register value; an IPv4
    frame without an IPv4 packet; an IPv6 frame; a TCP segment cut after
    four bytes; a UDP datagram cut after four bytes; an Allow decided on
    table 10, which is neither an egress nor an ingress table. *)
Definition noReasonPacketIn : PacketIn :=
  packetIn 90 (matches 0 0 6 (NXRegister 7)) IPv4_MSG
    (MsgIPv4 (ipv4Packet pod1 pod2 Type_TCP (tcpHeader 1000))).

Definition logOnlyPacketIn : PacketIn :=
  packetIn 90 (matches 1 0 6 (NXRegister 7)) IPv4_MSG
    (MsgIPv4 (ipv4Packet pod1 pod2 Type_TCP (tcpHeader 1000))).

Definition unreadablePacketIn : PacketIn :=
  packetIn 90 {[ "NXM_NX_REG0" := {| Value := OtherValue |} ]} IPv4_MSG
    (MsgIPv4 (ipv4Packet pod1 pod2 Type_TCP (tcpHeader 1000))).

Definition mismatchedPacketIn : PacketIn :=
  packetIn 90 (matches 3 0 6 (NXRegister 7)) IPv4_MSG MsgOther.

Definition ipv6PacketIn : PacketIn :=
  packetIn 90 (matches 1 0 6 (NXRegister 7)) IPv6_MSG
    (MsgIPv6 {| NWSrc6 := replicate 15 x00 ++ [byte_of_Z 1];
                NWDst6 := replicate 15 x00 ++ [byte_of_Z 2];
                NextHeader := 17; IPv6Data := Buffer udpDatagram |}).

Definition shortTcpPacketIn : PacketIn :=
  packetIn 90 (matches 2 0 6 (NXRegister 7)) IPv4_MSG
    (MsgIPv4 (ipv4Packet pod1 pod2 Type_TCP (take 4 (tcpHeader 1000)))).

Definition shortUdpPacketIn : PacketIn :=
  packetIn 90 (matches 2 0 6 (NXRegister 7)) IPv4_MSG
    (MsgIPv4 (ipv4Packet pod1 pod2 17 (take 4 udpDatagram))).

Definition otherTablePacketIn : PacketIn :=
  packetIn 10 (matches 1 0 6 (NXRegister 7)) IPv4_MSG
    (MsgIPv4 (ipv4Packet pod1 pod2 Type_TCP (tcpHeader 1000))).

(** A controller whose client cannot give a packet-out builder. *)
Definition brokenController : Controller (Z * Z) :=
  {| ofClient :=
       {| GetPolicyInfoFromConjunction := GetPolicyInfoFromConjunction client;
          GenBasePacketOutBuilder := fun _ _ _ _ _ _ => Err "no bridge";
          SendTCPReject := SendTCPReject client;
          SendICMPReject := SendICMPReject client |};
     ifaceStore := store |}.

(** A heap with one byte array, which holds two IPv4 addresses, and one
    [IPNet] array; 10.0.0.0/8 with its address in the first half of the
    byte array; an [IPBlock] 10.0.0.0/8 except 10.0.1.0/24. *)
Definition heap : DeepCopy.Heap Z :=
  {| DeepCopy.byteArrays :=
       {[ 1%positive := [byte_of_Z 10; x00; x00; x00;
                         byte_of_Z 10; x00; byte_of_Z 1; x00] ]};
     DeepCopy.netArrays :=
       {[ 1%positive :=
            [ {| DeepCopy.IP := Some {| DeepCopy.arr := 1%positive;
                                        DeepCopy.off := 4; DeepCopy.len := 4 |};
                 DeepCopy.netOthers := 24 |} ] ]} |}.

Definition net10 : DeepCopy.IPNet Z :=
  {| DeepCopy.IP := Some {| DeepCopy.arr := 1%positive; DeepCopy.off := 0;
                            DeepCopy.len := 4 |};
     DeepCopy.netOthers := 8 |}.

Definition block10 : DeepCopy.IPBlock Z unit :=
  {| DeepCopy.CIDR := net10;
     DeepCopy.Except := Some {| DeepCopy.arr := 1%positive; DeepCopy.off := 0;
                                DeepCopy.len := 1 |};
     DeepCopy.blockOthers := tt |}.

(** A packet-in whose three conjunction registers hold three different
    conjunction IDs, and a client that knows a policy for each; a time of
    day. *)
Definition threeRegisters (reasons disp : Z) : Matchers :=
  {[ "NXM_NX_REG0" :=
       {| Value := NXRegister (Z.lor (Z.shiftl reasons 24) (Z.shiftl disp 21)) |};
     "NXM_NX_REG3" := {| Value := NXRegister 30 |};
     "NXM_NX_REG5" := {| Value := NXRegister 50 |};
     "NXM_NX_REG6" := {| Value := NXRegister 60 |} ]}.

Definition registersPacketIn (table disp : Z) : PacketIn :=
  packetIn table (threeRegisters 1 disp) IPv4_MSG
    (MsgIPv4 (ipv4Packet pod1 pod2 Type_TCP (tcpHeader 1000))).

Definition policyController : Controller (Z * Z) :=
  {| ofClient :=
       {| GetPolicyInfoFromConjunction := fun id =>
            if id =? 30 then ("AntreaClusterNetworkPolicy:deny-all", "100")
            else if id =? 50 then ("AntreaNetworkPolicy:default/egress", "200")
            else if id =? 60 then ("AntreaNetworkPolicy:default/ingress", "300")
            else ("", "");
          GenBasePacketOutBuilder := GenBasePacketOutBuilder client;
          SendTCPReject := SendTCPReject client;
          SendICMPReject := SendICMPReject client |};
     ifaceStore := store |}.

Definition morning : AuditLog.Time :=
  {| AuditLog.year := 2020; AuditLog.month := 11; AuditLog.day := 2;
     AuditLog.hour := 9; AuditLog.minute := 5; AuditLog.second := 7;
     AuditLog.nanosecond := 123456789 |}.

End Sample.

(** * Properties *)

(** ** Go runtime *)

Lemma append_empty_r (s : string) : s +:+ "" = s.
Proof.
  induction s as [|a s IH]; [reflexivity|].
  change (String a (s +:+ "") = String a s). by rewrite IH.
Qed.

(** ** Packet-in handling *)

Section PacketInFacts.
Import PacketIn.
Context `{Openflow} `{Ops} `{Libs} {B : Type}.
Implicit Types (c : Controller B) (pktIn : PacketIn).

(** Reading a register is silent. *)
Lemma getNetworkPolicyInfo_silent pktIn c ob :
  (getNetworkPolicyInfo pktIn c ob).1 = [].
Proof.
  unfold getNetworkPolicyInfo.
  destruct (getInfoInReg _ (Some _)) as [info| |]; simpl; try reflexivity.
  destruct (getInfoInReg _ None) as [info2| |]; simpl; try reflexivity.
  destruct (GetPolicyInfoFromConjunction _ _); reflexivity.
Qed.

Lemma getPacketInfo_silent pktIn ob : (@getPacketInfo _ _ B pktIn ob).1 = [].
Proof.
  unfold getPacketInfo.
  destruct (_ =? _); [|reflexivity].
  destruct (EthData _); reflexivity.
Qed.

(** The runs of [logPacket]: it either stops after entering, without a
    result, or prints one line and returns nil. *)
Lemma logPacket_runs c pktIn :
  (exists line, logPacket c pktIn = ([Invoke LogPacketH; Printf line], Ok tt))
  \/ (exists e, logPacket c pktIn = ([Invoke LogPacketH], Err e))
  \/ (exists p, logPacket c pktIn = ([Invoke LogPacketH], Panic p)).
Proof.
  unfold logPacket.
  pose proof (getNetworkPolicyInfo_silent pktIn c new_logInfo) as Hn.
  destruct (getNetworkPolicyInfo pktIn c new_logInfo) as [t1 [ob1|e|p]];
    simpl in Hn; subst t1; simpl; eauto.
  pose proof (getPacketInfo_silent pktIn ob1) as Hp.
  destruct (getPacketInfo pktIn ob1) as [t2 [ob2|e|p]];
    simpl in Hp; subst t2; simpl; eauto.
Qed.

Lemma logPacket_never_rejects c pktIn :
  Invoke RejectRequestH ∉ (logPacket c pktIn).1.
Proof.
  destruct (logPacket_runs c pktIn) as [[l ->]|[[e ->]|[p ->]]]; simpl;
    intros Hin; repeat (apply elem_of_cons in Hin as [Hin|Hin]; [discriminate|]);
    by apply elem_of_nil in Hin.
Qed.

Lemma logPacket_enters c pktIn : Invoke LogPacketH ∈ (logPacket c pktIn).1.
Proof.
  destruct (logPacket_runs c pktIn) as [[l ->]|[[e ->]|[p ->]]]; simpl;
    apply elem_of_cons; by left.
Qed.

(** [rejectRequest] records its entry before anything else. *)
Lemma rejectRequest_enters c pktIn :
  exists t, (rejectRequest c pktIn).1 = Invoke RejectRequestH :: t.
Proof.
  unfold rejectRequest, bind at 1. simpl.
  match goal with |- context [let '(t', r) := ?m in _] => destruct m as [t r] end.
  eauto.
Qed.

(** C9: [HandlePacketIn] on a nil packet-in returns the error
    "empty packetin for Antrea Policy" and enters no handler. *)
Theorem HandlePacketIn_nil_packet c :
  HandlePacketIn c None = ([], Err "empty packetin for Antrea Policy") /\
  forall h, Invoke h ∉ (HandlePacketIn c None).1.
Proof.
  split; [reflexivity|].
  intros h Hin. simpl in Hin. by apply elem_of_nil in Hin.
Qed.

(** C1 (amended): when the custom reasons carry both the logging and the
    reject bit, [HandlePacketIn] always enters the logging handler, and
    enters the reject handler exactly when the logging handler returned
    nil; an error of the logging handler is returned as it is, and after a
    successful logging the outcome is that of the reject handler. *)
Theorem HandlePacketIn_logging_then_reject c pktIn customReasons :
  getInfoInReg (getMatchRegField (Matches pktIn) (uint32 CustomReasonMarkReg))
    (Some CustomReasonMarkRange) = Ok customReasons ->
  Z.land customReasons CustomReasonLogging = CustomReasonLogging ->
  Z.land customReasons CustomReasonReject = CustomReasonReject ->
  Invoke LogPacketH ∈ (HandlePacketIn c (Some pktIn)).1 /\
  (Invoke RejectRequestH ∈ (HandlePacketIn c (Some pktIn)).1 <->
     exists t, logPacket c pktIn = (t, Ok tt)) /\
  (forall t e, logPacket c pktIn = (t, Err e) ->
     HandlePacketIn c (Some pktIn) = (t, Err e)) /\
  (forall t, logPacket c pktIn = (t, Ok tt) ->
     HandlePacketIn c (Some pktIn) =
       (t ++ (rejectRequest c pktIn).1, (rejectRequest c pktIn).2)).
Proof.
  intros Hreg Hlog Hrej.
  assert (Hrun : HandlePacketIn c (Some pktIn) =
                 (_ <- logPacket c pktIn ;; _ <- rejectRequest c pktIn ;; ret tt)).
  { unfold HandlePacketIn. rewrite Hreg. simpl.
    apply Z.eqb_eq in Hlog, Hrej. rewrite Hlog, Hrej.
    by destruct (bind (logPacket c pktIn) _) as [t r]. }
  rewrite Hrun. clear Hrun.
  pose proof (logPacket_never_rejects c pktIn) as Hnever.
  pose proof (logPacket_enters c pktIn) as Henter.
  destruct (rejectRequest_enters c pktIn) as [tr Htr].
  destruct (logPacket c pktIn) as [tl [[]|e|p]] eqn:Hl; simpl in *.
  - destruct (rejectRequest c pktIn) as [tr' [[]|e|p]]; simpl in *; subst tr';
      (split; [set_solver|]);
      (split; [split; [eauto|intros _; set_solver]|]);
      (split; [intros ? ? [=]|]);
      intros t [= <-]; by rewrite ?app_nil_r.
  - split; [done|]. split; [split; [done|by intros [? [=]]]|].
    split; [by intros ? ? [= <- <-]|by intros ? [=]].
  - split; [done|]. split; [split; [done|by intros [? [=]]]|].
    split; by intros; simplify_eq.
Qed.

(** C5: once the addresses of the response are read from the packet, a
    miss of the interface store on either of them makes [rejectRequest]
    return the error "couldn't find Pod config by IP" with nothing built or
    sent; any packet-out event of a run has both lookups succeed. *)
Theorem rejectRequest_needs_both_interfaces c pktIn sIP dIP prot ipHdrLen :
  rejectIPData pktIn = Ok (sIP, dIP, prot, ipHdrLen) ->
  (GetInterfaceByIP (ifaceStore c) sIP = None \/
   GetInterfaceByIP (ifaceStore c) dIP = None ->
     rejectRequest c pktIn =
       ([Invoke RejectRequestH], Err "couldn't find Pod config by IP")) /\
  (forall ev, ev ∈ (rejectRequest c pktIn).1 -> isPacketOut ev = true ->
     is_Some (GetInterfaceByIP (ifaceStore c) sIP) /\
     is_Some (GetInterfaceByIP (ifaceStore c) dIP)).
Proof.
  intros Hip.
  assert (Hmiss : GetInterfaceByIP (ifaceStore c) sIP = None \/
                  GetInterfaceByIP (ifaceStore c) dIP = None ->
                  rejectRequest c pktIn =
                    ([Invoke RejectRequestH], Err "couldn't find Pod config by IP")).
  { intros Hnone. unfold rejectRequest. rewrite Hip. simpl.
    unfold getBasePacketOutBuilder.
    destruct Hnone as [-> | ->]; [reflexivity|].
    by destruct (GetInterfaceByIP (ifaceStore c) sIP). }
  split; [exact Hmiss|].
  intros ev Hin Hout.
  destruct (GetInterfaceByIP (ifaceStore c) sIP) as [si|] eqn:Hs;
    destruct (GetInterfaceByIP (ifaceStore c) dIP) as [di|] eqn:Hd;
    try (split; eauto; fail);
    (rewrite Hmiss in Hin by eauto; simpl in Hin;
     apply list_elem_of_singleton in Hin; subst ev; discriminate).
Qed.

Lemma existsb_eqb_elem_of (x : Z) (l : list Z) :
  existsb (Z.eqb x) l = true <-> x ∈ l.
Proof.
  rewrite existsb_exists. split.
  - intros [y [Hin Heq]]. apply Z.eqb_eq in Heq. subst y.
    by apply list_elem_of_In.
  - intros Hin. exists x. split; [by apply list_elem_of_In|apply Z.eqb_refl].
Qed.

(** The general form of the selection: the egress tables are tried before
    the ingress tables. *)
Lemma getMatch_cases matchers tableID disposition :
  getMatch matchers tableID disposition =
    if decide (disposition = DispositionAllow) then
      if decide (tableID ∈ GetAntreaPolicyEgressTables ++ [EgressRuleTable])
      then getMatchRegField matchers (uint32 EgressReg)
      else if decide (tableID ∈ GetAntreaPolicyIngressTables ++ [IngressRuleTable])
      then getMatchRegField matchers (uint32 IngressReg)
      else None
    else getMatchRegField matchers (uint32 CNPNotAllowConjIDReg).
Proof.
  unfold getMatch.
  destruct (decide (disposition = DispositionAllow)) as [->|Hne].
  - rewrite Z.eqb_refl. simpl.
    destruct (existsb _ (GetAntreaPolicyEgressTables ++ _)) eqn:He.
    + apply existsb_eqb_elem_of in He. by rewrite decide_True.
    + rewrite decide_False
        by (intros Hin; apply existsb_eqb_elem_of in Hin; congruence).
      destruct (existsb _ (GetAntreaPolicyIngressTables ++ _)) eqn:Hi.
      * apply existsb_eqb_elem_of in Hi. by rewrite decide_True.
      * by rewrite decide_False
          by (intros Hin; apply existsb_eqb_elem_of in Hin; congruence).
  - apply Z.eqb_neq in Hne. by rewrite Hne.
Qed.

(** The selection of [getMatch] alone: with the egress tables and the
    ingress tables being different tables, [getMatch] reads the not-allow register when the disposition is
    not Allow; for an Allow it reads the egress register on an egress table
    and the ingress register on an ingress table. *)
Theorem getMatch_selects_register matchers tableID disposition :
  (forall t, t ∈ GetAntreaPolicyEgressTables ++ [EgressRuleTable] ->
             t ∉ GetAntreaPolicyIngressTables ++ [IngressRuleTable]) ->
  (disposition <> DispositionAllow ->
     getMatch matchers tableID disposition =
       getMatchRegField matchers (uint32 CNPNotAllowConjIDReg)) /\
  (disposition = DispositionAllow ->
   tableID ∈ GetAntreaPolicyEgressTables ++ [EgressRuleTable] ->
     getMatch matchers tableID disposition =
       getMatchRegField matchers (uint32 EgressReg)) /\
  (disposition = DispositionAllow ->
   tableID ∈ GetAntreaPolicyIngressTables ++ [IngressRuleTable] ->
     getMatch matchers tableID disposition =
       getMatchRegField matchers (uint32 IngressReg)).
Proof.
  intros Hdisj. rewrite getMatch_cases. repeat split.
  - intros Hne. by rewrite decide_False.
  - intros Ha He. by rewrite decide_True, decide_True.
  - intros Ha Hi. rewrite decide_True by done.
    rewrite decide_False by (intros He; by apply (Hdisj tableID)).
    by rewrite decide_True.
Qed.

(** What [getNetworkPolicyInfo] stores when it succeeds: the name of the
    packet's table, the string of the decoded disposition, and the policy
    reference and priority of the conjunction ID held by the register that
    [getMatch] selects for this disposition and table. *)
Lemma getNetworkPolicyInfo_fields pktIn c ob ob1 t :
  getNetworkPolicyInfo pktIn c ob = (t, Ok ob1) ->
  exists info conj,
    getInfoInReg (getMatchRegField (Matches pktIn) (uint32 DispositionMarkReg))
      (Some APDispositionMarkRange) = Ok info /\
    getInfoInReg (getMatch (Matches pktIn) (TableId pktIn) info) None = Ok conj /\
    tableName ob1 = GetFlowTableName (TableId pktIn) /\
    disposition ob1 = default "" (DispositionToString !! info) /\
    (npRef ob1, ofPriority ob1) = GetPolicyInfoFromConjunction (ofClient c) conj /\
    srcIP ob1 = srcIP ob /\ destIP ob1 = destIP ob /\
    pktLength ob1 = pktLength ob /\ protocolStr ob1 = protocolStr ob.
Proof.
  unfold getNetworkPolicyInfo.
  destruct (getInfoInReg _ (Some _)) as [info| |] eqn:Hd; simpl;
    try discriminate.
  destruct (getInfoInReg _ None) as [conj| |] eqn:Hc; simpl;
    try discriminate.
  destruct (GetPolicyInfoFromConjunction _ _) as [np prio] eqn:Hp.
  intros [= <- <-]. exists info, conj. simpl. rewrite Hp.
  repeat split; try reflexivity; assumption.
Qed.

(** What [getPacketInfo] stores when it succeeds on an IPv4 frame. *)
Lemma getPacketInfo_fields pktIn ob ob2 t :
  @getPacketInfo _ _ B pktIn ob = (t, Ok ob2) ->
  Ethertype (Data pktIn) = EtherTypeIPv4 ->
  exists ipPacket,
    EthData (Data pktIn) = MsgIPv4 ipPacket /\
    srcIP ob2 = IP_String (NWSrc ipPacket) /\
    destIP ob2 = IP_String (NWDst ipPacket) /\
    pktLength ob2 = Length ipPacket /\
    protocolStr ob2 = default "" (ProtocolsToString !! Protocol ipPacket) /\
    tableName ob2 = tableName ob /\ npRef ob2 = npRef ob /\
    disposition ob2 = disposition ob /\ ofPriority ob2 = ofPriority ob.
Proof.
  unfold getPacketInfo. intros Hrun Het. rewrite Het, Z.eqb_refl in Hrun.
  destruct (EthData (Data pktIn)) as [p| |]; try discriminate.
  injection Hrun as <- <-. exists p. simpl. repeat split; reflexivity.
Qed.

(** The record handed to the logger: a [logPacket] that returns nil has
    made exactly one [Printf] call, with the fields of the [logInfo] it filled in, separated by single spaces, in
    the order table name, policy reference, disposition, priority, "SRC:",
    source IP, "DEST:", destination IP, packet length, protocol name. *)
Theorem logPacket_prints_one_line c pktIn t :
  logPacket c pktIn = (t, Ok tt) ->
  exists ob1 ob2,
    getNetworkPolicyInfo pktIn c new_logInfo = ([], Ok ob1) /\
    @getPacketInfo _ _ B pktIn ob1 = ([], Ok ob2) /\
    t = [Invoke LogPacketH;
         Printf (tableName ob2 +:+ " " +:+ npRef ob2 +:+ " " +:+
                 disposition ob2 +:+ " " +:+ ofPriority ob2 +:+ " " +:+
                 "SRC:" +:+ " " +:+ srcIP ob2 +:+ " " +:+
                 "DEST:" +:+ " " +:+ destIP ob2 +:+ " " +:+
                 pretty (pktLength ob2) +:+ " " +:+ protocolStr ob2)].
Proof.
  unfold logPacket.
  pose proof (getNetworkPolicyInfo_silent pktIn c new_logInfo) as Hn.
  destruct (getNetworkPolicyInfo pktIn c new_logInfo) as [t1 [ob1|e|p]]
    eqn:Hn1; simpl in Hn; subst t1; simpl; try discriminate.
  pose proof (getPacketInfo_silent pktIn ob1) as Hp.
  destruct (getPacketInfo pktIn ob1) as [t2 [ob2|e|p]] eqn:Hp1;
    simpl in Hp; subst t2; simpl; try discriminate.
  intros [= <-]. exists ob1, ob2. split; [reflexivity|]. split; [assumption|].
  by rewrite append_empty_r.
Qed.

(** The header length [rejectRequest] works with is one of the two
    constants, or zero when the frame is neither IPv4 nor IPv6. *)
Lemma rejectIPData_header_length pktIn sIP dIP prot ipHdrLen :
  rejectIPData pktIn = Ok (sIP, dIP, prot, ipHdrLen) ->
  ipHdrLen = IPv4HdrLen \/ ipHdrLen = IPv6HdrLen \/ ipHdrLen = 0.
Proof.
  unfold rejectIPData.
  destruct (_ =? IPv4_MSG).
  { destruct (EthData _); intros [=]; subst; auto. }
  destruct (_ =? IPv6_MSG).
  { destruct (EthData _); intros [=]; subst; auto. }
  intros [=]; subst; auto.
Qed.


(** [getTCPHeaderData] on an IP packet that carries a TCP segment: the
    ports swapped, sequence number 0, and the segment's sequence number
    plus one in [uint32]. *)
Lemma getTCPHeaderData_segment (ipPkt : Message) bytes tcpIn :
  carries ipPkt bytes ->
  TCP_UnmarshalBinary bytes = Ok tcpIn ->
  getTCPHeaderData ipPkt =
    Ok (PortDst tcpIn, PortSrc tcpIn, 0, (SeqNum tcpIn + 1) mod 2 ^ 32).
Proof.
  unfold getTCPHeaderData, carries.
  destruct ipPkt as [p|p|]; [intros -> -> ..|done]; reflexivity.
Qed.

(** C2 (amended): for an intercepted TCP segment with source port P_s,
    destination port P_d and sequence number S, whose response addresses
    both resolve in the interface store and for which a packet-out builder
    is obtained, [rejectRequest] sends one TCP reject with source port
    P_d, destination port P_s, sequence number 0 and acknowledgment number
    (S + 1) mod 2^32: S + 1 below the last sequence number, 0 at it. *)
Theorem rejectRequest_tcp_reset c pktIn sIP dIP ipHdrLen sIface dIface b
    bytes tcpIn :
  rejectIPData pktIn = Ok (sIP, dIP, Type_TCP, ipHdrLen) ->
  GetInterfaceByIP (ifaceStore c) sIP = Some sIface ->
  GetInterfaceByIP (ifaceStore c) dIP = Some dIface ->
  GenBasePacketOutBuilder (ofClient c)
    (MAC_String (HWDst (Data pktIn))) (MAC_String (HWSrc (Data pktIn)))
    sIP dIP (uint32 (OFPort sIface)) (uint32 (OFPort dIface)) = Ok b ->
  carries (EthData (Data pktIn)) bytes ->
  TCP_UnmarshalBinary bytes = Ok tcpIn ->
  rejectRequest c pktIn =
    ([Invoke RejectRequestH;
      CallGenBasePacketOutBuilder
        (MAC_String (HWDst (Data pktIn))) (MAC_String (HWSrc (Data pktIn)))
        sIP dIP (uint32 (OFPort sIface)) (uint32 (OFPort dIface));
      CallSendTCPReject b (PortDst tcpIn) (PortSrc tcpIn) 0
        ((SeqNum tcpIn + 1) mod 2 ^ 32) false],
     match SendTCPReject (ofClient c) b (PortDst tcpIn) (PortSrc tcpIn) 0
             ((SeqNum tcpIn + 1) mod 2 ^ 32) false with
     | None => Ok tt
     | Some e => Err e
     end) /\
  (0 <= SeqNum tcpIn < 2 ^ 32 - 1 ->
     (SeqNum tcpIn + 1) mod 2 ^ 32 = SeqNum tcpIn + 1) /\
  (SeqNum tcpIn = 2 ^ 32 - 1 -> (SeqNum tcpIn + 1) mod 2 ^ 32 = 0).
Proof.
  intros Hip Hs Hd Hb Hcar Htcp. split; [|split].
  - unfold rejectRequest. rewrite Hip. simpl.
    unfold getBasePacketOutBuilder. rewrite Hs, Hd. simpl. rewrite Hb. simpl.
    by rewrite (getTCPHeaderData_segment _ _ _ Hcar Htcp).
  - intros Hs32. apply Z.mod_small. lia.
  - intros ->. reflexivity.
Qed.

(** A marshalled IP packet shorter than the header and eight bytes makes
    the slice expression of the quote panic. *)
Lemma buildICMPData_short (ipHdr : list byte) (ipHdrLen : Z) :
  0 <= ipHdrLen <= 40 ->
  Z.of_nat (length ipHdr) < ipHdrLen + 8 ->
  buildICMPData ipHdr ipHdrLen = Panic "slice bounds out of range".
Proof.
  intros Hrange Hlen. unfold buildICMPData, ICMPUnusedHdrLen, make_bytes.
  assert (H16a : uint16 (4 + ipHdrLen + 8) = ipHdrLen + 12)
    by (unfold uint16; rewrite Z.mod_small; lia).
  assert (H16b : uint16 (ipHdrLen + 8) = ipHdrLen + 8)
    by (unfold uint16; rewrite Z.mod_small; lia).
  rewrite H16a, H16b.
  replace (Z.to_nat (ipHdrLen + 12)) with (4 + Z.to_nat (ipHdrLen + 8))%nat by lia.
  unfold slice_to at 1. rewrite length_replicate.
  replace (Z.of_nat (4 + Z.to_nat (ipHdrLen + 8)) <? 4) with false
    by (symmetry; apply Z.ltb_ge; lia).
  change (Z.to_nat 4) with 4%nat. rewrite take_replicate_add.
  change (PutUint32 (replicate 4 x00) 0) with (Ok (replicate 4 x00)).
  cbv beta iota. unfold slice_to.
  by replace (Z.of_nat (length ipHdr) <? ipHdrLen + 8) with true
    by (symmetry; apply Z.ltb_lt; lia).
Qed.



End PacketInFacts.

(** ** Packet-in handling on the sample configuration *)

Section PacketInRuns.
Import PacketIn Sample.
#[local] Existing Instances openflow ops libs.

(** Both reasons set, and both handlers run. *)
Lemma HandlePacketIn_logging_then_reject_witness :
  Invoke LogPacketH ∈
    (HandlePacketIn controller (Some (tcpPacketIn 1000 (NXRegister 7)))).1 /\
  (Invoke RejectRequestH ∈
     (HandlePacketIn controller (Some (tcpPacketIn 1000 (NXRegister 7)))).1 <->
   exists t, logPacket controller (tcpPacketIn 1000 (NXRegister 7)) = (t, Ok tt)).
Proof.
  pose proof (HandlePacketIn_logging_then_reject controller
                (tcpPacketIn 1000 (NXRegister 7)) 3) as Hthm.
  destruct Hthm as (Hlog & Hrej & _).
  - vm_compute. reflexivity.
  - reflexivity.
  - reflexivity.
  - split; assumption.
Defined.

(** C1, as stated, fails: the custom reasons of this packet-in carry both
    bits, the conjunction register does not hold a register value, so the
    logging handler returns an error; the reject handler, which would
    have sent a TCP reject, is never entered. *)
Lemma HandlePacketIn_logging_error_skips_reject :
  getInfoInReg
    (getMatchRegField (Matches (tcpPacketIn 1000 OtherValue))
       (uint32 CustomReasonMarkReg))
    (Some CustomReasonMarkRange) = Ok 3 /\
  Z.land 3 CustomReasonLogging = CustomReasonLogging /\
  Z.land 3 CustomReasonReject = CustomReasonReject /\
  (exists e, logPacket controller (tcpPacketIn 1000 OtherValue) =
               ([Invoke LogPacketH], Err e)) /\
  (rejectRequest controller (tcpPacketIn 1000 OtherValue)).2 = Ok tt /\
  Invoke RejectRequestH ∉
    (HandlePacketIn controller (Some (tcpPacketIn 1000 OtherValue))).1.
Proof.
  split; [by vm_compute|]. split; [reflexivity|]. split; [reflexivity|].
  split; [eexists; by vm_compute|]. split; [by vm_compute|].
  replace (HandlePacketIn controller (Some (tcpPacketIn 1000 OtherValue))).1
    with [@Invoke (Z * Z) LogPacketH] by (by vm_compute).
  intros Hin. apply list_elem_of_singleton in Hin. discriminate.
Qed.

(** A TCP segment 4000 -> 80 with sequence number 1000 is answered
    80 -> 4000 with acknowledgment number 1001. *)
Lemma rejectRequest_tcp_reset_witness :
  rejectRequest controller (tcpPacketIn 1000 (NXRegister 7)) =
    ([Invoke RejectRequestH;
      CallGenBasePacketOutBuilder "00:00:00:00:00:02" "00:00:00:00:00:01"
        "10.0.0.2" "10.0.0.1" 4 3;
      CallSendTCPReject (4, 3) 80 4000 0 1001 false],
     Ok tt).
Proof.
  refine (proj1 (rejectRequest_tcp_reset controller
                   (tcpPacketIn 1000 (NXRegister 7))
                   "10.0.0.2" "10.0.0.1" 20 {| OFPort := 4 |} {| OFPort := 3 |}
                   (4, 3) (tcpHeader 1000)
                   {| PortSrc := 4000; PortDst := 80; SeqNum := 1000; AckNum := 0 |}
                   _ _ _ _ _ _)); by vm_compute.
Defined.

(** C2, as stated, fails at the last sequence number: the segment has
    S = 4294967295 and the response carries acknowledgment number 0, and
    no TCP reject with acknowledgment number S + 1 is sent. *)
Lemma rejectRequest_tcp_ack_wraps :
  TCP_UnmarshalBinary (tcpHeader 4294967295) =
    Ok {| PortSrc := 4000; PortDst := 80; SeqNum := 4294967295; AckNum := 0 |} /\
  rejectRequest controller (tcpPacketIn 4294967295 (NXRegister 7)) =
    ([Invoke RejectRequestH;
      CallGenBasePacketOutBuilder "00:00:00:00:00:02" "00:00:00:00:00:01"
        "10.0.0.2" "10.0.0.1" 4 3;
      CallSendTCPReject (4, 3) 80 4000 0 0 false],
     Ok tt) /\
  ~ (exists b seq isIPv6,
       CallSendTCPReject b 80 4000 seq (4294967295 + 1) isIPv6 ∈
         (rejectRequest controller (tcpPacketIn 4294967295 (NXRegister 7))).1).
Proof.
  assert (Hrun : rejectRequest controller (tcpPacketIn 4294967295 (NXRegister 7)) =
    ([Invoke RejectRequestH;
      CallGenBasePacketOutBuilder "00:00:00:00:00:02" "00:00:00:00:00:01"
        "10.0.0.2" "10.0.0.1" 4 3;
      CallSendTCPReject (4, 3) 80 4000 0 0 false],
     Ok tt)) by (by vm_compute).
  split; [by vm_compute|]. split; [exact Hrun|].
  rewrite Hrun. intros (b & seq & v6 & Hin). simpl in Hin.
  repeat (apply elem_of_cons in Hin as [Hin|Hin]; [discriminate|]).
  by apply elem_of_nil in Hin.
Qed.


(** The source of this segment is no local pod: nothing is sent. *)
Lemma rejectRequest_needs_both_interfaces_witness :
  rejectRequest controller remotePacketIn =
    ([Invoke RejectRequestH], Err "couldn't find Pod config by IP").
Proof.
  refine (proj1 (rejectRequest_needs_both_interfaces controller remotePacketIn
                   "10.0.0.2" "192.168.0.9" 6 20 _) _).
  - by vm_compute.
  - right. by vm_compute.
Defined.

(** An Allow on the ingress rule table reads the ingress register. *)
Lemma getMatch_selects_register_witness :
  getMatch (matches 3 0 6 (NXRegister 7)) 90 0 =
    getMatchRegField (matches 3 0 6 (NXRegister 7)) (uint32 IngressReg).
Proof.
  refine (proj2 (proj2 (getMatch_selects_register
                          (matches 3 0 6 (NXRegister 7)) 90 0 _)) _ _).
  - intros t Hegress Hingress. simpl in Hegress, Hingress.
    repeat (apply elem_of_cons in Hegress as [->|Hegress];
            [repeat (apply elem_of_cons in Hingress as [Hingress|Hingress];
                     [discriminate|]);
             by apply elem_of_nil in Hingress|]).
    by apply elem_of_nil in Hegress.
  - reflexivity.
  - simpl. rewrite !elem_of_cons. auto.
Defined.

(** The line of the sample packet-in. *)
Lemma logPacket_prints_one_line_witness :
  exists ob1 ob2,
    getNetworkPolicyInfo (tcpPacketIn 1000 (NXRegister 7)) controller
      new_logInfo = ([], Ok ob1) /\
    getPacketInfo (tcpPacketIn 1000 (NXRegister 7)) ob1 =
      (@nil (Event (Z * Z)), Ok ob2) /\
    [@Invoke (Z * Z) LogPacketH;
     Printf "IngressRule AntreaNetworkPolicy:default/web Allow 14500 SRC: 10.0.0.1 DEST: 10.0.0.2 40 TCP"] =
    [Invoke LogPacketH;
     Printf (tableName ob2 +:+ " " +:+ npRef ob2 +:+ " " +:+
             disposition ob2 +:+ " " +:+ ofPriority ob2 +:+ " " +:+
             "SRC:" +:+ " " +:+ srcIP ob2 +:+ " " +:+
             "DEST:" +:+ " " +:+ destIP ob2 +:+ " " +:+
             pretty (pktLength ob2) +:+ " " +:+ protocolStr ob2)].
Proof.
  apply (logPacket_prints_one_line controller
           (tcpPacketIn 1000 (NXRegister 7))).
  by vm_compute.
Defined.

End PacketInRuns.

(** ** The policy query handler *)

Section HandlerFacts.
Import Handler.
Context {NP IC : Type}.
Implicit Types (aq : AgentQuerier NP IC) (query : Values).
Implicit Types (encodeErr : NetworkPolicyList NP -> option string).

(** What follows the policy list on the response writer. *)
Lemma HandleFunc_early_return encodeErr aq query :
  Pod (NewFilterFromURLQuery query) <> "" ->
  Namespace (NewFilterFromURLQuery query) = "" ->
  HandleFunc encodeErr aq query =
    [HttpError "With a pod name, namespace must be provided" StatusBadRequest].
Proof.
  intros Hpod Hns. unfold HandleFunc.
  apply String.eqb_neq in Hpod. rewrite Hpod, Hns. reflexivity.
Qed.

(** C10: a filter with a pod name and no namespace is answered with the
    error "With a pod name, namespace must be provided" and status 400;
    the handler queries no policies and encodes no policy list. *)
Theorem HandleFunc_pod_without_namespace encodeErr aq query :
  Pod (NewFilterFromURLQuery query) <> "" ->
  Namespace (NewFilterFromURLQuery query) = "" ->
  HandleFunc encodeErr aq query =
    [HttpError "With a pod name, namespace must be provided" 400] /\
  (forall f, QueryNetworkPolicies f ∉ HandleFunc encodeErr aq query) /\
  (forall pod ns f,
     QueryAppliedNetworkPolicies pod ns f ∉ HandleFunc encodeErr aq query) /\
  (forall obj, JSONEncode obj ∉ HandleFunc encodeErr aq query).
Proof.
  intros Hpod Hns.
  rewrite (HandleFunc_early_return encodeErr aq query Hpod Hns).
  split; [reflexivity|].
  repeat split; intros; intros Hin;
    apply list_elem_of_singleton in Hin; discriminate.
Qed.

(** C8: with an empty pod field the handler encodes the list of
    [GetNetworkPolicies] on the filter; with a pod and a namespace it
    encodes the list of [GetAppliedNetworkPolicies] for that pod when the
    pod has container interfaces, and the empty list, without a policy
    query, when it has none. *)
Theorem HandleFunc_policy_list encodeErr aq query :
  (Pod (NewFilterFromURLQuery query) = "" ->
     exists rest,
       HandleFunc encodeErr aq query =
         QueryNetworkPolicies (NewFilterFromURLQuery query) ::
         JSONEncode
           {| Items := GetNetworkPolicies aq (NewFilterFromURLQuery query) |} ::
         rest /\
       forall e, e ∈ rest -> exists msg, e = HttpError msg 500) /\
  (Pod (NewFilterFromURLQuery query) <> "" ->
   Namespace (NewFilterFromURLQuery query) <> "" ->
   GetContainerInterfacesByPod aq (Pod (NewFilterFromURLQuery query))
     (Namespace (NewFilterFromURLQuery query)) <> [] ->
     exists rest,
       HandleFunc encodeErr aq query =
         QueryContainerInterfacesByPod (Pod (NewFilterFromURLQuery query))
           (Namespace (NewFilterFromURLQuery query)) ::
         QueryAppliedNetworkPolicies (Pod (NewFilterFromURLQuery query))
           (Namespace (NewFilterFromURLQuery query))
           (NewFilterFromURLQuery query) ::
         JSONEncode
           {| Items :=
                GetAppliedNetworkPolicies aq (Pod (NewFilterFromURLQuery query))
                  (Namespace (NewFilterFromURLQuery query))
                  (NewFilterFromURLQuery query) |} ::
         rest /\
       forall e, e ∈ rest -> exists msg, e = HttpError msg 500) /\
  (Pod (NewFilterFromURLQuery query) <> "" ->
   Namespace (NewFilterFromURLQuery query) <> "" ->
   GetContainerInterfacesByPod aq (Pod (NewFilterFromURLQuery query))
     (Namespace (NewFilterFromURLQuery query)) = [] ->
     exists rest,
       HandleFunc encodeErr aq query =
         QueryContainerInterfacesByPod (Pod (NewFilterFromURLQuery query))
           (Namespace (NewFilterFromURLQuery query)) ::
         JSONEncode {| Items := [] |} ::
         rest /\
       forall e, e ∈ rest -> exists msg, e = HttpError msg 500).
Proof.
  assert (Htail : forall obj : NetworkPolicyList NP,
            forall e,
              e ∈ match encodeErr obj with
                  | Some err =>
                      [HttpError ("Failed to encode response: " +:+ err)
                         StatusInternalServerError]
                  | None => []
                  end ->
              exists msg, e = @HttpError NP msg 500).
  { intros obj e. destruct (encodeErr obj); intros Hin.
    - apply list_elem_of_singleton in Hin. eauto.
    - by apply elem_of_nil in Hin. }
  unfold HandleFunc. set (f := NewFilterFromURLQuery query).
  split; [|split].
  - intros Hpod. rewrite Hpod. simpl.
    eexists. split; [reflexivity|apply Htail].
  - intros Hpod Hns Hif.
    apply String.eqb_neq in Hpod, Hns. rewrite Hpod, Hns.
    destruct (GetContainerInterfacesByPod aq (Pod f) (Namespace f)) as [|i l];
      [done|].
    simpl. eexists. split; [reflexivity|apply Htail].
  - intros Hpod Hns Hif.
    apply String.eqb_neq in Hpod, Hns. rewrite Hpod, Hns, Hif. simpl.
    eexists. split; [reflexivity|apply Htail].
Qed.

End HandlerFacts.

(** The handler on the sample querier. *)

Section HandlerRuns.
Import Handler Sample.

Lemma HandleFunc_pod_without_namespace_witness :
  HandleFunc encodeOk querier {[ "pod" := ["web-0"] ]} =
    [HttpError "With a pod name, namespace must be provided" 400].
Proof.
  refine (proj1 (HandleFunc_pod_without_namespace encodeOk querier
                   {[ "pod" := ["web-0"] ]} _ _)); by vm_compute.
Defined.

Lemma HandleFunc_policy_list_witness :
  (exists rest,
     HandleFunc encodeOk querier {[ "name" := ["deny-all"] ]} =
       QueryNetworkPolicies
         {| Name := "deny-all"; Namespace := ""; Pod := ""; SourceType := "" |} ::
       JSONEncode {| Items := ["allow-dns"; "deny-all"] |} :: rest /\
     forall e, e ∈ rest -> exists msg, e = HttpError msg 500) /\
  (exists rest,
     HandleFunc encodeOk querier
       {[ "pod" := ["web-0"]; "namespace" := ["default"] ]} =
       QueryContainerInterfacesByPod "web-0" "default" ::
       QueryAppliedNetworkPolicies "web-0" "default"
         {| Name := ""; Namespace := "default"; Pod := "web-0";
            SourceType := "" |} ::
       JSONEncode {| Items := ["deny-all"] |} :: rest /\
     forall e, e ∈ rest -> exists msg, e = HttpError msg 500) /\
  (exists rest,
     HandleFunc encodeOk querier
       {[ "pod" := ["db-0"]; "namespace" := ["default"] ]} =
       QueryContainerInterfacesByPod "db-0" "default" ::
       JSONEncode {| Items := [] |} :: rest /\
     forall e, e ∈ rest -> exists msg, e = HttpError msg 500).
Proof.
  split; [|split].
  - refine (proj1 (HandleFunc_policy_list encodeOk querier
                     {[ "name" := ["deny-all"] ]}) _).
    by vm_compute.
  - refine (proj1 (proj2 (HandleFunc_policy_list encodeOk querier
                     {[ "pod" := ["web-0"]; "namespace" := ["default"] ]}))
              _ _ _); by vm_compute.
  - refine (proj2 (proj2 (HandleFunc_policy_list encodeOk querier
                     {[ "pod" := ["db-0"]; "namespace" := ["default"] ]}))
              _ _ _); by vm_compute.
Defined.

End HandlerRuns.

(** ** Connection store and flow records *)

Section FlowExporterFacts.
Import FlowExporter.
Implicit Types (st : State) (key : ConnectionKey) (conn : Connection).

Lemma FlushConnectionStore_clears st key :
  GetConnByKey (FlushConnectionStore st) key = None.
Proof. unfold GetConnByKey, FlushConnectionStore. simpl. apply lookup_empty. Qed.

Lemma FlushConnectionStore_keeps_records st key :
  GetFlowRecordByConnKey (FlushConnectionStore st) key =
  GetFlowRecordByConnKey st key.
Proof. reflexivity. Qed.

(** A pass over the store leaves the store as it is. *)
Lemma BuildFlowRecords_reads_only st key :
  GetConnByKey (BuildFlowRecords st).1 key = GetConnByKey st key.
Proof. reflexivity. Qed.

Lemma BuildFlowRecords_lookup st key :
  GetFlowRecordByConnKey (BuildFlowRecords st).1 key =
  addOrUpdateFlowRecord (GetConnByKey st key) (GetFlowRecordByConnKey st key).
Proof.
  unfold GetFlowRecordByConnKey, GetConnByKey, BuildFlowRecords. simpl.
  rewrite lookup_merge.
  by destruct (connections st !! key), (recordsMap st !! key).
Qed.

(** A key of the store has a record of its connection after the pass. *)
Lemma BuildFlowRecords_builds st key conn :
  GetConnByKey st key = Some conn ->
  exists r, GetFlowRecordByConnKey (BuildFlowRecords st).1 key = Some r /\
            Conn r = conn.
Proof.
  intros Hconn. rewrite BuildFlowRecords_lookup, Hconn.
  destruct (GetFlowRecordByConnKey st key); simpl; eauto.
Qed.

(** Lines 164-170 of the test: a pass over the flushed store finds no key
    and leaves every record where it is. *)
Lemma BuildFlowRecords_after_flush st key :
  GetFlowRecordByConnKey (BuildFlowRecords (FlushConnectionStore st)).1 key =
  GetFlowRecordByConnKey st key.
Proof.
  by rewrite BuildFlowRecords_lookup, FlushConnectionStore_clears,
    FlushConnectionStore_keeps_records.
Qed.

(** C4: for a key present in the connection store whose flow record has
    been built, after [FlushConnectionStore] the lookup of the key in the
    store finds nothing, while the lookup of its flow record returns the
    record built before the flush, with the connection it was built
    from. *)
Theorem flush_keeps_built_records st key conn :
  GetConnByKey st key = Some conn ->
  GetConnByKey (FlushConnectionStore (BuildFlowRecords st).1) key = None /\
  GetFlowRecordByConnKey (FlushConnectionStore (BuildFlowRecords st).1) key =
    GetFlowRecordByConnKey (BuildFlowRecords st).1 key /\
  exists r,
    GetFlowRecordByConnKey (FlushConnectionStore (BuildFlowRecords st).1) key =
      Some r /\
    Conn r = conn.
Proof.
  intros Hconn.
  split; [apply FlushConnectionStore_clears|].
  split; [apply FlushConnectionStore_keeps_records|].
  rewrite FlushConnectionStore_keeps_records.
  by apply BuildFlowRecords_builds.
Qed.

End FlowExporterFacts.

(** The scenario of [TestConnectionStoreAndFlowRecords] on the model. *)

Section FlowExporterRuns.
Import FlowExporter Sample.

(** The test's assertions, in its order: the poll reports two
    connections; the store has the expected connections; the records are
    built from them; the flushed store has none of the keys; after one
    more pass the records are still there. *)
Lemma TestConnectionStoreAndFlowRecords_passes :
  (Poll (Ok testConns) ifStoreMock NewState).2 = Ok 2 /\
  map (GetConnByKey polled) testConnKeys = map Some expConns /\
  map (fun key => Conn <$> GetFlowRecordByConnKey built key) testConnKeys =
    map Some expConns /\
  map (GetConnByKey (FlushConnectionStore built)) testConnKeys = [None; None] /\
  map (fun key =>
         bool_decide
           (is_Some
              (GetFlowRecordByConnKey
                 (BuildFlowRecords (FlushConnectionStore built)).1 key)))
      testConnKeys = [true; true].
Proof. repeat split; by vm_compute. Qed.

Lemma flush_keeps_built_records_witness :
  GetConnByKey (FlushConnectionStore built)
    ([1; 2; 3; 4], [4; 3; 2; 1], 6, 65280, 255) = None /\
  exists r,
    GetFlowRecordByConnKey (FlushConnectionStore built)
      ([1; 2; 3; 4], [4; 3; 2; 1], 6, 65280, 255) = Some r /\
    Conn r = resolveIdentity ifStoreMock testConn1.
Proof.
  destruct (flush_keeps_built_records polled
              ([1; 2; 3; 4], [4; 3; 2; 1], 6, 65280, 255)
              (resolveIdentity ifStoreMock testConn1)) as (Hgone & _ & Hrec).
  - by vm_compute.
  - split; assumption.
Defined.

End FlowExporterRuns.

(** ** More on packet-in handling: dispatch, error paths, what a handler
    never does *)

Section PacketInMore.
Import PacketIn.
Context `{Openflow} `{Ops} `{Libs} {B : Type}.
Implicit Types (c : Controller B) (pktIn : PacketIn).

Lemma bind_ret_tt (m : M B unit) : (_ <- m ;; ret tt) = m.
Proof. destruct m as [t [[]|e|p]]; simpl; by rewrite ?app_nil_r. Qed.

(** [HandlePacketIn] once the custom reasons are read. *)
Lemma HandlePacketIn_dispatch c pktIn customReasons :
  getInfoInReg (getMatchRegField (Matches pktIn) (uint32 CustomReasonMarkReg))
    (Some CustomReasonMarkRange) = Ok customReasons ->
  HandlePacketIn c (Some pktIn) =
    (_ <- (if Z.land customReasons CustomReasonLogging =? CustomReasonLogging
           then logPacket c pktIn else ret tt) ;;
     _ <- (if Z.land customReasons CustomReasonReject =? CustomReasonReject
           then rejectRequest c pktIn else ret tt) ;;
     ret tt).
Proof.
  intros Hreg. unfold HandlePacketIn. rewrite Hreg. simpl.
  by destruct (bind _ _) as [t r].
Qed.

(** X1: a packet-in whose custom reasons carry neither the logging nor the
    reject bit is accepted and ignored: [HandlePacketIn] returns nil and
    does nothing. *)
Theorem HandlePacketIn_no_reason c pktIn customReasons :
  getInfoInReg (getMatchRegField (Matches pktIn) (uint32 CustomReasonMarkReg))
    (Some CustomReasonMarkRange) = Ok customReasons ->
  Z.land customReasons CustomReasonLogging <> CustomReasonLogging ->
  Z.land customReasons CustomReasonReject <> CustomReasonReject ->
  HandlePacketIn c (Some pktIn) = ([], Ok tt).
Proof.
  intros Hreg Hlog Hrej. rewrite (HandlePacketIn_dispatch _ _ _ Hreg).
  apply Z.eqb_neq in Hlog, Hrej. by rewrite Hlog, Hrej.
Qed.

(** X2: with only the logging bit set, the run of [HandlePacketIn] is the
    run of [logPacket], trace and result; with only the reject bit set it
    is the run of [rejectRequest]. *)
Theorem HandlePacketIn_single_reason c pktIn customReasons :
  getInfoInReg (getMatchRegField (Matches pktIn) (uint32 CustomReasonMarkReg))
    (Some CustomReasonMarkRange) = Ok customReasons ->
  (Z.land customReasons CustomReasonLogging = CustomReasonLogging ->
   Z.land customReasons CustomReasonReject <> CustomReasonReject ->
     HandlePacketIn c (Some pktIn) = logPacket c pktIn) /\
  (Z.land customReasons CustomReasonLogging <> CustomReasonLogging ->
   Z.land customReasons CustomReasonReject = CustomReasonReject ->
     HandlePacketIn c (Some pktIn) = rejectRequest c pktIn).
Proof.
  intros Hreg. rewrite (HandlePacketIn_dispatch _ _ _ Hreg). split.
  - intros Hlog Hrej. apply Z.eqb_eq in Hlog. apply Z.eqb_neq in Hrej.
    rewrite Hlog, Hrej. simpl.
    destruct (logPacket c pktIn) as [t [[]|e|p]]; simpl; by rewrite ?app_nil_r.
  - intros Hlog Hrej. apply Z.eqb_neq in Hlog. apply Z.eqb_eq in Hrej.
    rewrite Hlog, Hrej. simpl.
    destruct (rejectRequest c pktIn) as [t [[]|e|p]]; simpl;
      by rewrite ?app_nil_r.
Qed.

(** X3: when the custom-reason register is matched but does not hold a
    register value, [HandlePacketIn] returns the wrapped error and enters
    no handler. *)
Theorem HandlePacketIn_unreadable_reasons c pktIn m :
  getMatchRegField (Matches pktIn) (uint32 CustomReasonMarkReg) = Some m ->
  Value m = OtherValue ->
  HandlePacketIn c (Some pktIn) =
    ([], Err "received error while unloading customReason from reg: register value cannot be retrieved").
Proof.
  intros Hm Hv. unfold HandlePacketIn, getInfoInReg. rewrite Hm, Hv.
  reflexivity.
Qed.

(** X4: when the disposition register, or the conjunction register that
    [getMatch] selects, is matched but does not hold a register value,
    [logPacket] prints nothing and returns the error of [getInfoInReg]
    wrapped twice, naming the register that could not be read. *)
Theorem logPacket_unreadable_register c pktIn :
  (forall m,
     getMatchRegField (Matches pktIn) (uint32 DispositionMarkReg) = Some m ->
     Value m = OtherValue ->
     logPacket c pktIn =
       ([Invoke LogPacketH],
        Err "received error while retrieving NetworkPolicy info: received error while unloading disposition from reg: register value cannot be retrieved")) /\
  (forall info m,
     getInfoInReg (getMatchRegField (Matches pktIn) (uint32 DispositionMarkReg))
       (Some APDispositionMarkRange) = Ok info ->
     getMatch (Matches pktIn) (TableId pktIn) info = Some m ->
     Value m = OtherValue ->
     logPacket c pktIn =
       ([Invoke LogPacketH],
        Err "received error while retrieving NetworkPolicy info: received error while unloading conjunction id from reg: register value cannot be retrieved")).
Proof.
  split.
  - intros m Hm Hv. unfold logPacket, getNetworkPolicyInfo, getInfoInReg.
    rewrite Hm, Hv. reflexivity.
  - intros info m Hinfo Hm Hv. unfold logPacket, getNetworkPolicyInfo.
    rewrite Hinfo. simpl. rewrite Hm. unfold getInfoInReg. rewrite Hv.
    reflexivity.
Qed.

(** X5: a frame whose Ethertype says IPv4 but whose payload is not a
    [*protocol.IPv4] is not logged: once the policy info is read,
    [logPacket] prints nothing and returns the wrapped error
    "invalid IPv4 packet". *)
Theorem logPacket_invalid_ipv4 c pktIn ob1 :
  getNetworkPolicyInfo pktIn c new_logInfo = ([], Ok ob1) ->
  Ethertype (Data pktIn) = EtherTypeIPv4 ->
  (forall ipPacket, EthData (Data pktIn) <> MsgIPv4 ipPacket) ->
  logPacket c pktIn =
    ([Invoke LogPacketH],
     Err "received error while handling packetin for NetworkPolicy: invalid IPv4 packet").
Proof.
  intros Hinfo Het Hdata. unfold logPacket. rewrite Hinfo. simpl.
  unfold getPacketInfo. rewrite Het, Z.eqb_refl.
  destruct (EthData (Data pktIn)) as [p| |]; [by destruct (Hdata p)|done..].
Qed.

(** X6: a frame that is not IPv4 is logged without packet data: when the
    policy info is read, [logPacket] succeeds and prints the line with
    empty source and destination IP, length 0 and an empty protocol
    name. *)
Theorem logPacket_non_ipv4_frame c pktIn ob1 :
  getNetworkPolicyInfo pktIn c new_logInfo = ([], Ok ob1) ->
  Ethertype (Data pktIn) <> EtherTypeIPv4 ->
  logPacket c pktIn =
    ([Invoke LogPacketH;
      Printf (tableName ob1 +:+ " " +:+ npRef ob1 +:+ " " +:+
              disposition ob1 +:+ " " +:+ ofPriority ob1 +:+
              " SRC:  DEST:  0 ")],
     Ok tt).
Proof.
  intros Hinfo Het.
  destruct (getNetworkPolicyInfo_fields _ _ _ _ _ Hinfo)
    as (info & conj & _ & _ & _ & _ & _ & Hs & Hd & Hl & Hp).
  unfold logPacket. rewrite Hinfo. simpl.
  unfold getPacketInfo. apply Z.eqb_neq in Het. rewrite Het. simpl.
  by rewrite Hs, Hd, Hl, Hp.
Qed.

(** Every run of [rejectRequest]: it stops after entering; or both
    interfaces are found and the packet-out builder is asked for, with the
    MAC and IP addresses of the packet swapped; or, the builder obtained,
    one reject is sent, TCP for a TCP packet and ICMP otherwise. *)
Lemma rejectRequest_runs c pktIn :
  (rejectRequest c pktIn).1 = [Invoke RejectRequestH] \/
  exists sIP dIP prot ipHdrLen sIface dIface,
    rejectIPData pktIn = Ok (sIP, dIP, prot, ipHdrLen) /\
    GetInterfaceByIP (ifaceStore c) sIP = Some sIface /\
    GetInterfaceByIP (ifaceStore c) dIP = Some dIface /\
    ((rejectRequest c pktIn).1 =
       [Invoke RejectRequestH;
        CallGenBasePacketOutBuilder
          (MAC_String (HWDst (Data pktIn))) (MAC_String (HWSrc (Data pktIn)))
          sIP dIP (uint32 (OFPort sIface)) (uint32 (OFPort dIface))] \/
     exists b send,
       (rejectRequest c pktIn).1 =
         [Invoke RejectRequestH;
          CallGenBasePacketOutBuilder
            (MAC_String (HWDst (Data pktIn))) (MAC_String (HWSrc (Data pktIn)))
            sIP dIP (uint32 (OFPort sIface)) (uint32 (OFPort dIface));
          send] /\
       ((prot = Type_TCP /\
         exists srcPort dstPort ackNum,
           send = CallSendTCPReject b srcPort dstPort 0 ackNum false) \/
        (prot <> Type_TCP /\
         exists ICMPData, send = CallSendICMPReject b ICMPData false))).
Proof.
  unfold rejectRequest.
  destruct (rejectIPData pktIn) as [[[[sIP dIP] prot] hl]|e|p] eqn:Hip;
    simpl; [|by left..].
  unfold getBasePacketOutBuilder.
  destruct (GetInterfaceByIP (ifaceStore c) sIP) as [si|] eqn:Hs;
    [|by left].
  destruct (GetInterfaceByIP (ifaceStore c) dIP) as [di|] eqn:Hd;
    [|by left].
  right. exists sIP, dIP, prot, hl, si, di. do 3 (split; [done|]). simpl.
  destruct (GenBasePacketOutBuilder _ _ _ _ _ _ _) as [b|e|p]; simpl;
    [|by left..].
  destruct (prot =? Type_TCP) eqn:Hprot.
  - apply Z.eqb_eq in Hprot.
    destruct (getTCPHeaderData _) as [[[[sp dp] sq] ak]|e|p] eqn:Htcp; simpl;
      [|by left..].
    right. exists b, (CallSendTCPReject b sp dp sq ak false).
    split; [done|]. left. split; [done|]. exists sp, dp, ak.
    unfold getTCPHeaderData in Htcp.
    repeat match type of Htcp with
           | match ?x with _ => _ end = _ => destruct x; try discriminate
           end.
    all: by injection Htcp as <- <- <- <-.
  - apply Z.eqb_neq in Hprot.
    destruct (buildICMPData _ _) as [d|e|p]; simpl; [|by left..].
    right. exists b, (CallSendICMPReject b d false).
    split; [done|]. right. eauto.
Qed.

(** X8: the packet-out that [rejectRequest] asks the client to build for
    an IPv4 packet is addressed back to the sender: source MAC and IP are
    the destination MAC and IP of the packet, destination MAC and IP its
    source MAC and IP, and the two ports are the OpenFlow ports of the
    interfaces the store holds for these two IPs. *)
Theorem rejectRequest_answers_sender c pktIn ipv4In srcMAC dstMAC sIP dIP
    inPort outPort :
  Ethertype (Data pktIn) = IPv4_MSG ->
  EthData (Data pktIn) = MsgIPv4 ipv4In ->
  CallGenBasePacketOutBuilder srcMAC dstMAC sIP dIP inPort outPort
    ∈ (rejectRequest c pktIn).1 ->
  srcMAC = MAC_String (HWDst (Data pktIn)) /\
  dstMAC = MAC_String (HWSrc (Data pktIn)) /\
  sIP = IP_String (NWDst ipv4In) /\
  dIP = IP_String (NWSrc ipv4In) /\
  exists sIface dIface,
    GetInterfaceByIP (ifaceStore c) (IP_String (NWDst ipv4In)) = Some sIface /\
    GetInterfaceByIP (ifaceStore c) (IP_String (NWSrc ipv4In)) = Some dIface /\
    inPort = uint32 (OFPort sIface) /\
    outPort = uint32 (OFPort dIface).
Proof.
  intros Het Hdata Hin.
  assert (Hip : rejectIPData pktIn =
                Ok (IP_String (NWDst ipv4In), IP_String (NWSrc ipv4In),
                    Protocol ipv4In, IPv4HdrLen)).
  { unfold rejectIPData. by rewrite Het, Z.eqb_refl, Hdata. }
  destruct (rejectRequest_runs c pktIn)
    as [Hrun|(s & d & prot & hl & si & di & Hip' & Hs & Hd & Hrun)].
  { rewrite Hrun in Hin. apply list_elem_of_singleton in Hin. discriminate. }
  rewrite Hip in Hip'. injection Hip' as <- <- <- <-.
  assert (Hgen : CallGenBasePacketOutBuilder srcMAC dstMAC sIP dIP inPort outPort =
                 @CallGenBasePacketOutBuilder B
                   (MAC_String (HWDst (Data pktIn)))
                   (MAC_String (HWSrc (Data pktIn)))
                   (IP_String (NWDst ipv4In)) (IP_String (NWSrc ipv4In))
                   (uint32 (OFPort si)) (uint32 (OFPort di))).
  { destruct Hrun as [Hrun|(b & send & Hrun & Hsend)]; rewrite Hrun in Hin.
    - apply elem_of_cons in Hin as [Hin|Hin]; [discriminate|].
      by apply list_elem_of_singleton in Hin.
    - apply elem_of_cons in Hin as [Hin|Hin]; [discriminate|].
      apply elem_of_cons in Hin as [Hin|Hin]; [done|].
      apply list_elem_of_singleton in Hin.
      destruct Hsend as [[_ (? & ? & ? & ->)]|[_ (? & ->)]]; discriminate. }
  injection Hgen as -> -> -> -> -> ->. eauto 10.
Qed.

(** X9: [rejectRequest] does at most two things, in this order: it asks
    for one packet-out builder, then sends one reject.  Its trace after
    the entry is empty, or the builder call, or the builder call followed
    by one TCP or ICMP reject. *)
Theorem rejectRequest_one_reject c pktIn :
  exists rest,
    (rejectRequest c pktIn).1 = Invoke RejectRequestH :: rest /\
    (rest = [] \/
     (exists gen, rest = [gen] /\
        exists a b s d i o, gen = CallGenBasePacketOutBuilder a b s d i o) \/
     (exists gen send, rest = [gen; send] /\
        (exists a b s d i o, gen = CallGenBasePacketOutBuilder a b s d i o) /\
        ((exists b sp dp sq ak v6, send = CallSendTCPReject b sp dp sq ak v6) \/
         (exists b data v6, send = CallSendICMPReject b data v6)))).
Proof.
  destruct (rejectRequest_runs c pktIn)
    as [->|(s & d & prot & hl & si & di & _ & _ & _ & Hrun)].
  { eexists. split; [reflexivity|]. by left. }
  destruct Hrun as [->|(b & send & -> & Hsend)].
  - eexists. split; [reflexivity|]. right. left. eauto 10.
  - eexists. split; [reflexivity|]. right. right.
    eexists _, send. split; [reflexivity|]. split; [eauto 10|].
    destruct Hsend as [[_ (? & ? & ? & ->)]|[_ (? & ->)]]; [left|right];
      eauto 10.
Qed.

(** X10: every reject [rejectRequest] sends has the IPv6 flag off, also
    when the intercepted packet is an IPv6 packet, and a TCP reject always
    has sequence number 0. *)
Theorem rejectRequest_flags c pktIn :
  (forall b srcPort dstPort seqNum ackNum isIPv6,
     CallSendTCPReject b srcPort dstPort seqNum ackNum isIPv6
       ∈ (rejectRequest c pktIn).1 ->
     isIPv6 = false /\ seqNum = 0) /\
  (forall b ICMPData isIPv6,
     CallSendICMPReject b ICMPData isIPv6 ∈ (rejectRequest c pktIn).1 ->
     isIPv6 = false).
Proof.
  destruct (rejectRequest_runs c pktIn)
    as [Hrun|(s & d & prot & hl & si & di & _ & _ & _ & Hrun)].
  { rewrite Hrun. split; intros; intros;
      match goal with Hin : _ ∈ [_] |- _ =>
        apply list_elem_of_singleton in Hin; discriminate end. }
  destruct Hrun as [Hrun|(b & send & Hrun & Hsend)]; rewrite Hrun; clear Hrun.
  - split; intros;
      match goal with Hin : _ ∈ _ |- _ =>
        repeat (apply elem_of_cons in Hin as [Hin|Hin]; [discriminate|]);
        by apply elem_of_nil in Hin end.
  - destruct Hsend as [[_ (sp & dp & ak & ->)]|[_ (data & ->)]]; split; intros;
      match goal with Hin : _ ∈ _ |- _ =>
        repeat (apply elem_of_cons in Hin as [Hin|Hin];
                [first [discriminate | by injection Hin as -> -> -> -> -> ->
                        | by injection Hin as -> -> ->]|]);
        by apply elem_of_nil in Hin end.
Qed.

(** X11: the protocol of the intercepted packet decides the kind of
    reject: a TCP packet is never answered with an ICMP reject, and any
    other packet is never answered with a TCP reject. *)
Theorem rejectRequest_protocol_choice c pktIn sIP dIP prot ipHdrLen :
  rejectIPData pktIn = Ok (sIP, dIP, prot, ipHdrLen) ->
  (prot = Type_TCP ->
     forall b ICMPData isIPv6,
       CallSendICMPReject b ICMPData isIPv6 ∉ (rejectRequest c pktIn).1) /\
  (prot <> Type_TCP ->
     forall b srcPort dstPort seqNum ackNum isIPv6,
       CallSendTCPReject b srcPort dstPort seqNum ackNum isIPv6
         ∉ (rejectRequest c pktIn).1).
Proof.
  intros Hip.
  destruct (rejectRequest_runs c pktIn)
    as [Hrun|(s & d & prot' & hl & si & di & Hip' & _ & _ & Hrun)].
  { rewrite Hrun. split; intros; intros Hin;
      apply list_elem_of_singleton in Hin; discriminate. }
  rewrite Hip in Hip'. injection Hip' as <- <- <- <-.
  destruct Hrun as [Hrun|(b & send & Hrun & Hsend)]; rewrite Hrun; clear Hrun.
  - split; intros; intros Hin;
      repeat (apply elem_of_cons in Hin as [Hin|Hin]; [discriminate|]);
      by apply elem_of_nil in Hin.
  - destruct Hsend as [[Hp (sp & dp & ak & ->)]|[Hp (data & ->)]];
      split; intros; try done; intros Hin;
      repeat (apply elem_of_cons in Hin as [Hin|Hin]; [discriminate|]);
      by apply elem_of_nil in Hin.
Qed.

(** X7: the two handlers keep to their own effects: [logPacket] never
    builds or sends a packet-out, and [rejectRequest] never writes to the
    audit log. *)
Theorem handlers_effects_apart c pktIn :
  (forall ev, ev ∈ (logPacket c pktIn).1 -> isPacketOut ev = false) /\
  (forall line, Printf line ∉ (rejectRequest c pktIn).1).
Proof.
  split.
  - intros ev.
    destruct (logPacket_runs c pktIn) as [[l ->]|[[e ->]|[p ->]]]; simpl;
      intros Hin;
      repeat (apply elem_of_cons in Hin as [->|Hin]; [reflexivity|]);
      by apply elem_of_nil in Hin.
  - intros line Hin.
    destruct (rejectRequest_runs c pktIn)
      as [Hrun|(s & d & prot & hl & si & di & _ & _ & _ & Hrun)].
    { rewrite Hrun in Hin. apply list_elem_of_singleton in Hin. discriminate. }
    destruct Hrun as [Hrun|(b & send & Hrun & Hsend)]; rewrite Hrun in Hin.
    + repeat (apply elem_of_cons in Hin as [Hin|Hin]; [discriminate|]).
      by apply elem_of_nil in Hin.
    + destruct Hsend as [[_ (? & ? & ? & ->)]|[_ (? & ->)]];
        repeat (apply elem_of_cons in Hin as [Hin|Hin]; [discriminate|]);
        by apply elem_of_nil in Hin.
Qed.

(** X12: a frame whose Ethertype says IPv4 but whose payload is not a
    [*protocol.IPv4], or whose Ethertype says IPv6 but whose payload is
    not a [*protocol.IPv6], makes [rejectRequest] panic on the type
    assertion, before any lookup, builder call or send. *)
Theorem rejectRequest_mismatched_frame c pktIn :
  (Ethertype (Data pktIn) = IPv4_MSG /\
   forall p, EthData (Data pktIn) <> MsgIPv4 p) \/
  (Ethertype (Data pktIn) = IPv6_MSG /\
   forall p, EthData (Data pktIn) <> MsgIPv6 p) ->
  exists msg, rejectRequest c pktIn = ([Invoke RejectRequestH], Panic msg).
Proof.
  intros Hbad. unfold rejectRequest, rejectIPData.
  destruct Hbad as [[-> Hd]|[-> Hd]]; simpl;
    destruct (EthData (Data pktIn)) as [p4|p6|]; simpl;
    try (eexists; reflexivity); exfalso; by eapply Hd.
Qed.

(** X13: when both interfaces are found but the client cannot give a
    packet-out builder, [rejectRequest] returns the client's error and
    sends nothing; when the builder is obtained but the TCP header of a TCP
    packet does not decode, it returns the decoder's error and sends
    nothing. *)
Theorem rejectRequest_error_paths c pktIn sIP dIP prot ipHdrLen sIface dIface :
  rejectIPData pktIn = Ok (sIP, dIP, prot, ipHdrLen) ->
  GetInterfaceByIP (ifaceStore c) sIP = Some sIface ->
  GetInterfaceByIP (ifaceStore c) dIP = Some dIface ->
  (forall e,
     GenBasePacketOutBuilder (ofClient c)
       (MAC_String (HWDst (Data pktIn))) (MAC_String (HWSrc (Data pktIn)))
       sIP dIP (uint32 (OFPort sIface)) (uint32 (OFPort dIface)) = Err e ->
     rejectRequest c pktIn =
       ([Invoke RejectRequestH;
         CallGenBasePacketOutBuilder
           (MAC_String (HWDst (Data pktIn))) (MAC_String (HWSrc (Data pktIn)))
           sIP dIP (uint32 (OFPort sIface)) (uint32 (OFPort dIface))],
        Err e)) /\
  (forall b bytes e,
     GenBasePacketOutBuilder (ofClient c)
       (MAC_String (HWDst (Data pktIn))) (MAC_String (HWSrc (Data pktIn)))
       sIP dIP (uint32 (OFPort sIface)) (uint32 (OFPort dIface)) = Ok b ->
     prot = Type_TCP ->
     carries (EthData (Data pktIn)) bytes ->
     TCP_UnmarshalBinary bytes = Err e ->
     rejectRequest c pktIn =
       ([Invoke RejectRequestH;
         CallGenBasePacketOutBuilder
           (MAC_String (HWDst (Data pktIn))) (MAC_String (HWSrc (Data pktIn)))
           sIP dIP (uint32 (OFPort sIface)) (uint32 (OFPort dIface))],
        Err e)).
Proof.
  intros Hip Hs Hd. split.
  - intros e Hb. unfold rejectRequest. rewrite Hip. simpl.
    unfold getBasePacketOutBuilder. rewrite Hs, Hd. simpl. by rewrite Hb.
  - intros b bytes e Hb -> Hcar Htcp. unfold rejectRequest. rewrite Hip. simpl.
    unfold getBasePacketOutBuilder. rewrite Hs, Hd. simpl. rewrite Hb. simpl.
    unfold getTCPHeaderData, carries in *.
    destruct (EthData (Data pktIn)) as [p|p|]; [| |done];
      rewrite Hcar, Htcp; reflexivity.
Qed.

(** X14: a packet that is not TCP and whose marshalled IP packet is
    shorter than the IP header and eight bytes makes [rejectRequest] panic
    on the slice expression of the quote, after the builder is obtained and
    before anything is sent. *)
Theorem rejectRequest_short_packet c pktIn sIP dIP prot ipHdrLen sIface
    dIface b :
  rejectIPData pktIn = Ok (sIP, dIP, prot, ipHdrLen) ->
  prot <> Type_TCP ->
  GetInterfaceByIP (ifaceStore c) sIP = Some sIface ->
  GetInterfaceByIP (ifaceStore c) dIP = Some dIface ->
  GenBasePacketOutBuilder (ofClient c)
    (MAC_String (HWDst (Data pktIn))) (MAC_String (HWSrc (Data pktIn)))
    sIP dIP (uint32 (OFPort sIface)) (uint32 (OFPort dIface)) = Ok b ->
  Z.of_nat (length (MarshalBinary (EthData (Data pktIn)))) < ipHdrLen + 8 ->
  rejectRequest c pktIn =
    ([Invoke RejectRequestH;
      CallGenBasePacketOutBuilder
        (MAC_String (HWDst (Data pktIn))) (MAC_String (HWSrc (Data pktIn)))
        sIP dIP (uint32 (OFPort sIface)) (uint32 (OFPort dIface))],
     Panic "slice bounds out of range").
Proof.
  intros Hip Hprot Hs Hd Hb Hlen.
  assert (Hrange : 0 <= ipHdrLen <= 40).
  { destruct (rejectIPData_header_length _ _ _ _ _ Hip) as [->|[->| ->]];
      unfold IPv4HdrLen, IPv6HdrLen; lia. }
  unfold rejectRequest. rewrite Hip. simpl.
  unfold getBasePacketOutBuilder. rewrite Hs, Hd. simpl. rewrite Hb. simpl.
  apply Z.eqb_neq in Hprot. rewrite Hprot.
  by rewrite (buildICMPData_short _ _ Hrange Hlen).
Qed.

(** X15: whatever [getTCPHeaderData] returns without error comes from a
    decoded TCP header of the packet's buffer: the ports of that header
    swapped, sequence number 0, and an acknowledgment number that is the
    header's sequence number plus one, within [uint32]. *)
Theorem getTCPHeaderData_result (ipPkt : Message) srcPort dstPort seqNum ackNum :
  getTCPHeaderData ipPkt = Ok (srcPort, dstPort, seqNum, ackNum) ->
  seqNum = 0 /\ 0 <= ackNum < 2 ^ 32 /\
  exists bytes tcpIn,
    TCP_UnmarshalBinary bytes = Ok tcpIn /\
    (carries ipPkt bytes \/ (ipPkt = MsgOther /\ bytes = [])) /\
    srcPort = PortDst tcpIn /\ dstPort = PortSrc tcpIn /\
    ackNum = (SeqNum tcpIn + 1) mod 2 ^ 32.
Proof.
  unfold getTCPHeaderData.
  intros Hget.
  assert (Hshape : exists bytes tcpIn,
            TCP_UnmarshalBinary bytes = Ok tcpIn /\
            (carries ipPkt bytes \/ (ipPkt = MsgOther /\ bytes = [])) /\
            (srcPort, dstPort, seqNum, ackNum) =
              (PortDst tcpIn, PortSrc tcpIn, 0, uint32 (SeqNum tcpIn + 1))).
  { destruct ipPkt as [p|p|]; simpl in *.
    - destruct (IPv4Data p) as [bytes|] eqn:Hb; [|discriminate].
      destruct (TCP_UnmarshalBinary bytes) as [t| |] eqn:Ht; try discriminate.
      injection Hget as <- <- <- <-. exists bytes, t. auto.
    - destruct (IPv6Data p) as [bytes|] eqn:Hb; [|discriminate].
      destruct (TCP_UnmarshalBinary bytes) as [t| |] eqn:Ht; try discriminate.
      injection Hget as <- <- <- <-. exists bytes, t. auto.
    - destruct (TCP_UnmarshalBinary []) as [t| |] eqn:Ht; try discriminate.
      injection Hget as <- <- <- <-. exists [], t. auto. }
  destruct Hshape as (bytes & t & Ht & Hc & [= -> -> -> ->]).
  split; [done|]. split; [apply Z.mod_pos_bound; lia|].
  exists bytes, t. auto.
Qed.

(** X16: an Allow decided on a table that is neither among the egress
    nor among the ingress tables has no conjunction register: [getMatch]
    returns nil, and [logPacket], which reads the value of that match
    field, panics on the nil pointer instead of returning an error;
    nothing is printed. *)
Theorem logPacket_allow_on_other_table c pktIn :
  getInfoInReg (getMatchRegField (Matches pktIn) (uint32 DispositionMarkReg))
    (Some APDispositionMarkRange) = Ok DispositionAllow ->
  TableId pktIn ∉ GetAntreaPolicyEgressTables ++ [EgressRuleTable] ->
  TableId pktIn ∉ GetAntreaPolicyIngressTables ++ [IngressRuleTable] ->
  getMatch (Matches pktIn) (TableId pktIn) DispositionAllow = None /\
  exists msg, logPacket c pktIn = ([Invoke LogPacketH], Panic msg).
Proof.
  intros Hdisp He Hi.
  assert (Hnil : getMatch (Matches pktIn) (TableId pktIn) DispositionAllow = None).
  { rewrite getMatch_cases. rewrite decide_True by done.
    by rewrite !decide_False by done. }
  split; [exact Hnil|].
  unfold logPacket, getNetworkPolicyInfo. rewrite Hdisp. simpl.
  rewrite Hnil. simpl. eauto.
Qed.

End PacketInMore.

(** The same on the sample configuration. *)

Section PacketInMoreRuns.
Import PacketIn Sample.
#[local] Existing Instances openflow ops libs.

Lemma HandlePacketIn_no_reason_witness :
  HandlePacketIn controller (Some noReasonPacketIn) = ([], Ok tt).
Proof.
  apply (HandlePacketIn_no_reason controller noReasonPacketIn 0);
    by vm_compute.
Defined.

Lemma HandlePacketIn_single_reason_witness :
  HandlePacketIn controller (Some logOnlyPacketIn) =
    logPacket controller logOnlyPacketIn /\
  HandlePacketIn controller (Some remotePacketIn) =
    rejectRequest controller remotePacketIn.
Proof.
  split.
  - refine (proj1 (HandlePacketIn_single_reason controller logOnlyPacketIn 1 _)
              _ _); by vm_compute.
  - refine (proj2 (HandlePacketIn_single_reason controller remotePacketIn 2 _)
              _ _); by vm_compute.
Defined.

Lemma HandlePacketIn_unreadable_reasons_witness :
  HandlePacketIn controller (Some unreadablePacketIn) =
    ([], Err "received error while unloading customReason from reg: register value cannot be retrieved").
Proof.
  apply (HandlePacketIn_unreadable_reasons controller unreadablePacketIn
           {| Value := OtherValue |}); by vm_compute.
Defined.

Lemma logPacket_unreadable_register_witness :
  logPacket controller unreadablePacketIn =
    ([Invoke LogPacketH],
     Err "received error while retrieving NetworkPolicy info: received error while unloading disposition from reg: register value cannot be retrieved") /\
  logPacket controller (tcpPacketIn 1000 OtherValue) =
    ([Invoke LogPacketH],
     Err "received error while retrieving NetworkPolicy info: received error while unloading conjunction id from reg: register value cannot be retrieved").
Proof.
  split.
  - refine (proj1 (logPacket_unreadable_register controller unreadablePacketIn)
              {| Value := OtherValue |} _ _); by vm_compute.
  - refine (proj2 (logPacket_unreadable_register controller
                     (tcpPacketIn 1000 OtherValue))
              0 {| Value := OtherValue |} _ _ _); by vm_compute.
Defined.

Lemma logPacket_invalid_ipv4_witness :
  logPacket controller mismatchedPacketIn =
    ([Invoke LogPacketH],
     Err "received error while handling packetin for NetworkPolicy: invalid IPv4 packet").
Proof.
  refine (logPacket_invalid_ipv4 controller mismatchedPacketIn
            {| tableName := "IngressRule";
               npRef := "AntreaNetworkPolicy:default/web";
               disposition := "Allow"; ofPriority := "14500";
               srcIP := ""; destIP := ""; pktLength := 0; protocolStr := "" |}
            _ _ _).
  - by vm_compute.
  - reflexivity.
  - intros p. discriminate.
Defined.

Lemma logPacket_non_ipv4_frame_witness :
  logPacket controller ipv6PacketIn =
    ([Invoke LogPacketH;
      Printf "IngressRule AntreaNetworkPolicy:default/web Allow 14500 SRC:  DEST:  0 "],
     Ok tt).
Proof.
  refine (logPacket_non_ipv4_frame controller ipv6PacketIn
            {| tableName := "IngressRule";
               npRef := "AntreaNetworkPolicy:default/web";
               disposition := "Allow"; ofPriority := "14500";
               srcIP := ""; destIP := ""; pktLength := 0; protocolStr := "" |}
            _ _).
  - by vm_compute.
  - discriminate.
Defined.

Lemma handlers_effects_apart_witness :
  isPacketOut
    (@Printf (Z * Z)
       "IngressRule AntreaNetworkPolicy:default/web Allow 14500 SRC: 10.0.0.1 DEST: 10.0.0.2 40 TCP")
    = false.
Proof.
  refine (proj1 (handlers_effects_apart controller logOnlyPacketIn) _ _).
  replace (logPacket controller logOnlyPacketIn).1 with
    [@Invoke (Z * Z) LogPacketH;
     Printf "IngressRule AntreaNetworkPolicy:default/web Allow 14500 SRC: 10.0.0.1 DEST: 10.0.0.2 40 TCP"]
    by (by vm_compute).
  rewrite !elem_of_cons. auto.
Defined.

Lemma rejectRequest_answers_sender_witness :
  "00:00:00:00:00:02" = MAC_String mac2 /\
  "00:00:00:00:00:01" = MAC_String mac1 /\
  "10.0.0.2" = IP_String pod2 /\
  "10.0.0.1" = IP_String pod1 /\
  exists sIface dIface,
    GetInterfaceByIP store (IP_String pod2) = Some sIface /\
    GetInterfaceByIP store (IP_String pod1) = Some dIface /\
    4 = uint32 (OFPort sIface) /\
    3 = uint32 (OFPort dIface).
Proof.
  refine (rejectRequest_answers_sender controller
            (tcpPacketIn 1000 (NXRegister 7))
            (ipv4Packet pod1 pod2 Type_TCP (tcpHeader 1000))
            "00:00:00:00:00:02" "00:00:00:00:00:01" "10.0.0.2" "10.0.0.1" 4 3
            _ _ _).
  - reflexivity.
  - reflexivity.
  - replace (rejectRequest controller (tcpPacketIn 1000 (NXRegister 7))).1 with
      [@Invoke (Z * Z) RejectRequestH;
       CallGenBasePacketOutBuilder "00:00:00:00:00:02" "00:00:00:00:00:01"
         "10.0.0.2" "10.0.0.1" 4 3;
       CallSendTCPReject (4, 3) 80 4000 0 1001 false]
      by (by vm_compute).
    rewrite !elem_of_cons. auto.
Defined.

Lemma rejectRequest_flags_witness : false = false /\ 0 = 0.
Proof.
  refine (proj1 (rejectRequest_flags controller
                   (tcpPacketIn 1000 (NXRegister 7)))
            (4, 3) 80 4000 0 1001 false _).
  replace (rejectRequest controller (tcpPacketIn 1000 (NXRegister 7))).1 with
    [@Invoke (Z * Z) RejectRequestH;
     CallGenBasePacketOutBuilder "00:00:00:00:00:02" "00:00:00:00:00:01"
       "10.0.0.2" "10.0.0.1" 4 3;
     CallSendTCPReject (4, 3) 80 4000 0 1001 false]
    by (by vm_compute).
  rewrite !elem_of_cons. auto.
Defined.

Lemma rejectRequest_protocol_choice_witness :
  (forall b ICMPData isIPv6,
     CallSendICMPReject b ICMPData isIPv6
       ∉ (rejectRequest controller (tcpPacketIn 1000 (NXRegister 7))).1) /\
  (forall b srcPort dstPort seqNum ackNum isIPv6,
     CallSendTCPReject b srcPort dstPort seqNum ackNum isIPv6
       ∉ (rejectRequest controller udpPacketIn).1).
Proof.
  split.
  - refine (proj1 (rejectRequest_protocol_choice controller
                     (tcpPacketIn 1000 (NXRegister 7))
                     "10.0.0.2" "10.0.0.1" 6 20 _) _); by vm_compute.
  - refine (proj2 (rejectRequest_protocol_choice controller udpPacketIn
                     "10.0.0.2" "10.0.0.1" 17 20 _) _); by vm_compute.
Defined.

Lemma rejectRequest_mismatched_frame_witness :
  exists msg,
    rejectRequest controller mismatchedPacketIn =
      ([Invoke RejectRequestH], Panic msg).
Proof.
  apply (rejectRequest_mismatched_frame controller mismatchedPacketIn).
  left. split; [reflexivity|]. intros p. discriminate.
Defined.

Lemma rejectRequest_error_paths_witness :
  rejectRequest brokenController udpPacketIn =
    ([Invoke RejectRequestH;
      CallGenBasePacketOutBuilder "00:00:00:00:00:02" "00:00:00:00:00:01"
        "10.0.0.2" "10.0.0.1" 4 3],
     Err "no bridge") /\
  rejectRequest controller shortTcpPacketIn =
    ([Invoke RejectRequestH;
      CallGenBasePacketOutBuilder "00:00:00:00:00:02" "00:00:00:00:00:01"
        "10.0.0.2" "10.0.0.1" 4 3],
     Err "the []byte is too short to unmarshal a full TCP message").
Proof.
  split.
  - refine (proj1 (rejectRequest_error_paths brokenController udpPacketIn
                     "10.0.0.2" "10.0.0.1" 17 20
                     {| OFPort := 4 |} {| OFPort := 3 |} _ _ _)
              "no bridge" _); by vm_compute.
  - refine (proj2 (rejectRequest_error_paths controller shortTcpPacketIn
                     "10.0.0.2" "10.0.0.1" 6 20
                     {| OFPort := 4 |} {| OFPort := 3 |} _ _ _)
              (4, 3) (take 4 (tcpHeader 1000))
              "the []byte is too short to unmarshal a full TCP message"
              _ _ _ _); by vm_compute.
Defined.

Lemma rejectRequest_short_packet_witness :
  rejectRequest controller shortUdpPacketIn =
    ([Invoke RejectRequestH;
      CallGenBasePacketOutBuilder "00:00:00:00:00:02" "00:00:00:00:00:01"
        "10.0.0.2" "10.0.0.1" 4 3],
     Panic "slice bounds out of range").
Proof.
  refine (rejectRequest_short_packet controller shortUdpPacketIn
            "10.0.0.2" "10.0.0.1" 17 20 {| OFPort := 4 |} {| OFPort := 3 |}
            (4, 3) _ _ _ _ _ _); by vm_compute.
Defined.

Lemma getTCPHeaderData_result_witness :
  0 = 0 /\ 0 <= 1001 < 2 ^ 32 /\
  exists bytes tcpIn,
    TCP_UnmarshalBinary bytes = Ok tcpIn /\
    (carries (MsgIPv4 (ipv4Packet pod1 pod2 Type_TCP (tcpHeader 1000))) bytes \/
     (MsgIPv4 (ipv4Packet pod1 pod2 Type_TCP (tcpHeader 1000)) = MsgOther /\
      bytes = [])) /\
    80 = PortDst tcpIn /\ 4000 = PortSrc tcpIn /\
    1001 = (SeqNum tcpIn + 1) mod 2 ^ 32.
Proof.
  apply (getTCPHeaderData_result
           (MsgIPv4 (ipv4Packet pod1 pod2 Type_TCP (tcpHeader 1000)))
           80 4000 0 1001).
  by vm_compute.
Defined.

Lemma logPacket_allow_on_other_table_witness :
  getMatch (Matches otherTablePacketIn) (TableId otherTablePacketIn)
    DispositionAllow = None /\
  exists msg,
    logPacket controller otherTablePacketIn = ([Invoke LogPacketH], Panic msg).
Proof.
  apply (logPacket_allow_on_other_table controller otherTablePacketIn).
  - by vm_compute.
  - simpl. rewrite !elem_of_cons, elem_of_nil. intros [|[|[|]]]; done.
  - simpl. rewrite !elem_of_cons, elem_of_nil. intros [|[|[|]]]; done.
Defined.

End PacketInMoreRuns.

(** ** More on the policy query handler *)

Section HandlerMore.
Import Handler.
Context {NP IC : Type}.
Implicit Types (aq : AgentQuerier NP IC) (query : Values).
Implicit Types (encodeErr : NetworkPolicyList NP -> option string).

(** X17: whatever the query, the source type of the filter is one of the
    three policy types or empty; a reference that is none of the nine
    shorthands is not an error, it gives the empty source type. *)
Theorem NewFilterFromURLQuery_source_type query :
  SourceType (NewFilterFromURLQuery query) ∈
    [""; K8sNetworkPolicy; AntreaClusterNetworkPolicy; AntreaNetworkPolicy] /\
  (Get query "reference" ∉
     ["np"; "NP"; "k8snp"; "K8snp"; "K8sNP"; "cnp"; "CNP"; "anp"; "ANP"] ->
   SourceType (NewFilterFromURLQuery query) = "").
Proof.
  unfold NewFilterFromURLQuery. simpl. split.
  - destruct (mapToNetworkPolicyType !! Get query "reference") as [t|] eqn:Ht;
      simpl; [|rewrite !elem_of_cons; auto].
    apply elem_of_list_to_map_2 in Ht.
    repeat (apply elem_of_cons in Ht as [[= _ <-]|Ht];
            [rewrite !elem_of_cons; auto|]).
    by apply elem_of_nil in Ht.
  - intros Hnot. unfold mapToNetworkPolicyType.
    by rewrite not_elem_of_list_to_map_1 by exact Hnot.
Qed.

(** X18: every request is answered once.  Either the handler writes the
    400 error and nothing else, or it makes its queries, encodes one
    policy list, and writes the 500 error after it exactly when the
    encoder failed, with the encoder's message. *)
Theorem HandleFunc_single_response encodeErr aq query :
  HandleFunc encodeErr aq query =
    [HttpError "With a pod name, namespace must be provided" 400] \/
  exists queries obj,
    (forall e, e ∈ queries ->
       (exists f, e = QueryNetworkPolicies f) \/
       (exists pod ns f, e = QueryAppliedNetworkPolicies pod ns f) \/
       (exists pod ns, e = QueryContainerInterfacesByPod pod ns)) /\
    HandleFunc encodeErr aq query =
      queries ++ JSONEncode obj ::
        match encodeErr obj with
        | Some err => [HttpError ("Failed to encode response: " +:+ err) 500]
        | None => []
        end.
Proof.
  unfold HandleFunc. set (f := NewFilterFromURLQuery query).
  destruct (String.eqb (Pod f) "") eqn:Hpod; cbn [negb].
  - right. exists [QueryNetworkPolicies f], {| Items := GetNetworkPolicies aq f |}.
    split; [|reflexivity].
    intros e He. apply list_elem_of_singleton in He. eauto.
  - destruct (String.eqb (Namespace f) "") eqn:Hns; [by left|]. right.
    destruct (GetContainerInterfacesByPod aq (Pod f) (Namespace f)) as [|i l].
    + exists [QueryContainerInterfacesByPod (Pod f) (Namespace f)],
        {| Items := [] |}.
      split; [|reflexivity].
      intros e He. apply list_elem_of_singleton in He. eauto 10.
    + exists [QueryContainerInterfacesByPod (Pod f) (Namespace f);
              QueryAppliedNetworkPolicies (Pod f) (Namespace f) f],
        {| Items := GetAppliedNetworkPolicies aq (Pod f) (Namespace f) f |}.
      split; [|reflexivity].
      intros e He. rewrite !elem_of_cons, elem_of_nil in He.
      destruct He as [->|[->|[]]]; eauto 10.
Qed.

(** X19: without a pod name the handler never consults the interface
    store and never asks for applied policies, also when a namespace is
    given: the namespace only travels in the filter handed to
    [GetNetworkPolicies]. *)
Theorem HandleFunc_without_pod encodeErr aq query :
  Pod (NewFilterFromURLQuery query) = "" ->
  (forall pod ns,
     QueryContainerInterfacesByPod pod ns ∉ HandleFunc encodeErr aq query) /\
  (forall pod ns f,
     QueryAppliedNetworkPolicies pod ns f ∉ HandleFunc encodeErr aq query) /\
  QueryNetworkPolicies
    {| Name := Get query "name"; Namespace := Get query "namespace";
       Pod := ""; SourceType := SourceType (NewFilterFromURLQuery query) |}
    ∈ HandleFunc encodeErr aq query.
Proof.
  intros Hpod.
  assert (Hf : {| Name := Get query "name"; Namespace := Get query "namespace";
                  Pod := "";
                  SourceType := SourceType (NewFilterFromURLQuery query) |} =
               NewFilterFromURLQuery query).
  { unfold NewFilterFromURLQuery in *. simpl in *. by rewrite Hpod. }
  rewrite Hf.
  assert (Hrun : exists tail,
            HandleFunc encodeErr aq query =
              QueryNetworkPolicies (NewFilterFromURLQuery query) ::
              JSONEncode
                {| Items := GetNetworkPolicies aq (NewFilterFromURLQuery query) |} ::
              tail /\
            forall e, e ∈ tail -> exists msg, e = HttpError msg 500).
  { unfold HandleFunc. rewrite Hpod. simpl. eexists. split; [reflexivity|].
    intros e. destruct (encodeErr _); intros Hin.
    - apply list_elem_of_singleton in Hin. eauto.
    - by apply elem_of_nil in Hin. }
  destruct Hrun as (tail & -> & Htail).
  repeat split.
  - intros pod ns Hin.
    repeat (apply elem_of_cons in Hin as [Hin|Hin]; [discriminate|]).
    by destruct (Htail _ Hin).
  - intros pod ns f' Hin.
    repeat (apply elem_of_cons in Hin as [Hin|Hin]; [discriminate|]).
    by destruct (Htail _ Hin).
  - apply elem_of_cons. by left.
Qed.

End HandlerMore.

Section HandlerMoreRuns.
Import Handler Sample.

Lemma NewFilterFromURLQuery_source_type_witness :
  SourceType (NewFilterFromURLQuery {[ "reference" := ["acnp"] ]}) = "".
Proof.
  refine (proj2 (NewFilterFromURLQuery_source_type
                   {[ "reference" := ["acnp"] ]}) _).
  replace (Get {[ "reference" := ["acnp"] ]} "reference") with "acnp"
    by (by vm_compute).
  rewrite !elem_of_cons, elem_of_nil.
  intros [|[|[|[|[|[|[|[|[|]]]]]]]]]; done.
Defined.

Lemma HandleFunc_single_response_witness :
  exists queries obj,
    (forall e, e ∈ queries ->
       (exists f, e = QueryNetworkPolicies f) \/
       (exists pod ns f, e = QueryAppliedNetworkPolicies pod ns f) \/
       (exists pod ns, e = QueryContainerInterfacesByPod pod ns)) /\
    HandleFunc (fun _ => Some "unsupported value") querier
      {[ "pod" := ["web-0"]; "namespace" := ["default"] ]} =
      queries ++
      [JSONEncode obj;
       HttpError "Failed to encode response: unsupported value" 500].
Proof.
  destruct (HandleFunc_single_response (fun _ => Some "unsupported value")
              querier {[ "pod" := ["web-0"]; "namespace" := ["default"] ]})
    as [Hbad|(queries & obj & Hq & Hrun)].
  - exfalso. vm_compute in Hbad. discriminate.
  - exists queries, obj. split; [exact Hq|exact Hrun].
Defined.

Lemma HandleFunc_without_pod_witness :
  QueryNetworkPolicies
    {| Name := ""; Namespace := "kube-system"; Pod := ""; SourceType := "" |}
    ∈ HandleFunc encodeOk querier {[ "namespace" := ["kube-system"] ]}.
Proof.
  refine (proj2 (proj2 (HandleFunc_without_pod encodeOk querier
                          {[ "namespace" := ["kube-system"] ]} _))).
  by vm_compute.
Defined.

End HandlerMoreRuns.

(** ** The generated metrics client *)

Section MetricsClientFacts.
Import MetricsClient.
Context {G O : Type}.
Implicit Types (opts : ListOptions O).

Lemma int64_in_range (z : Z) : - 2 ^ 63 <= z < 2 ^ 63 -> int64 z = z.
Proof. intros Hz. unfold int64. rewrite Z.mod_small; lia. Qed.

Lemma int64_bounds (z : Z) : - 2 ^ 63 <= int64 z < 2 ^ 63.
Proof.
  unfold int64. pose proof (Z.mod_pos_bound (z + 2 ^ 63) (2 ^ 64)). lia.
Qed.

(** X20: [List] and [Watch] put the same timeout on the request: zero
    when [TimeoutSeconds] is nil; exactly that many seconds when it is
    between -9223372036 and 9223372036; for a larger value the
    multiplication by [time.Second] overflows [int64] and the timeout is
    less than the seconds asked for. *)
Theorem request_timeout_seconds opts :
  (exists d, In (ReqTimeout d) (@List G O opts) /\
             In (ReqTimeout d) (@Watch G O opts) /\
             d = requestTimeout opts) /\
  (TimeoutSeconds opts = None -> requestTimeout opts = 0) /\
  (forall s, TimeoutSeconds opts = Some s ->
     - 9223372036 <= s <= 9223372036 ->
     requestTimeout opts = s * Second) /\
  (forall s, TimeoutSeconds opts = Some s ->
     9223372036 < s < 2 ^ 63 ->
     requestTimeout opts < s * Second).
Proof.
  split; [|split; [|split]].
  - exists (requestTimeout opts). simpl. tauto.
  - intros Hnil. unfold requestTimeout. by rewrite Hnil.
  - intros s Hs Hrange. unfold requestTimeout, Second. rewrite Hs.
    rewrite (int64_in_range s) by lia. apply int64_in_range. lia.
  - intros s Hs Hrange. unfold requestTimeout, Second. rewrite Hs.
    rewrite (int64_in_range s) by lia.
    pose proof (int64_bounds (s * 1000000000)). lia.
Qed.

End MetricsClientFacts.

Section MetricsClientRuns.
Import MetricsClient.

Lemma request_timeout_seconds_witness :
  requestTimeout
    {| WatchOpt := false; TimeoutSeconds := Some 30; others := tt |} =
    30 * Second /\
  requestTimeout
    {| WatchOpt := false; TimeoutSeconds := Some 9223372037; others := tt |} <
    9223372037 * Second.
Proof.
  split.
  - refine (proj1 (proj2 (proj2 (@request_timeout_seconds unit unit
              {| WatchOpt := false; TimeoutSeconds := Some 30; others := tt |})))
              30 _ _); [reflexivity|lia].
  - refine (proj2 (proj2 (proj2 (@request_timeout_seconds unit unit
              {| WatchOpt := false; TimeoutSeconds := Some 9223372037;
                 others := tt |})))
              9223372037 _ _); [reflexivity|lia].
Defined.

End MetricsClientRuns.

(** ** The generated deep copies *)

Section DeepCopyFacts.
Import DeepCopy.
Context {N K : Type}.
Implicit Types (h : Heap N) (n : IPNet N) (b : IPBlock N K).
Implicit Types (s : Slice) (hd : SliceHdr).

(** A heap that keeps every byte array of another shows the same bytes
    through the slices of the other. *)
Lemma readBytes_weaken h h' hd :
  byteArrays h ⊆ byteArrays h' ->
  validBytes h (Some hd) ->
  readBytes h' hd = readBytes h hd.
Proof.
  intros Hsub (a & Ha & _). unfold readBytes.
  by rewrite Ha, (lookup_weaken _ _ _ _ Ha Hsub).
Qed.

Lemma validBytes_weaken h h' s :
  byteArrays h ⊆ byteArrays h' -> validBytes h s -> validBytes h' s.
Proof.
  intros Hsub. destruct s as [hd|]; [|done].
  intros (a & Ha & Hlen). exists a. split; [|done].
  by apply (lookup_weaken _ _ _ _ Ha Hsub).
Qed.

Lemma valNet_weaken h h' n :
  byteArrays h ⊆ byteArrays h' -> validNet h n -> valNet h' n = valNet h n.
Proof.
  intros Hsub Hv. unfold valNet, valBytes, validNet in *.
  destruct (IP n) as [hd|]; simpl; [|done].
  by rewrite (readBytes_weaken h h' hd).
Qed.

Lemma readBytes_length h hd :
  validBytes h (Some hd) -> length (readBytes h hd) = len hd.
Proof.
  intros (a & Ha & Hlen). unfold readBytes. rewrite Ha. simpl.
  rewrite length_take, length_drop. lia.
Qed.

Lemma fresh_byte_array h : byteArrays h !! fresh (dom (byteArrays h)) = None.
Proof. apply not_elem_of_dom, is_fresh. Qed.

Lemma fresh_net_array h : netArrays h !! fresh (dom (netArrays h)) = None.
Proof. apply not_elem_of_dom, is_fresh. Qed.

(** [make] followed by [copy], in one step: the fresh array holds the
    bytes the source shows. *)
Lemma makeBytes_copyBytes h hd :
  validBytes h (Some hd) ->
  copyBytes (makeBytes h (len hd)).1 (makeBytes h (len hd)).2 (Some hd) =
    {| byteArrays :=
         <[fresh (dom (byteArrays h)) := readBytes h hd]> (byteArrays h);
       netArrays := netArrays h |}.
Proof.
  intros Hv. unfold copyBytes, makeBytes. simpl. f_equal.
  rewrite alter_insert_eq. f_equal.
  set (h1 := {| byteArrays := _; netArrays := _ |}).
  assert (Hread : readBytes h1 hd = readBytes h hd).
  { apply readBytes_weaken; [|done]. simpl.
    apply insert_subseteq, fresh_byte_array. }
  rewrite Hread, take_ge by (by rewrite readBytes_length).
  rewrite readBytes_length by done.
  by rewrite drop_replicate, Nat.sub_diag, app_nil_r.
Qed.

(** [IPNet.DeepCopyInto] in closed form. *)
Lemma IPNet_DeepCopyInto_eq h n :
  validNet h n ->
  IPNet_DeepCopyInto h n =
    match IP n with
    | Some hd =>
        ({| byteArrays :=
              <[fresh (dom (byteArrays h)) := readBytes h hd]> (byteArrays h);
            netArrays := netArrays h |},
         {| IP := Some {| arr := fresh (dom (byteArrays h)); off := 0;
                          len := len hd |};
            netOthers := netOthers n |})
    | None => (h, n)
    end.
Proof.
  intros Hv. unfold IPNet_DeepCopyInto, validNet in *.
  destruct (IP n) as [hd|]; [|done].
  pose proof (makeBytes_copyBytes h hd Hv) as Hcopy.
  destruct (makeBytes h (len hd)) as [h1 out] eqn:Hmk. simpl in Hcopy.
  rewrite Hcopy. unfold makeBytes in Hmk. by injection Hmk as <- <-.
Qed.

(** What the loop of [IPBlock.DeepCopyInto] needs to know of one
    [IPNet.DeepCopyInto]. *)
Lemma IPNet_DeepCopyInto_props h n :
  validNet h n ->
  valNet (IPNet_DeepCopyInto h n).1 (IPNet_DeepCopyInto h n).2 = valNet h n /\
  byteArrays h ⊆ byteArrays (IPNet_DeepCopyInto h n).1 /\
  netArrays (IPNet_DeepCopyInto h n).1 = netArrays h /\
  validNet (IPNet_DeepCopyInto h n).1 (IPNet_DeepCopyInto h n).2 /\
  (forall out, IP (IPNet_DeepCopyInto h n).2 = Some out ->
     arr out ∉ dom (byteArrays h)) /\
  (IP (IPNet_DeepCopyInto h n).2 = None <-> IP n = None).
Proof.
  intros Hv. rewrite (IPNet_DeepCopyInto_eq h n Hv).
  unfold validNet in Hv.
  destruct n as [[hd|] others]; simpl in *; [|by repeat split].
  pose proof (readBytes_length h hd Hv) as Hlen.
  split; [|split; [|split; [|split; [|split]]]].
  - unfold valNet, valBytes, readBytes at 1. simpl.
    rewrite lookup_insert_eq. simpl. by rewrite drop_0, take_ge by lia.
  - apply insert_subseteq, fresh_byte_array.
  - reflexivity.
  - unfold validNet. simpl. eexists. rewrite lookup_insert_eq.
    split; [reflexivity|]. simpl. lia.
  - intros out [= <-]. simpl. apply is_fresh.
  - split; discriminate.
Qed.

(** X21: [IPNet.DeepCopyInto] writes an [IPNet] that means the same as
    the receiver (same address bytes, nil for nil, same other fields);
    every array of the heap is left as it was; and the address of the copy
    lives in an array that did not exist before, so it shares no memory
    with the receiver. *)
Theorem IPNet_DeepCopyInto_fresh h n :
  validNet h n ->
  valNet (IPNet_DeepCopyInto h n).1 (IPNet_DeepCopyInto h n).2 = valNet h n /\
  byteArrays h ⊆ byteArrays (IPNet_DeepCopyInto h n).1 /\
  netArrays (IPNet_DeepCopyInto h n).1 = netArrays h /\
  validNet (IPNet_DeepCopyInto h n).1 (IPNet_DeepCopyInto h n).2 /\
  (forall out, IP (IPNet_DeepCopyInto h n).2 = Some out ->
     arr out ∉ dom (byteArrays h)) /\
  (IP (IPNet_DeepCopyInto h n).2 = None <-> IP n = None).
Proof.
  intros Hv. rewrite (IPNet_DeepCopyInto_eq h n Hv).
  unfold validNet in Hv.
  destruct n as [[hd|] others]; simpl in *; [|by repeat split].
  pose proof (readBytes_length h hd Hv) as Hlen.
  split; [|split; [|split; [|split; [|split]]]].
  - unfold valNet, valBytes, readBytes at 1. simpl.
    rewrite lookup_insert_eq. simpl. by rewrite drop_0, take_ge by lia.
  - apply insert_subseteq, fresh_byte_array.
  - reflexivity.
  - unfold validNet. simpl. eexists. rewrite lookup_insert_eq.
    split; [reflexivity|]. simpl. lia.
  - intros out [= <-]. simpl. apply is_fresh.
  - split; discriminate.
Qed.

(** X22: [IPAddress.DeepCopy] returns nil for nil and allocates nothing;
    for an address it returns the same bytes in an array that did not
    exist before, and leaves every array of the heap as it was.
    [IPAddress.DeepCopyInto], which has no nil check, turns a nil address
    into an empty one that is not nil. *)
Theorem IPAddress_DeepCopy_fresh h s :
  validBytes h s ->
  valBytes (IPAddress_DeepCopy h s).1 (IPAddress_DeepCopy h s).2 = valBytes h s /\
  byteArrays h ⊆ byteArrays (IPAddress_DeepCopy h s).1 /\
  (forall out, (IPAddress_DeepCopy h s).2 = Some out ->
     arr out ∉ dom (byteArrays h)) /\
  (s = None -> IPAddress_DeepCopy h s = (h, None)) /\
  valBytes (IPAddress_DeepCopyInto h None).1 (IPAddress_DeepCopyInto h None).2 =
    Some [].
Proof.
  intros Hv. destruct s as [hd|]; unfold IPAddress_DeepCopy.
  - unfold IPAddress_DeepCopyInto. cbn [sliceLen].
    pose proof (makeBytes_copyBytes h hd Hv) as Hcopy.
    pose proof (readBytes_length h hd Hv) as Hlen.
    destruct (makeBytes h (len hd)) as [h1 out] eqn:Hmk. simpl in Hcopy.
    unfold makeBytes in Hmk. injection Hmk as <- <-. cbn [fst snd].
    rewrite Hcopy.
    split; [|split; [|split; [|split]]].
    + unfold valBytes, readBytes at 1. simpl. rewrite lookup_insert_eq. simpl.
      by rewrite drop_0, take_ge by lia.
    + simpl. apply insert_subseteq, fresh_byte_array.
    + intros o [= <-]. simpl. apply is_fresh.
    + discriminate.
    + unfold valBytes, readBytes. simpl. by rewrite take_0.
  - split; [done|]. split; [done|]. split; [discriminate|]. split; [done|].
    unfold valBytes, readBytes. simpl. by rewrite take_0.
Qed.

Lemma valNet_same_bytes h h' n :
  byteArrays h = byteArrays h' -> valNet h n = valNet h' n.
Proof.
  intros Hb. unfold valNet, valBytes, readBytes. by rewrite Hb.
Qed.

Lemma validNet_weaken h h' n :
  byteArrays h ⊆ byteArrays h' -> validNet h n -> validNet h' n.
Proof. apply validBytes_weaken. Qed.

Lemma readNets_length h hd :
  (exists a, netArrays h !! arr hd = Some a /\
             (off hd + len hd <= length a)%nat) ->
  length (readNets h hd) = len hd.
Proof.
  intros (a & Ha & Hlen). unfold readNets. rewrite Ha. simpl.
  rewrite length_take, length_drop. lia.
Qed.

(** The loop of [IPBlock.DeepCopyInto] after [k] turns: the byte arrays
    it started with are still there; the fresh array holds [k] copies,
    which mean what the first [k] elements of [in] mean and live in byte
    arrays allocated by the loop, followed by zero values. *)
Lemma copyExcept_loop (zero : IPNet N) h1 (e : SliceHdr) (k : nat) :
  validNets h1 (Some e) ->
  (k <= len e)%nat ->
  exists hk ys,
    foldl (copyExcept e {| arr := fresh (dom (netArrays h1)); off := 0;
                           len := len e |})
      {| byteArrays := byteArrays h1;
         netArrays := <[fresh (dom (netArrays h1)) := replicate (len e) zero]>
                        (netArrays h1) |}
      (seq 0 k) = hk /\
    byteArrays h1 ⊆ byteArrays hk /\
    netArrays hk =
      <[fresh (dom (netArrays h1)) := ys ++ replicate (len e - k) zero]>
        (netArrays h1) /\
    length ys = k /\
    valNet hk <$> ys = valNet h1 <$> take k (readNets h1 e) /\
    (forall y, y ∈ ys ->
       validNet hk y /\
       forall o, IP y = Some o -> arr o ∉ dom (byteArrays h1)).
Proof.
  intros [Harr Helems] Hk. set (lo := fresh (dom (netArrays h1))).
  pose proof (readNets_length h1 e Harr) as Hlen.
  assert (Hne : arr e <> lo).
  { destruct Harr as (a & Ha & _). intros Heq.
    pose proof (fresh_net_array h1) as Hfresh. fold lo in Hfresh.
    rewrite <- Heq, Ha in Hfresh. discriminate. }
  induction k as [|k IH].
  - eexists _, []. split; [reflexivity|]. simpl.
    rewrite Nat.sub_0_r.
    split; [by apply (reflexivity (R := (⊆)))|]. split; [done|].
    split; [done|]. split; [done|].
    intros y Hy. by apply elem_of_nil in Hy.
  - destruct IH as (hk & ys & Hfold & Hsub & Hnets & Hys & Hval & Hfresh);
      [lia|].
    rewrite seq_S, foldl_snoc, Hfold. simpl.
    assert (Hread : readNets hk e = readNets h1 e).
    { unfold readNets. by rewrite Hnets, lookup_insert_ne. }
    destruct (readNets h1 e !! k) as [elem|] eqn:Helem;
      [|apply lookup_ge_None in Helem; lia].
    assert (Hvelem : validNet h1 elem).
    { apply Helems. eapply list_elem_of_lookup_2. exact Helem. }
    assert (Hvk : validNet hk elem) by (by eapply validNet_weaken).
    unfold copyExcept. rewrite Hread, Helem.
    destruct (IPNet_DeepCopyInto_props hk elem Hvk)
      as (Hcval & Hcsub & Hcnets & Hcvalid & Hcfresh & _).
    destruct (IPNet_DeepCopyInto hk elem) as [h' copied]. simpl in *.
    exists (storeNet h' {| arr := lo; off := 0; len := len e |} k copied),
      (ys ++ [copied]).
    split; [reflexivity|]. simpl.
    split; [by etrans|].
    split.
    { rewrite Hcnets, Hnets, alter_insert_eq. f_equal.
      rewrite insert_app_r_alt by lia. rewrite Hys, Nat.sub_diag.
      replace (len e - k)%nat with (S (len e - S k)) by lia.
      simpl. by rewrite <- app_assoc. }
    split; [rewrite length_app; simpl; lia|].
    split.
    { rewrite fmap_app, (take_S_r _ _ _ Helem), fmap_app. simpl.
      f_equal.
      - rewrite <- Hval. apply list_fmap_ext. intros i y Hy.
        rewrite <- (valNet_same_bytes h').
        + apply valNet_weaken; [done|].
          apply Hfresh. by eapply list_elem_of_lookup_2.
        + reflexivity.
      - f_equal. rewrite <- (valNet_same_bytes h') by reflexivity.
        rewrite Hcval. by apply valNet_weaken. }
    intros y Hy. apply elem_of_app in Hy as [Hy|Hy].
    + destruct (Hfresh y Hy) as [Hyv Hyf]. split; [|exact Hyf].
      unfold validNet in *. eapply validBytes_weaken; [|exact Hyv]. done.
    + apply list_elem_of_singleton in Hy. subst y. split; [exact Hcvalid|].
      intros o Ho Hin. apply (Hcfresh o Ho).
      apply elem_of_dom. apply elem_of_dom in Hin as [a Ha].
      exists a. by apply (lookup_weaken _ _ _ _ Ha Hsub).
Qed.

(** X23: [IPBlock.DeepCopyInto] writes an [IPBlock] that means the same
    as the receiver: same CIDR, same list of exceptions (nil for nil),
    same other fields.  Every array of the heap is left as it was, and the
    copy shares no memory with the receiver: the address of its CIDR, the
    array of its exceptions and the address of each exception live in
    arrays that did not exist before. *)
Theorem IPBlock_DeepCopyInto_fresh (zero : IPNet N) h b :
  validBlock h b ->
  valBlock (IPBlock_DeepCopyInto zero h b).1 (IPBlock_DeepCopyInto zero h b).2 =
    valBlock h b /\
  byteArrays h ⊆ byteArrays (IPBlock_DeepCopyInto zero h b).1 /\
  netArrays h ⊆ netArrays (IPBlock_DeepCopyInto zero h b).1 /\
  (forall o, IP (CIDR (IPBlock_DeepCopyInto zero h b).2) = Some o ->
     arr o ∉ dom (byteArrays h)) /\
  (forall o, Except (IPBlock_DeepCopyInto zero h b).2 = Some o ->
     (arr o ∉ dom (netArrays h)) /\
     (forall y, y ∈ readNets (IPBlock_DeepCopyInto zero h b).1 o ->
        forall oi, IP y = Some oi -> arr oi ∉ dom (byteArrays h))) /\
  (Except (IPBlock_DeepCopyInto zero h b).2 = None <-> Except b = None).
Proof.
  intros [Hc He]. unfold IPBlock_DeepCopyInto.
  destruct (IPNet_DeepCopyInto_props h (CIDR b) Hc)
    as (Hcval & Hcsub & Hcnets & Hcvalid & Hcfresh & _).
  destruct (IPNet_DeepCopyInto h (CIDR b)) as [h1 cidr]. simpl in *.
  destruct (Except b) as [e|] eqn:Hexc; simpl.
  2:{ unfold valBlock. simpl. rewrite Hcval, Hexc, Hcnets.
      repeat split; try done. }
  assert (Hread1 : readNets h1 e = readNets h e).
  { unfold readNets. by rewrite Hcnets. }
  assert (He1 : validNets h1 (Some e)).
  { destruct He as [Harr Helems]. split.
    - by rewrite Hcnets.
    - intros y Hy. rewrite Hread1 in Hy.
      eapply validNet_weaken; [exact Hcsub|]. by apply Helems. }
  destruct (copyExcept_loop zero h1 e (len e) He1 (le_n _))
    as (hk & ys & Hfold & Hsub & Hnets & Hys & Hval & Hfresh).
  unfold makeNets. cbn [fst snd]. rewrite Hfold. clear Hfold.
  rewrite Nat.sub_diag, app_nil_r in Hnets. simpl in Hnets.
  assert (Hlen : length (readNets h1 e) = len e).
  { apply readNets_length. by destruct He1. }
  assert (Hout : readNets hk {| arr := fresh (dom (netArrays h1)); off := 0;
                                len := len e |} = ys).
  { unfold readNets. simpl. rewrite Hnets, lookup_insert_eq. simpl.
    by rewrite drop_0, take_ge by lia. }
  split; [|split; [|split; [|split; [|split]]]].
  - assert (Hv1 : valNet hk cidr = valNet h (CIDR b)).
    { rewrite <- Hcval. by apply valNet_weaken. }
    assert (Hv2 : valNets hk (Some {| arr := fresh (dom (netArrays h1));
                                      off := 0; len := len e |}) =
                  valNets h (Some e)).
    { unfold valNets. simpl. f_equal. rewrite Hout, Hval.
      rewrite take_ge by lia. rewrite Hread1.
      apply list_fmap_ext. intros i y Hy.
      apply valNet_weaken; [done|].
      destruct He as [_ Helems]. apply Helems.
      by eapply list_elem_of_lookup_2. }
    unfold valBlock. cbn [CIDR Except blockOthers]. by rewrite Hexc, Hv1, Hv2.
  - by etrans.
  - rewrite Hnets, <- Hcnets. apply insert_subseteq, fresh_net_array.
  - exact Hcfresh.
  - intros o [= <-]. simpl. split.
    + rewrite <- Hcnets. apply is_fresh.
    + rewrite Hout. intros y Hy oi Hoi Hin.
      destruct (Hfresh y Hy) as [_ Hyf]. apply (Hyf oi Hoi).
      apply elem_of_dom. apply elem_of_dom in Hin as [a Ha].
      exists a. by apply (lookup_weaken _ _ _ _ Ha Hcsub).
  - split; discriminate.
Qed.

(** X24: a later write through the copy does not reach the receiver:
    whatever is stored in the fresh byte array of the copy's address, the
    receiver of [IPNet.DeepCopyInto] still means what it meant. *)
Theorem IPNet_DeepCopyInto_independent h n out (data : list byte) :
  validNet h n ->
  IP (IPNet_DeepCopyInto h n).2 = Some out ->
  valNet
    {| byteArrays :=
         <[arr out := data]> (byteArrays (IPNet_DeepCopyInto h n).1);
       netArrays := netArrays (IPNet_DeepCopyInto h n).1 |}
    n = valNet h n.
Proof.
  intros Hv Hout.
  rewrite (IPNet_DeepCopyInto_eq h n Hv) in Hout |- *.
  unfold validNet in Hv.
  destruct n as [[hd|] others]; simpl in *; [|discriminate].
  injection Hout as <-. simpl. rewrite insert_insert_eq.
  apply valNet_weaken; [|done]. simpl.
  apply insert_subseteq, fresh_byte_array.
Qed.

End DeepCopyFacts.

(** The deep copies on the sample heap. *)

Section DeepCopyRuns.
Import DeepCopy Sample.

Lemma net10_valid : validNet heap net10.
Proof. eexists. split; [reflexivity|]. simpl. lia. Qed.

Lemma block10_valid : validBlock heap block10.
Proof.
  split; [exact net10_valid|]. split.
  - eexists. split; [reflexivity|]. simpl. lia.
  - intros n Hn. vm_compute in Hn. apply list_elem_of_singleton in Hn.
    subst n. eexists. split; [reflexivity|]. simpl. lia.
Qed.

Lemma IPNet_DeepCopyInto_fresh_witness :
  valNet (IPNet_DeepCopyInto heap net10).1 (IPNet_DeepCopyInto heap net10).2 =
    (Some [byte_of_Z 10; x00; x00; x00], 8) /\
  (forall out, IP (IPNet_DeepCopyInto heap net10).2 = Some out ->
     arr out ∉ dom (byteArrays heap)).
Proof.
  destruct (IPNet_DeepCopyInto_fresh heap net10 net10_valid)
    as (Hval & _ & _ & _ & Hfresh & _).
  split; [|exact Hfresh]. rewrite Hval. reflexivity.
Defined.

Lemma IPAddress_DeepCopy_fresh_witness :
  valBytes (IPAddress_DeepCopy heap (IP net10)).1
    (IPAddress_DeepCopy heap (IP net10)).2 =
    Some [byte_of_Z 10; x00; x00; x00].
Proof.
  destruct (IPAddress_DeepCopy_fresh heap (IP net10) net10_valid)
    as (Hval & _).
  rewrite Hval. reflexivity.
Defined.

Lemma IPBlock_DeepCopyInto_fresh_witness :
  valBlock (IPBlock_DeepCopyInto net10 heap block10).1
    (IPBlock_DeepCopyInto net10 heap block10).2 =
    ((Some [byte_of_Z 10; x00; x00; x00], 8),
     Some [(Some [byte_of_Z 10; x00; byte_of_Z 1; x00], 24)], tt).
Proof.
  destruct (IPBlock_DeepCopyInto_fresh net10 heap block10 block10_valid)
    as (Hval & _).
  rewrite Hval. reflexivity.
Defined.

Lemma IPNet_DeepCopyInto_independent_witness :
  valNet
    {| byteArrays :=
         <[2%positive := [x00; x00; x00; x00]]>
           (byteArrays (IPNet_DeepCopyInto heap net10).1);
       netArrays := netArrays (IPNet_DeepCopyInto heap net10).1 |}
    net10 = valNet heap net10.
Proof.
  apply (IPNet_DeepCopyInto_independent heap net10
           {| arr := 2%positive; off := 0; len := 4 |} [x00; x00; x00; x00]).
  - exact net10_valid.
  - by vm_compute.
Defined.

End DeepCopyRuns.

(** ** The audit handler: which register it reads, what line it writes *)

Section AuditFacts.
Import PacketIn AuditLog.
Context `{Openflow} `{Ops} `{Libs} {B : Type}.
Implicit Types (c : Controller B) (pktIn : PacketIn).

Lemma append_assoc_r (a b d : string) : (a +:+ b) +:+ d = a +:+ (b +:+ d).
Proof.
  induction a as [|x a IH]; [reflexivity|].
  change (String x ((a +:+ b) +:+ d) = String x (a +:+ (b +:+ d))).
  by rewrite IH.
Qed.

(** [getPacketInfo] leaves the policy fields as they are. *)
Lemma getPacketInfo_keeps_policy pktIn ob ob2 t :
  @getPacketInfo _ _ B pktIn ob = (t, Ok ob2) ->
  tableName ob2 = tableName ob /\ npRef ob2 = npRef ob /\
  disposition ob2 = disposition ob /\ ofPriority ob2 = ofPriority ob.
Proof.
  unfold getPacketInfo. destruct (_ =? _).
  - destruct (EthData (Data pktIn)) as [p| |]; try discriminate.
    by intros [= <- <-].
  - by intros [= <- <-].
Qed.

(** [getPacketInfo] off IPv4 leaves the packet fields as they are. *)
Lemma getPacketInfo_other_frame pktIn ob ob2 t :
  @getPacketInfo _ _ B pktIn ob = (t, Ok ob2) ->
  Ethertype (Data pktIn) <> EtherTypeIPv4 ->
  ob2 = ob.
Proof.
  unfold getPacketInfo. intros Hrun Het. apply Z.eqb_neq in Het.
  rewrite Het in Hrun. by injection Hrun as _ <-.
Qed.

(** A register read without a range succeeds only on a register value. *)
Lemma getInfoInReg_raw (regMatch : option MatchField) conj :
  getInfoInReg regMatch None = Ok conj ->
  exists m, regMatch = Some m /\ Value m = NXRegister conj.
Proof.
  unfold getInfoInReg. destruct regMatch as [m|]; [|discriminate].
  destruct (Value m) as [d|] eqn:Hv; [|discriminate].
  intros [= <-]. eauto.
Qed.

(** C6: for a packet-in whose disposition register decodes to [info],
    the audit handler reads the conjunction ID from one register, chosen
    by [info] and the packet's table: the not-allow register when [info]
    is not Allow, else the egress register on an egress table and the
    ingress register on an ingress table (egress and ingress tables being
    different tables).  With a conjunction ID in that register,
    [getNetworkPolicyInfo] stores the policy reference and priority the
    client holds for it; every line [logPacket] prints carries them; and
    when that register holds no register value [logPacket] fails, whatever
    the other registers hold. *)
Theorem logPacket_selects_register c pktIn info reg :
  (forall t, t ∈ GetAntreaPolicyEgressTables ++ [EgressRuleTable] ->
             t ∉ GetAntreaPolicyIngressTables ++ [IngressRuleTable]) ->
  getInfoInReg (getMatchRegField (Matches pktIn) (uint32 DispositionMarkReg))
    (Some APDispositionMarkRange) = Ok info ->
  (info <> DispositionAllow /\ reg = CNPNotAllowConjIDReg) \/
  (info = DispositionAllow /\
   TableId pktIn ∈ GetAntreaPolicyEgressTables ++ [EgressRuleTable] /\
   reg = EgressReg) \/
  (info = DispositionAllow /\
   TableId pktIn ∈ GetAntreaPolicyIngressTables ++ [IngressRuleTable] /\
   reg = IngressReg) ->
  (forall ob m conj,
     getMatchRegField (Matches pktIn) (uint32 reg) = Some m ->
     Value m = NXRegister conj ->
     getNetworkPolicyInfo pktIn c ob =
       ([], Ok {| tableName := GetFlowTableName (TableId pktIn);
                  npRef := (GetPolicyInfoFromConjunction (ofClient c) conj).1;
                  disposition := default "" (DispositionToString !! info);
                  ofPriority := (GetPolicyInfoFromConjunction (ofClient c) conj).2;
                  srcIP := srcIP ob; destIP := destIP ob;
                  pktLength := pktLength ob;
                  protocolStr := protocolStr ob |})) /\
  (forall t, logPacket c pktIn = (t, Ok tt) ->
     exists m conj rest,
       getMatchRegField (Matches pktIn) (uint32 reg) = Some m /\
       Value m = NXRegister conj /\
       t = [Invoke LogPacketH;
            Printf (GetFlowTableName (TableId pktIn) +:+ " " +:+
                    (GetPolicyInfoFromConjunction (ofClient c) conj).1 +:+ " " +:+
                    default "" (DispositionToString !! info) +:+ " " +:+
                    (GetPolicyInfoFromConjunction (ofClient c) conj).2 +:+ " " +:+
                    rest)]) /\
  (forall m,
     getMatchRegField (Matches pktIn) (uint32 reg) = Some m ->
     Value m = OtherValue ->
     logPacket c pktIn =
       ([Invoke LogPacketH],
        Err "received error while retrieving NetworkPolicy info: received error while unloading conjunction id from reg: register value cannot be retrieved")).
Proof.
  intros Hdisj Hdisp Hreg.
  assert (Hsel : getMatch (Matches pktIn) (TableId pktIn) info =
                 getMatchRegField (Matches pktIn) (uint32 reg)).
  { rewrite getMatch_cases.
    destruct Hreg as [[Hne ->]|[(-> & He & ->)|(-> & Hi & ->)]].
    - by rewrite decide_False.
    - by rewrite !decide_True.
    - rewrite decide_True by done.
      rewrite decide_False by (intros He; by apply (Hdisj (TableId pktIn))).
      by rewrite decide_True. }
  split; [|split].
  - intros ob m conj Hm Hv. unfold getNetworkPolicyInfo.
    rewrite Hdisp. simpl. rewrite Hsel, Hm. unfold getInfoInReg. rewrite Hv.
    simpl. by destruct (GetPolicyInfoFromConjunction (ofClient c) conj).
  - intros t Hrun.
    destruct (logPacket_prints_one_line c pktIn t Hrun)
      as (ob1 & ob2 & Hinfo & Hpkt & ->).
    destruct (getNetworkPolicyInfo_fields _ _ _ _ _ Hinfo)
      as (info' & conj & Hdisp' & Hconj & Htab & Hd & Hpol & _).
    rewrite Hdisp in Hdisp'. injection Hdisp' as <-.
    rewrite Hsel in Hconj.
    destruct (getInfoInReg_raw _ _ Hconj) as (m & Hm & Hv).
    destruct (getPacketInfo_keeps_policy _ _ _ _ Hpkt) as (-> & -> & -> & ->).
    exists m, conj. eexists. split; [exact Hm|]. split; [exact Hv|].
    rewrite Htab, Hd, <- Hpol. reflexivity.
  - intros m Hm Hv. unfold logPacket, getNetworkPolicyInfo.
    rewrite Hdisp. simpl. rewrite Hsel, Hm. unfold getInfoInReg. rewrite Hv.
    reflexivity.
Qed.

(** The header of the logger [initLogger] makes: date and time of day to
    the microsecond, each followed by a space. *)
Lemma initLogger_header dirNotExist ti logger now :
  initLogger dirNotExist None = (ti, Ok logger) ->
  formatHeader logger now =
    itoa (year now) 4 +:+ "/" +:+ itoa (month now) 2 +:+ "/" +:+
    itoa (day now) 2 +:+ " " +:+
    itoa (hour now) 2 +:+ ":" +:+ itoa (minute now) 2 +:+ ":" +:+
    itoa (second now) 2 +:+ "." +:+ itoa (nanosecond now / 1000) 6 +:+ " ".
Proof.
  unfold initLogger. intros [= _ <-]. unfold formatHeader. simpl.
  rewrite append_empty_r.
  repeat (rewrite append_assoc_r; simpl). reflexivity.
Qed.

(** C7 (amended): a packet-in logging event that succeeds makes exactly
    one [Printf] call on the audit logger, and the logger that [initLogger]
    makes writes for it one string to the audit log: the date and the time
    of day to the microsecond, each followed by a space, then the record,
    then a newline unless the record already ends in one.  The record is
    made of the table name, the policy reference, the disposition, the
    priority, "SRC:", the source IP, "DEST:", the destination IP, the
    packet length and the protocol name, in this order, separated by single
    spaces.  The table name is that of the packet's table, the disposition
    is the name of the decoded disposition (empty for a value without a
    name), policy reference and priority are those of the conjunction ID.
    Source IP, destination IP, length and protocol name are those of the
    IPv4 packet when the frame is IPv4 (the protocol name empty for a
    protocol without a name); for any other frame they are empty, empty, 0
    and empty. *)
Theorem logPacket_writes_one_line c pktIn t dirNotExist ti logger now :
  initLogger dirNotExist None = (ti, Ok logger) ->
  logPacket c pktIn = (t, Ok tt) ->
  exists ob info conj record,
    record = tableName ob +:+ " " +:+ npRef ob +:+ " " +:+
             disposition ob +:+ " " +:+ ofPriority ob +:+ " " +:+
             "SRC:" +:+ " " +:+ srcIP ob +:+ " " +:+
             "DEST:" +:+ " " +:+ destIP ob +:+ " " +:+
             pretty (pktLength ob) +:+ " " +:+ protocolStr ob /\
    t = [Invoke LogPacketH; Printf record] /\
    auditLog logger now t =
      [(itoa (year now) 4 +:+ "/" +:+ itoa (month now) 2 +:+ "/" +:+
        itoa (day now) 2 +:+ " " +:+
        itoa (hour now) 2 +:+ ":" +:+ itoa (minute now) 2 +:+ ":" +:+
        itoa (second now) 2 +:+ "." +:+ itoa (nanosecond now / 1000) 6 +:+
        " ") +:+
       record +:+ (if endsWithNewline record then "" else newline)] /\
    getInfoInReg (getMatchRegField (Matches pktIn) (uint32 DispositionMarkReg))
      (Some APDispositionMarkRange) = Ok info /\
    getInfoInReg (getMatch (Matches pktIn) (TableId pktIn) info) None = Ok conj /\
    tableName ob = GetFlowTableName (TableId pktIn) /\
    disposition ob = default "" (DispositionToString !! info) /\
    (npRef ob, ofPriority ob) = GetPolicyInfoFromConjunction (ofClient c) conj /\
    (Ethertype (Data pktIn) = EtherTypeIPv4 ->
       exists ipPacket,
         EthData (Data pktIn) = MsgIPv4 ipPacket /\
         srcIP ob = IP_String (NWSrc ipPacket) /\
         destIP ob = IP_String (NWDst ipPacket) /\
         pktLength ob = Length ipPacket /\
         protocolStr ob = default "" (ProtocolsToString !! Protocol ipPacket)) /\
    (Ethertype (Data pktIn) <> EtherTypeIPv4 ->
       srcIP ob = "" /\ destIP ob = "" /\ pktLength ob = 0 /\
       protocolStr ob = "").
Proof.
  intros Hinit Hrun.
  destruct (logPacket_prints_one_line c pktIn t Hrun)
    as (ob1 & ob2 & Hinfo & Hpkt & ->).
  destruct (getNetworkPolicyInfo_fields _ _ _ _ _ Hinfo)
    as (info & conj & Hdisp & Hconj & Htab & Hd & Hpol & Hs & Hdst & Hlen & Hpr).
  destruct (getPacketInfo_keeps_policy _ _ _ _ Hpkt) as (Ht2 & Hn2 & Hd2 & Ho2).
  exists ob2, info, conj. eexists. split; [reflexivity|].
  split; [reflexivity|]. split.
  { unfold auditLog. cbn [omap list_omap written]. unfold Output.
    by rewrite (initLogger_header _ _ _ now Hinit). }
  split; [exact Hdisp|]. split; [exact Hconj|].
  split; [by rewrite Ht2|]. split; [by rewrite Hd2|].
  split; [by rewrite Hn2, Ho2|]. split.
  - intros Het.
    destruct (getPacketInfo_fields _ _ _ _ Hpkt Het)
      as (ip & Hip & Hf1 & Hf2 & Hf3 & Hf4 & _).
    by exists ip.
  - intros Hne. rewrite (getPacketInfo_other_frame _ _ _ _ Hpkt Hne).
    by rewrite Hs, Hdst, Hlen, Hpr.
Qed.

End AuditFacts.

Section AuditRuns.
Import PacketIn AuditLog Sample.
#[local] Existing Instances openflow ops libs.

(** No table of the sample bridge is both an egress and an ingress table. *)
Lemma sample_tables_disjoint (t : Z) :
  t ∈ GetAntreaPolicyEgressTables ++ [EgressRuleTable] ->
  t ∉ GetAntreaPolicyIngressTables ++ [IngressRuleTable].
Proof.
  intros Hegress Hingress. simpl in Hegress, Hingress.
  repeat (apply elem_of_cons in Hegress as [->|Hegress];
          [repeat (apply elem_of_cons in Hingress as [Hingress|Hingress];
                   [discriminate|]);
           by apply elem_of_nil in Hingress|]).
  by apply elem_of_nil in Hegress.
Defined.

(** Registers 3, 5 and 6 hold the conjunction IDs 30, 50 and 60 of three
    different policies: an Allow on the ingress rule table logs the policy
    of register 6, an Allow on the egress rule table that of register 5, a
    Drop that of register 3; an unreadable ingress register fails the
    event. *)
Lemma logPacket_selects_register_witness :
  getNetworkPolicyInfo (registersPacketIn 90 0) policyController new_logInfo =
    ([], Ok {| tableName := "IngressRule";
               npRef := "AntreaNetworkPolicy:default/ingress";
               disposition := "Allow"; ofPriority := "300";
               srcIP := ""; destIP := ""; pktLength := 0;
               protocolStr := "" |}) /\
  getNetworkPolicyInfo (registersPacketIn 50 0) policyController new_logInfo =
    ([], Ok {| tableName := "EgressRule";
               npRef := "AntreaNetworkPolicy:default/egress";
               disposition := "Allow"; ofPriority := "200";
               srcIP := ""; destIP := ""; pktLength := 0;
               protocolStr := "" |}) /\
  getNetworkPolicyInfo (registersPacketIn 50 1) policyController new_logInfo =
    ([], Ok {| tableName := "EgressRule";
               npRef := "AntreaClusterNetworkPolicy:deny-all";
               disposition := "Drop"; ofPriority := "100";
               srcIP := ""; destIP := ""; pktLength := 0;
               protocolStr := "" |}) /\
  logPacket controller (tcpPacketIn 1000 OtherValue) =
    ([Invoke LogPacketH],
     Err "received error while retrieving NetworkPolicy info: received error while unloading conjunction id from reg: register value cannot be retrieved").
Proof.
  split; [|split; [|split]].
  - refine (proj1 (logPacket_selects_register policyController
                     (registersPacketIn 90 0) 0 IngressReg
                     sample_tables_disjoint _ _)
              new_logInfo {| Value := NXRegister 60 |} 60 _ _).
    + by vm_compute.
    + right. right. split; [reflexivity|]. split; [|reflexivity].
      simpl. rewrite !elem_of_cons. auto.
    + by vm_compute.
    + reflexivity.
  - refine (proj1 (logPacket_selects_register policyController
                     (registersPacketIn 50 0) 0 EgressReg
                     sample_tables_disjoint _ _)
              new_logInfo {| Value := NXRegister 50 |} 50 _ _).
    + by vm_compute.
    + right. left. split; [reflexivity|]. split; [|reflexivity].
      simpl. rewrite !elem_of_cons. auto.
    + by vm_compute.
    + reflexivity.
  - refine (proj1 (logPacket_selects_register policyController
                     (registersPacketIn 50 1) 1 CNPNotAllowConjIDReg
                     sample_tables_disjoint _ _)
              new_logInfo {| Value := NXRegister 30 |} 30 _ _).
    + by vm_compute.
    + left. split; [discriminate|reflexivity].
    + by vm_compute.
    + reflexivity.
  - refine (proj2 (proj2 (logPacket_selects_register controller
                            (tcpPacketIn 1000 OtherValue) 0 IngressReg
                            sample_tables_disjoint _ _))
              {| Value := OtherValue |} _ _).
    + by vm_compute.
    + right. right. split; [reflexivity|]. split; [|reflexivity].
      simpl. rewrite !elem_of_cons. auto.
    + by vm_compute.
    + reflexivity.
Defined.

(** The line of the sample packet-in, written on 2 November 2020 at
    09:05:07.123456789. *)
Lemma logPacket_writes_one_line_witness :
  auditLog {| logPrefix := ""; logFlag := 5 |} morning
    [@Invoke (Z * Z) LogPacketH;
     Printf "IngressRule AntreaNetworkPolicy:default/web Allow 14500 SRC: 10.0.0.1 DEST: 10.0.0.2 40 TCP"] =
    ["2020/11/02 09:05:07.123456 IngressRule AntreaNetworkPolicy:default/web Allow 14500 SRC: 10.0.0.1 DEST: 10.0.0.2 40 TCP" +:+ newline].
Proof.
  destruct (logPacket_writes_one_line controller
              (tcpPacketIn 1000 (NXRegister 7))
              [Invoke LogPacketH;
               Printf "IngressRule AntreaNetworkPolicy:default/web Allow 14500 SRC: 10.0.0.1 DEST: 10.0.0.2 40 TCP"]
              false
              [Stat logDir; OpenFile (logDir +:+ logfileName) 438;
               SetOutput {| Filename := logDir +:+ logfileName;
                            MaxSize := 500; MaxBackups := 3; MaxAge := 28;
                            Compress := true |}]
              {| logPrefix := ""; logFlag := 5 |} morning)
    as (ob & info & conj & record & _ & Ht & Hlog & _).
  - by vm_compute.
  - by vm_compute.
  - injection Ht as <-. rewrite Hlog. by vm_compute.
Defined.

(** The line in the audit log does not start with the table name, and an
    event that succeeds on an IPv6 frame leaves "SRC:" and "DEST:" without
    addresses and the line without a protocol name: neither line has the
    ten fields of the record. *)
Lemma audit_line_header_and_empty_fields :
  (initLogger false None).2 = Ok {| logPrefix := ""; logFlag := 5 |} /\
  (logPacket controller (tcpPacketIn 1000 (NXRegister 7))).2 = Ok tt /\
  map Fields
    (auditLog {| logPrefix := ""; logFlag := 5 |} morning
       (logPacket controller (tcpPacketIn 1000 (NXRegister 7))).1) =
    [["2020/11/02"; "09:05:07.123456"; "IngressRule";
      "AntreaNetworkPolicy:default/web"; "Allow"; "14500";
      "SRC:"; "10.0.0.1"; "DEST:"; "10.0.0.2"; "40"; "TCP"]] /\
  map Fields
    (auditLog {| logPrefix := ""; logFlag := 5 |} morning
       (logPacket controller (tcpPacketIn 1000 (NXRegister 7))).1) <>
    [["IngressRule"; "AntreaNetworkPolicy:default/web"; "Allow"; "14500";
      "SRC:"; "10.0.0.1"; "DEST:"; "10.0.0.2"; "40"; "TCP"]] /\
  (logPacket controller ipv6PacketIn).2 = Ok tt /\
  map Fields
    (auditLog {| logPrefix := ""; logFlag := 5 |} morning
       (logPacket controller ipv6PacketIn).1) =
    [["2020/11/02"; "09:05:07.123456"; "IngressRule";
      "AntreaNetworkPolicy:default/web"; "Allow"; "14500";
      "SRC:"; "DEST:"; "0"]].
Proof. repeat split; by vm_compute. Qed.

End AuditRuns.
